(** * Shallow embedding of the ns-3 802.11ad SEM post-processing scripts

    Two Python files are modelled:
    - [sem_utils.py]: the MCS table, [data_rate_bps_2_float_mbps],
      [output_to_arr], [jain_fairness] and [sta_data_rate_mbps];
    - [sem-conference-showcase.py]: [getAppDataRate], the packet-trace
      metrics, the metric-extraction functions and the bar-plot section of
      each preset.

    Modelling conventions.
    - A Python exception is a constructor of [pyexc]; fallible code returns
      [exc A] (an error monad with [let*] notation).
    - A Python [float] or numpy [float64] handled by [getAppDataRate], the
      preset parameter lists and [jain_fairness] is an IEEE 754 binary64
      value ([spec_float] with 53 bits of precision, rounding to nearest,
      ties to even).  An int operand of a float operation is converted to
      the nearest binary64 value first ([OverflowError] beyond the range);
      Python float division by zero raises [ZeroDivisionError].
    - The other float computations ([data_rate_bps_2_float_mbps],
      [sta_data_rate_mbps], the packet-trace metrics and the bar positions
      of [bar_plot]) are modelled by their exact values: rationals (QArith,
      normalised by [Qred]), extended with [nan] and the infinities in the
      type [npf] for numpy results; rounding is not modelled there.
    - A numpy [int64] cell holds an integer of [-2^63, 2^63).
    - Python [str] is modelled by Rocq [string] (8-bit characters); the
      Unicode-specific behaviour of [str.isnumeric] is not modelled.
    - Python [assert] is modelled as executed (no [-O] flag). *)

From Stdlib Require Import ZArith QArith Qabs Qround Lqa Lia List Bool.
From Stdlib Require Import Strings.String Strings.Ascii Numbers.DecimalString.
From Stdlib Require Numbers.DecimalPos.
From Stdlib Require Import Floats.SpecFloat.
Import ListNotations.

Set Warnings "-register-all".

Open Scope string_scope.

(* ------------------------------------------------------------------ *)
(** ** Python exceptions and the error monad *)

Inductive pyexc :=
| AssertionError
| ValueError
| KeyError
| IndexError
| TypeError
| NameError
| UnboundLocalError
| AttributeError
| ZeroDivisionError
| OverflowError.

Inductive exc (A : Type) : Type :=
| Ok (a : A)
| Err (e : pyexc).
Arguments Ok {A} a.
Arguments Err {A} e.

Definition exc_bind {A B} (m : exc A) (k : A -> exc B) : exc B :=
  match m with
  | Ok a => k a
  | Err e => Err e
  end.

Notation "'let*' x ':=' m 'in' k" := (exc_bind m (fun x => k))
  (at level 200, x name, m at level 100, k at level 200).

(** [assert cond] *)
Definition py_assert (b : bool) : exc unit :=
  if b then Ok tt else Err AssertionError.

Fixpoint exc_map {A B} (f : A -> exc B) (l : list A) : exc (list B) :=
  match l with
  | [] => Ok []
  | x :: l' => let* y := f x in let* ys := exc_map f l' in Ok (y :: ys)
  end.

(* ------------------------------------------------------------------ *)
(** ** IEEE 754 binary64 arithmetic

    Python's [float] and numpy's [float64]: [spec_float] values with 53
    bits of precision and maximal exponent 1024; every operation returns
    the nearest value to the exact result, ties to even. *)

Definition f64 := spec_float.

Definition f64_add : f64 -> f64 -> f64 := SFadd 53 1024.
Definition f64_mul : f64 -> f64 -> f64 := SFmul 53 1024.
Definition f64_div : f64 -> f64 -> f64 := SFdiv 53 1024.

(** The binary64 value nearest to an integer (ties to even); [inf] past the
    largest finite value. *)
Definition f64_of_Z (z : Z) : f64 := binary_normalize 53 1024 z 0 false.

(** The decimal literal [n / d] (for example [0.75] is [f64_lit 75 100]):
    with [n] and [d] below [2^53] both are exact and the quotient is
    rounded once, as Python's parser rounds the literal. *)
Definition f64_lit (n : Z) (d : positive) : f64 :=
  f64_div (f64_of_Z n) (f64_of_Z (Zpos d)).

Definition f64_is_zero (x : f64) : bool :=
  match x with S754_zero _ => true | _ => false end.

Definition f64_is_inf (x : f64) : bool :=
  match x with S754_infinity _ => true | _ => false end.

(** Python's conversion of an int to a float ([float(z)], and the implicit
    conversion of an int operand of a float operation): [OverflowError]
    when the rounded value is out of range. *)
Definition py_float_of_int (z : Z) : exc f64 :=
  if f64_is_inf (f64_of_Z z) then Err OverflowError else Ok (f64_of_Z z).

(** Python float division [a / b]. *)
Definition py_fdiv (a b : f64) : exc f64 :=
  if f64_is_zero b then Err ZeroDivisionError else Ok (f64_div a b).

(** The magnitude [m * 2^e] of a finite value, as a rational. *)
Definition f64_abs_value (m : positive) (e : Z) : Q :=
  match e with
  | Zneg p => Zpos m # Pos.pow 2 p
  | _ => inject_Z (Zpos m * 2 ^ e)
  end.

(** The real value of a zero or finite value; [None] for [inf] and [nan]. *)
Definition f64_value (x : f64) : option Q :=
  match x with
  | S754_zero _ => Some 0
  | S754_finite s m e => Some (if s then - f64_abs_value m e else f64_abs_value m e)
  | S754_infinity _ | S754_nan => None
  end.

(* ------------------------------------------------------------------ *)
(** ** Python values

    The dynamically typed values that flow through the driver: ints,
    floats, strings and lists. *)

Inductive pyval :=
| PyInt (z : Z)
| PyFloat (f : f64)
| PyStr (s : string)
| PyList (l : list pyval).

(** Python float arithmetic (exact, normalised). *)
Definition pf_mul (a b : Q) : Q := Qred (a * b).
Definition pf_sub (a b : Q) : Q := Qred (a - b).
Definition pf_div (a b : Q) : exc Q :=
  if Qeq_bool b 0 then Err ZeroDivisionError else Ok (Qred (a / b)).

(** Association-list lookup: Python [d[k]] on a dict with string keys. *)
Fixpoint dict_get {V} (k : string) (d : list (string * V)) : option V :=
  match d with
  | [] => None
  | (k', v) :: d' => if String.eqb k k' then Some v else dict_get k d'
  end.

Definition dict_getitem {V} (k : string) (d : list (string * V)) : exc V :=
  match dict_get k d with
  | Some v => Ok v
  | None => Err KeyError
  end.

(** [d[k] = v] on an ordered dict: replace in place, or append. *)
Fixpoint dict_setitem {V} (k : string) (v : V) (d : list (string * V))
  : list (string * V) :=
  match d with
  | [] => [(k, v)]
  | (k', v') :: d' =>
      if String.eqb k k' then (k', v) :: d' else (k', v') :: dict_setitem k v d'
  end.

(* ------------------------------------------------------------------ *)
(** ** Python string helpers *)

Definition is_digit (c : ascii) : bool :=
  let n := nat_of_ascii c in (48 <=? n)%nat && (n <=? 57)%nat.

Definition digit_value (c : ascii) : Z := Z.of_nat (nat_of_ascii c) - 48.

(** [s.isnumeric()] on an ASCII string: non-empty and all decimal digits. *)
Definition isnumeric (s : string) : bool :=
  match s with
  | EmptyString => false
  | _ => forallb is_digit (list_ascii_of_string s)
  end.

(** Value of a string of decimal digits (most significant first). *)
Definition decimal_value (s : string) : Z :=
  fold_left (fun acc c => (acc * 10 + digit_value c)%Z) (list_ascii_of_string s) 0%Z.

(** [s[-k:]] and [s[:-k]] for [k > 0]. *)
Definition str_last (k : nat) (s : string) : string :=
  let l := list_ascii_of_string s in
  string_of_list_ascii (skipn (List.length l - k) l).

Definition str_drop_last (k : nat) (s : string) : string :=
  let l := list_ascii_of_string s in
  string_of_list_ascii (firstn (List.length l - k) l).

(** [float(s)] for a string of ASCII decimal digits. *)
Definition float_of_digits (s : string) : Q := inject_Z (decimal_value s).

(* ------------------------------------------------------------------ *)
(** ** sem_utils.py: [data_rate_bps_2_float_mbps] *)

Definition data_rate_bps_2_float_mbps (str : string) : exc Q :=
  if String.eqb (str_last 3 str) "bps" && isnumeric (str_drop_last 3 str) then
    pf_div (float_of_digits (str_drop_last 3 str)) (1000000 # 1)
  else if String.eqb (str_last 4 str) "kbps" && isnumeric (str_drop_last 4 str) then
    pf_div (float_of_digits (str_drop_last 4 str)) (1000 # 1)
  else if String.eqb (str_last 4 str) "Mbps" && isnumeric (str_drop_last 4 str) then
    Ok (float_of_digits (str_drop_last 4 str))
  else if String.eqb (str_last 4 str) "Gbps" && isnumeric (str_drop_last 4 str) then
    Ok (pf_mul (float_of_digits (str_drop_last 4 str)) (1000 # 1))
  else
    Err ValueError.

(* ------------------------------------------------------------------ *)
(** ** sem_utils.py: the MCS table [MCS_PARAMS]

    Each entry is a dict with keys ["phy_rate"], ["mac_rate"] and, for
    DMG_MCS1 to DMG_MCS8 only, ["app_rate"]; a missing ["app_rate"] key is
    [None] here. *)

Record mcs_entry := {
  phy_rate : f64;
  mac_rate : Z;
  app_rate : option Z
}.

(** The ["phy_rate"] literals ([27.5e6], [385e6], ...) are whole numbers
    below [2^53], so each is the exact binary64 value of that integer. *)
Definition MCS_PARAMS : list (string * mcs_entry) := [
  ("DMG_MCS0",  {| phy_rate := f64_of_Z 27500000;   mac_rate := 36610012;   app_rate := None |});
  ("DMG_MCS1",  {| phy_rate := f64_of_Z 385000000;  mac_rate := 379110719;  app_rate := Some 371355860%Z |});
  ("DMG_MCS2",  {| phy_rate := f64_of_Z 770000000;  mac_rate := 746778458;  app_rate := Some 740066284%Z |});
  ("DMG_MCS3",  {| phy_rate := f64_of_Z 962500000;  mac_rate := 926434274;  app_rate := Some 924107739%Z |});
  ("DMG_MCS4",  {| phy_rate := f64_of_Z 1155000000; mac_rate := 1103569911; app_rate := Some 1107782893%Z |});
  ("DMG_MCS5",  {| phy_rate := f64_of_Z 1251250000; mac_rate := 1191091513; app_rate := Some 1199790607%Z |});
  ("DMG_MCS6",  {| phy_rate := f64_of_Z 1540000000; mac_rate := 1449796626; app_rate := Some 1474081443%Z |});
  ("DMG_MCS7",  {| phy_rate := f64_of_Z 1925000000; mac_rate := 1785991762; app_rate := Some 1838998395%Z |});
  ("DMG_MCS8",  {| phy_rate := f64_of_Z 2310000000; mac_rate := 2113204353; app_rate := Some 2202194744%Z |});
  ("DMG_MCS9",  {| phy_rate := f64_of_Z 2502500000; mac_rate := 2273125221; app_rate := None |});
  ("DMG_MCS10", {| phy_rate := f64_of_Z 3080000000; mac_rate := 2739606669; app_rate := None |});
  ("DMG_MCS11", {| phy_rate := f64_of_Z 3850000000; mac_rate := 3332262090; app_rate := None |});
  ("DMG_MCS12", {| phy_rate := f64_of_Z 4620000000; mac_rate := 3893826210; app_rate := None |})
].

(* ------------------------------------------------------------------ *)
(** ** Number formatting: ["{:.0f}".format(x)]

    A finite value is written as its exact value rounded to an integer,
    ties to even; the sign bit gives a leading minus sign, also when the
    value rounds to zero or is [-0.0] (["-0"]); [inf] and [nan] are written
    ["inf"] and ["nan"]. *)

Definition Z_to_string (z : Z) : string :=
  NilEmpty.string_of_int (Z.to_int z).

(** Round a non-negative rational to the nearest integer, ties to even. *)
Definition round_half_even (q : Q) : Z :=
  let n := Qnum q in
  let d := Zpos (Qden q) in
  let fl := (n / d)%Z in
  let r := (n mod d)%Z in
  match Z.compare (2 * r) d with
  | Lt => fl
  | Gt => fl + 1
  | Eq => if Z.even fl then fl else fl + 1
  end.

Definition sign_prefix (s : bool) : string := if s then "-" else "".

Definition format_0f (x : f64) : string :=
  match x with
  | S754_zero s => sign_prefix s ++ "0"
  | S754_finite s m e => sign_prefix s ++ Z_to_string (round_half_even (f64_abs_value m e))
  | S754_infinity s => sign_prefix s ++ "inf"
  | S754_nan => "nan"
  end.

(* ------------------------------------------------------------------ *)
(** ** sem-conference-showcase.py: [getAppDataRate] *)

(** [r * x] for a list element [r] and a Python float [x]: an int [r] is
    converted to a float first. *)
Definition py_mul_float (r : pyval) (x : f64) : exc f64 :=
  match r with
  | PyInt z => let* rf := py_float_of_int z in Ok (f64_mul rf x)
  | PyFloat f => Ok (f64_mul f x)
  | PyStr _ | PyList _ => Err TypeError
  end.

Definition getAppDataRate (phy_mode : string) (num_stas : Z)
    (norm_offered_traffic : pyval) : exc pyval :=
  let* entry := dict_getitem phy_mode MCS_PARAMS in
  (* phy_rate / num_stas: float / int converts the int *)
  let* n := py_float_of_int num_stas in
  let* rate_per_sta := py_fdiv (phy_rate entry) n in
  match norm_offered_traffic with
  | PyList l =>
      let* sta_rate :=
        exc_map (fun r => let* x := py_mul_float r rate_per_sta in
                          Ok (PyStr (format_0f x ++ "bps"))) l in
      Ok (PyList sta_rate)
  | PyFloat f =>
      Ok (PyList [PyStr (format_0f (f64_mul f rate_per_sta) ++ "bps")])
  | PyInt _ | PyStr _ =>
      (* [ValueError(...)] is built and discarded; [return sta_rate] then
         reads the unassigned local [sta_rate]. *)
      Err UnboundLocalError
  end.

(* ------------------------------------------------------------------ *)
(** ** sem_utils.py: [sta_data_rate_mbps] *)

Definition sta_data_rate_mbps (num_stas : Z) (phy_mode : string)
    (norm_offered_traffic : Q) (mpduAggregationSize : Z) : exc Q :=
  let* _ := py_assert (mpduAggregationSize =? 262143)%Z in
  let* entry := dict_getitem phy_mode MCS_PARAMS in
  let* app := match app_rate entry with
              | Some a => Ok a
              | None => Err KeyError
              end in
  let* phy_rate_mbps := pf_div (inject_Z app) (1000000 # 1) in
  let* max_rate_per_sta := pf_div phy_rate_mbps (inject_Z num_stas) in
  Ok (pf_mul norm_offered_traffic max_rate_per_sta).

(* ------------------------------------------------------------------ *)
(** ** numpy float64 values

    Exact rationals extended with [nan] and the two infinities; signed
    zeros are not modelled.  Arithmetic follows IEEE 754 on these values
    and never raises (numpy only warns). *)

Inductive npf :=
| NFin (q : Q)
| NNaN
| NPInf
| NNInf.

Definition np_neg (x : npf) : npf :=
  match x with
  | NFin q => NFin (Qred (- q))
  | NNaN => NNaN
  | NPInf => NNInf
  | NNInf => NPInf
  end.

Definition np_add (x y : npf) : npf :=
  match x, y with
  | NFin a, NFin b => NFin (Qred (a + b))
  | NNaN, _ | _, NNaN => NNaN
  | NPInf, NNInf | NNInf, NPInf => NNaN
  | NPInf, _ | _, NPInf => NPInf
  | NNInf, _ | _, NNInf => NNInf
  end.

Definition np_sub (x y : npf) : npf := np_add x (np_neg y).

(** Sign of a value: [Lt], [Eq] or [Gt]; [None] for [nan]. *)
Definition np_sign (x : npf) : option comparison :=
  match x with
  | NFin q => Some (Qcompare q 0)
  | NNaN => None
  | NPInf => Some Gt
  | NNInf => Some Lt
  end.

Definition np_inf_of_sign (c : comparison) : npf :=
  match c with Gt => NPInf | Lt => NNInf | Eq => NNaN end.

Definition sign_mul (c d : comparison) : comparison :=
  match c, d with
  | Eq, _ | _, Eq => Eq
  | Gt, Gt | Lt, Lt => Gt
  | _, _ => Lt
  end.

Definition np_mul (x y : npf) : npf :=
  match x, y with
  | NFin a, NFin b => NFin (Qred (a * b))
  | _, _ =>
      match np_sign x, np_sign y with
      | Some c, Some d => np_inf_of_sign (sign_mul c d)  (* inf * 0 = nan *)
      | _, _ => NNaN
      end
  end.

Definition np_div (x y : npf) : npf :=
  match x, y with
  | NFin a, NFin b =>
      if Qeq_bool b 0 then np_inf_of_sign (Qcompare a 0)  (* 0/0 = nan *)
      else NFin (Qred (a / b))
  | NNaN, _ | _, NNaN => NNaN
  | NFin _, _ => NFin 0                                    (* x / inf = 0 *)
  | _, NFin b =>
      match np_sign x with
      | Some c => np_inf_of_sign (sign_mul c (match Qcompare b 0 with
                                               | Eq => Gt | o => o end))
      | None => NNaN
      end
  | _, _ => NNaN                                           (* inf / inf *)
  end.

Definition np_abs (x : npf) : npf :=
  match x with
  | NFin q => NFin (Qabs q)
  | NNaN => NNaN
  | _ => NPInf
  end.

Definition np_of_Z (z : Z) : npf := NFin (inject_Z z).

(** [np.sum] and [np.mean] over a one-dimensional sequence; the mean of an
    empty sequence is [0/0 = nan]. *)
Definition np_sum (xs : list npf) : npf := fold_left np_add xs (NFin 0).

Definition np_mean (xs : list npf) : npf :=
  np_div (np_sum xs) (np_of_Z (Z.of_nat (List.length xs))).


(** [np.diff]: consecutive differences. *)
Fixpoint np_diff (xs : list npf) : list npf :=
  match xs with
  | x :: ((y :: _) as xs') => np_sub y x :: np_diff xs'
  | _ => []
  end.

(** A metric value handed to float64 code: the nearest float64 value of
    its quotient form (exact for a numerator and a denominator below
    [2^53]). *)
Definition f64_of_npf (x : npf) : f64 :=
  match x with
  | NFin q => f64_lit (Qnum q) (Qden q)
  | NNaN => S754_nan
  | NPInf => S754_infinity false
  | NNInf => S754_infinity true
  end.

(* ------------------------------------------------------------------ *)
(** ** sem_utils.py: [jain_fairness]

    [jain_fairness] on a sequence of float64 values (a Python int of the
    sequence is converted to the nearest float64 value).  [np.mean] adds
    the values with numpy's pairwise summation, starting from the identity
    [0.0], and divides by the count; [np.power(x, 2)] is [x * x]. *)

(** The eight running sums of numpy's unrolled loop, over blocks of eight. *)
Fixpoint add_blocks (k : nat) (r a : list f64) : list f64 :=
  match k with
  | O => r
  | S k' => add_blocks k' (map (fun p => f64_add (fst p) (snd p)) (combine r (firstn 8 a)))
                       (skipn 8 a)
  end.

(** numpy's [pairwise_sum]: fewer than 8 values are added in order from
    [-0.0]; up to 128 values go through the eight running sums, which are
    combined as a tree, then the remainder is added; a longer block is
    split at a multiple of 8 near its middle.  [fuel] bounds the depth of
    the splits (the length of the input suffices). *)
Fixpoint pairwise_sum (fuel : nat) (a : list f64) : f64 :=
  let n := List.length a in
  if (n <? 8)%nat then fold_left f64_add a (S754_zero true)
  else if (n <=? 128)%nat then
    let m := (n - n mod 8)%nat in
    let r := add_blocks (m / 8 - 1)%nat (firstn 8 a) (skipn 8 a) in
    let g i := nth i r (S754_zero false) in
    let res := f64_add (f64_add (f64_add (g 0%nat) (g 1%nat)) (f64_add (g 2%nat) (g 3%nat)))
                       (f64_add (f64_add (g 4%nat) (g 5%nat)) (f64_add (g 6%nat) (g 7%nat))) in
    fold_left f64_add (skipn m a) res
  else
    match fuel with
    | O => S754_nan
    | S fuel' =>
        let n2 := (n / 2 - (n / 2) mod 8)%nat in
        f64_add (pairwise_sum fuel' (firstn n2 a)) (pairwise_sum fuel' (skipn n2 a))
    end.

(** [np.mean(xs)]: the empty mean is [0.0 / 0 = nan]. *)
Definition np_mean_f64 (xs : list f64) : f64 :=
  f64_div (f64_add (S754_zero false) (pairwise_sum (List.length xs) xs))
          (f64_of_Z (Z.of_nat (List.length xs))).

(** [np.power(x, 2)] *)
Definition np_square_f64 (x : f64) : f64 := f64_mul x x.

Definition jain_fairness (xx : list f64) : f64 :=
  f64_div (np_square_f64 (np_mean_f64 xx)) (np_mean_f64 (map np_square_f64 xx)).

(* ------------------------------------------------------------------ *)
(** ** sem_utils.py: [bar_plot]

    The axis [ax] is observed through the calls made on it: one
    [ax.bar(...)] per drawn bar and possibly one [ax.legend(...)].  A
    legend handle ([bar[0]] of a [BarContainer] holding one rectangle)
    is the position of the [ax.bar] call in that sequence.  A value of
    [data] is a DataArray with its number of dimensions and, iterated,
    its values. *)

Definition pf_add (a b : Q) : Q := Qred (a + b).

Record xr := {
  xr_dims : nat;
  xr_values : list Q
}.

Inductive ax_call :=
| AxBar (x y : Q) (yerr : option Q) (width : Q) (color label : string)
| AxLegend (handles : list nat) (labels : list string).

(** [colors[i % len(colors)]] *)
Definition cycle_color (colors : list string) (i : nat) : exc string :=
  match List.length colors with
  | O => Err ZeroDivisionError
  | len => match nth_error colors (i mod len) with
           | Some c => Ok c
           | None => Err IndexError
           end
  end.

(** [enumerate(values)] without error bars, [enumerate(zip(values,
    data_yerr[name]))] with them. *)
Definition series_points (data_yerr : option (list (string * list Q))) (name : string)
    (values : list Q) : exc (list (Q * option Q)) :=
  match data_yerr with
  | None => Ok (map (fun y => (y, None)) values)
  | Some d =>
      let* errs := dict_getitem name d in
      Ok (map (fun '(y, e) => (y, Some e)) (combine values errs))
  end.

(** The inner loop: [bar = ax.bar(x + x_offset, y, ...)] for every point;
    the loop variable [bar] keeps its value from earlier series. *)
Fixpoint draw_points (tr : list ax_call) (bar : option nat) (x : nat)
    (pts : list (Q * option Q)) (x_offset width : Q) (color : exc string) (name : string)
  : exc (list ax_call * option nat) :=
  match pts with
  | [] => Ok (tr, bar)
  | (y, e) :: pts' =>
      let* c := color in
      draw_points (tr ++ [AxBar (pf_add (inject_Z (Z.of_nat x)) x_offset) y e width c name])
                  (Some (List.length tr)) (S x) pts' x_offset width color name
  end.

Inductive loop_end :=
| Returned (tr : list ax_call)
| Finished (tr : list ax_call) (bars : list nat).

(** The outer loop over [enumerate(data.items())]; a 0-dimensional value
    returns from the function. *)
Fixpoint series_loop (n_bars : nat) (colors : list string) (bar_width single_width : Q)
    (data_yerr : option (list (string * list Q))) (i : nat) (data : list (string * xr))
    (tr : list ax_call) (bar : option nat) (bars : list nat) : exc loop_end :=
  match data with
  | [] => Ok (Finished tr bars)
  | (name, values) :: data' =>
      if (xr_dims values =? 0)%nat then Ok (Returned tr)
      else
        let* half := pf_div (inject_Z (Z.of_nat n_bars)) 2 in
        let* bw2 := pf_div bar_width 2 in
        let x_offset := pf_add (pf_mul (pf_sub (inject_Z (Z.of_nat i)) half) bar_width) bw2 in
        let* pts := series_points data_yerr name (xr_values values) in
        let* r := draw_points tr bar 0 pts x_offset (pf_mul bar_width single_width)
                              (cycle_color colors i) name in
        let '(tr', bar') := r in
        match bar' with
        | None => Err UnboundLocalError  (* bars.append(bar[0]) before any bar *)
        | Some b => series_loop n_bars colors bar_width single_width data_yerr (S i) data'
                                tr' bar' (bars ++ [b])
        end
  end.

Section BarPlot.

(** [plt.rcParams['axes.prop_cycle'].by_key()['color']] *)
Variable rc_colors : list string.

Definition bar_plot (data : list (string * xr)) (data_yerr : option (list (string * list Q)))
    (colors : option (list string)) (total_width single_width : Q) (legend : bool)
  : exc (list ax_call) :=
  let colors := match colors with Some c => c | None => rc_colors end in
  let n_bars := List.length data in
  let* bar_width := pf_div total_width (inject_Z (Z.of_nat n_bars)) in
  let* out := series_loop n_bars colors bar_width single_width data_yerr 0 data [] None [] in
  match out with
  | Returned tr => Ok tr
  | Finished tr bars =>
      Ok (if legend then (tr ++ [AxLegend bars (map fst data)])%list else tr)
  end.

End BarPlot.

(* ------------------------------------------------------------------ *)
(** ** Packet traces and simulation results

    A packet-trace table (the pandas DataFrame [pkts_df]) is a list of rows
    with the columns [SrcNodeId], [TxTimestamp_ns], [RxTimestamp_ns] and
    [PktSize_B].  A simulation result holds its parameters, its output
    files (file name to text) and its identifier. *)

Record pkt_row := {
  SrcNodeId : Z;
  TxTimestamp_ns : Z;
  RxTimestamp_ns : Z;
  PktSize_B : Z
}.

Definition pkt_table := list pkt_row.

Record result := {
  res_params : list (string * pyval);
  res_output : list (string * string);
  res_id : string
}.

(** [pkts_df['RxTimestamp_ns'] - pkts_df['TxTimestamp_ns']], one row. *)
Definition pkt_delay_ns (r : pkt_row) : npf :=
  np_of_Z (RxTimestamp_ns r - TxTimestamp_ns r).

(** [compute_avg_thr_mbps]: the empty branch returns the Python int [0],
    represented by [NFin 0]. *)
Definition compute_avg_thr_mbps (pkts_df : pkt_table) : npf :=
  match pkts_df with
  | [] => NFin 0
  | r0 :: _ =>
      let tstart := np_div (np_of_Z (TxTimestamp_ns r0)) (np_of_Z 1000000000) in
      let tend := np_div (np_of_Z (RxTimestamp_ns (last pkts_df r0)))
                         (np_of_Z 1000000000) in
      let rx_mb := np_div (np_of_Z (fold_left Z.add (map PktSize_B pkts_df) 0%Z * 8))
                          (np_of_Z 1000000) in
      np_div rx_mb (np_sub tend tstart)
  end.

Definition compute_avg_delay_ms (pkts_df : pkt_table) : npf :=
  match pkts_df with
  | [] => NNaN
  | _ => np_mul (np_div (np_mean (map pkt_delay_ns pkts_df)) (np_of_Z 1000000000))
                (np_of_Z 1000)
  end.

(** [compute_avg_user_metric]: one value per node id [0 .. numStas]. *)
Definition compute_avg_user_metric (numStas : Z) (pkts_df : pkt_table)
    (metric : pkt_table -> npf) : list npf :=
  map (fun srcNodeId =>
         metric (filter (fun r => Z.eqb (SrcNodeId r) srcNodeId) pkts_df))
      (map Z.of_nat (seq 0 (Z.to_nat (numStas + 1)))).

(* ------------------------------------------------------------------ *)
(** ** The attribute namespace of the module [sem_utils]

    The module-level names bound by [sem_utils.py], in definition order
    (three imports, the MCS table and five functions).  Looking up an
    attribute the module does not bind raises [AttributeError]. *)

Inductive sem_utils_member :=
| M_np | M_pd | M_plt | M_MCS_PARAMS
| M_data_rate_bps_2_float_mbps | M_output_to_arr | M_jain_fairness
| M_bar_plot | M_sta_data_rate_mbps.

Definition sem_utils_namespace : list (string * sem_utils_member) := [
  ("np", M_np); ("pd", M_pd); ("plt", M_plt); ("MCS_PARAMS", M_MCS_PARAMS);
  ("data_rate_bps_2_float_mbps", M_data_rate_bps_2_float_mbps);
  ("output_to_arr", M_output_to_arr); ("jain_fairness", M_jain_fairness);
  ("bar_plot", M_bar_plot); ("sta_data_rate_mbps", M_sta_data_rate_mbps)
].

Definition sem_utils_getattr (name : string) : exc sem_utils_member :=
  match dict_get name sem_utils_namespace with
  | Some m => Ok m
  | None => Err AttributeError
  end.

(* ------------------------------------------------------------------ *)
(** ** The metric-extraction functions of the driver *)

Section Metrics.

(** What calling a member of [sem_utils] on a result (with
    [data_filename="packetsTrace.csv"], [column_sep=','],
    [numeric_cols='all']) would produce. *)
Variable call_member : sem_utils_member -> result -> exc pkt_table.

(** The sample standard deviation of a pandas Series (its square root is
    not rational, so it is a parameter). *)
Variable pd_std : list npf -> npf.

(** The module-level [numStas] of the [__main__] script, read by
    [compute_avg_user_metric]. *)
Variable numStas : Z.

(** [pkts_df = sem_utils.output_to_df(result, ...)] *)
Definition load_pkts_df (r : result) : exc pkt_table :=
  let* f := sem_utils_getattr "output_to_df" in
  call_member f r.

(** [result['params']['appDataRate']] passed to
    [data_rate_bps_2_float_mbps]: a list fails both suffix tests and
    raises [ValueError]; a number cannot be sliced. *)
Definition rate_param_mbps (v : pyval) : exc Q :=
  match v with
  | PyStr s => data_rate_bps_2_float_mbps s
  | PyList _ => Err ValueError
  | PyInt _ | PyFloat _ => Err TypeError
  end.

(** [compute_norm_aggr_thr]; the division is modelled as a float64
    division (the Python-int branch of an empty trace would raise on a
    zero offered rate instead). *)
Definition compute_norm_aggr_thr (num_stas : Z) (r : result) : exc npf :=
  let* pkts_df := load_pkts_df r in
  let thr_mbps := compute_avg_thr_mbps pkts_df in
  let* rate := let* v := dict_getitem "appDataRate" (res_params r) in
               rate_param_mbps v in
  let aggr_rate_mbps := pf_mul rate (inject_Z num_stas) in
  Ok (np_div thr_mbps (NFin aggr_rate_mbps)).

Definition compute_user_thr (r : result) : exc (list npf) :=
  let* pkts_df := load_pkts_df r in
  Ok (compute_avg_user_metric numStas pkts_df compute_avg_thr_mbps).

Definition compute_user_avg_delay (r : result) : exc (list npf) :=
  let* pkts_df := load_pkts_df r in
  Ok (compute_avg_user_metric numStas pkts_df compute_avg_delay_ms).

Definition compute_avg_aggr_delay_ms (r : result) : exc npf :=
  let* pkts_df := load_pkts_df r in
  Ok (compute_avg_delay_ms pkts_df).

Definition compute_std_aggr_delay_ms (r : result) : exc npf :=
  let* pkts_df := load_pkts_df r in
  Ok (match pkts_df with
      | [] => NNaN
      | _ => np_mul (np_div (pd_std (map pkt_delay_ns pkts_df)) (np_of_Z 1000000000))
                    (np_of_Z 1000)
      end).

Definition compute_avg_delay_variation_ms (r : result) : exc npf :=
  let* pkts_df := load_pkts_df r in
  Ok (if (1 <? List.length pkts_df)%nat then
        let delay_s := map (fun p => np_mul (np_div (pkt_delay_ns p) (np_of_Z 1000000000))
                                            (np_of_Z 1000)) pkts_df in
        np_mean (map np_abs (np_diff delay_s))
      else NNaN).

Definition compute_jain_fairness (r : result) : exc f64 :=
  let* pkts_df := load_pkts_df r in
  let user_thr := compute_avg_user_metric numStas pkts_df compute_avg_thr_mbps in
  Ok (jain_fairness (map f64_of_npf (tl user_thr))).

End Metrics.

(* ------------------------------------------------------------------ *)
(** ** Python string operations used by [output_to_arr] *)

Fixpoint list_prefixb (p l : list ascii) : bool :=
  match p, l with
  | [], _ => true
  | c :: p', d :: l' => Ascii.eqb c d && list_prefixb p' l'
  | _ :: _, [] => false
  end.

(** Left-to-right scan for [str.split(sep)] with a non-empty [sep]:
    [cur] is the reversed current piece; a piece is cut as soon as it ends
    with [sep]. *)
Fixpoint split_go (sep : list ascii) (l cur : list ascii) : list (list ascii) :=
  match l with
  | [] => [rev cur]
  | c :: l' =>
      let cur' := c :: cur in
      if list_prefixb (rev sep) cur' then
        rev (skipn (List.length sep) cur') :: split_go sep l' []
      else split_go sep l' cur'
  end.

(** [s.split(sep)]; an empty separator raises [ValueError]. *)
Definition py_split (s sep : string) : exc (list string) :=
  match sep with
  | EmptyString => Err ValueError
  | _ => Ok (map string_of_list_ascii
                 (split_go (list_ascii_of_string sep) (list_ascii_of_string s) []))
  end.

Fixpoint drop_while (f : ascii -> bool) (l : list ascii) : list ascii :=
  match l with
  | c :: l' => if f c then drop_while f l' else l
  | [] => []
  end.

(** The one-character string ['\n']. *)
Definition newline : string := String "010"%char EmptyString.

(** [s.rstrip('\n')] *)
Definition rstrip_newlines (s : string) : string :=
  string_of_list_ascii
    (rev (drop_while (fun c => Ascii.eqb c "010"%char)
                         (rev (list_ascii_of_string s)))).

(** ASCII characters Python's [str.strip()] removes. *)
Definition is_py_space (c : ascii) : bool :=
  let n := nat_of_ascii c in
  ((9 <=? n) && (n <=? 13))%nat || ((28 <=? n) && (n <=? 32))%nat.

(** Digits with single underscores between them, as [int()] accepts. *)
Fixpoint int_body_ok (prev_digit : bool) (l : list ascii) : bool :=
  match l with
  | [] => prev_digit
  | c :: l' =>
      if is_digit c then int_body_ok true l'
      else if Ascii.eqb c "_"%char && prev_digit then int_body_ok false l'
      else false
  end.

Definition int_body_value (l : list ascii) : Z :=
  fold_left (fun acc c => if is_digit c then (acc * 10 + digit_value c)%Z else acc) l 0%Z.

(** [int(s)] for a string: surrounding whitespace, an optional sign, then
    decimal digits (underscores between digits allowed); else
    [ValueError]. *)
Definition py_int (s : string) : exc Z :=
  let l := rev (drop_while is_py_space
                 (rev (drop_while is_py_space (list_ascii_of_string s)))) in
  let '(sgn, body) :=
    match l with
    | c :: l' => if Ascii.eqb c "-"%char then ((-1)%Z, l')
                 else if Ascii.eqb c "+"%char then (1%Z, l') else (1%Z, l)
    | [] => (1%Z, l)
    end in
  if int_body_ok false body then Ok (sgn * int_body_value body)%Z else Err ValueError.

(* ------------------------------------------------------------------ *)
(** ** numpy 2-D arrays and [output_to_arr] *)

Inductive np_dtype := DFloat64 | DInt.

(** A 2-D array: its shape, its dtype and its cells row by row; a cell of
    [np.empty] that was never written is [None]. *)
Record ndarray := {
  shape : nat * nat;
  dtype : np_dtype;
  cells : list (list (option Z))
}.

Definition np_zeros (r c : nat) : ndarray :=
  {| shape := (r, c); dtype := DFloat64; cells := repeat (repeat (Some 0%Z) c) r |}.

Fixpoint replace_nth {A} (n : nat) (x : A) (l : list A) : list A :=
  match n, l with
  | _, [] => []
  | O, _ :: l' => x :: l'
  | S n', y :: l' => y :: replace_nth n' x l'
  end.

(** A value a numpy [int64] cell can hold. *)
Definition in_int64 (z : Z) : bool := (- 2 ^ 63 <=? z)%Z && (z <? 2 ^ 63)%Z.

(** [for j, val in enumerate(line.split(column_sep)): arr[i, j] = int(val)]:
    [int(val)] is evaluated before the store; the store checks the index
    ([IndexError] past the last column), then converts the int to the
    array's [int64] ([OverflowError] out of range). *)
Fixpoint fill_row (ncols j : nat) (vals : list string) (row : list (option Z))
  : exc (list (option Z)) :=
  match vals with
  | [] => Ok row
  | v :: vs =>
      let* z := py_int v in
      if (ncols <=? j)%nat then Err IndexError
      else if negb (in_int64 z) then Err OverflowError
      else fill_row ncols (S j) vs (replace_nth j (Some z) row)
  end.

Definition output_to_arr (result : result) (data_filename column_sep : string)
    (row_sep : string) (columns : option (list string))
    (numeric_cols : option string) : exc ndarray :=
  let columns := match columns with Some c => c | None => [] end in
  (* [numeric_cols is 'all']: the literal is interned, so identity with the
     argument [numeric_cols='all'] is string equality. *)
  let* _ := py_assert (match numeric_cols with
                       | Some s => String.eqb s "all"
                       | None => false
                       end) in
  let output := res_output result in
  let* _ := py_assert (match dict_get data_filename output with
                       | Some _ => true | None => false end) in
  let* text := dict_getitem data_filename output in
  let data := rstrip_newlines text in
  let* parsed_data := py_split data row_sep in
  if (List.length parsed_data =? 0)%nat then Ok (np_zeros 0 0)
  else
    let* cols_start :=
      match columns with
      | [] => let* cs := py_split (hd "" parsed_data) column_sep in Ok (cs, 1%nat)
      | _ => Ok (columns, 0%nat)
      end in
    let '(columns, data_start_idx) := cols_start in
    let rows := skipn data_start_idx parsed_data in
    let ncols := List.length columns in
    if (1 <? List.length rows)%nat then
      let* cells :=
        exc_map (fun line => let* vals := py_split line column_sep in
                             fill_row ncols 0 vals (repeat None ncols)) rows in
      Ok {| shape := (List.length rows, ncols); dtype := DInt; cells := cells |}
    else Ok (np_zeros 0 ncols).

(* ------------------------------------------------------------------ *)
(** ** The [__main__] script: command line, presets and bar plots *)

(** The parsed command-line arguments ([argparse] types). *)
Record cli_args := {
  a_paramSet : string;
  a_numRuns : Z;
  a_applicationType : string;
  a_normOfferedTraffic : f64;
  a_socketType : string;
  a_mpduAggregationSize : Z;
  a_phyMode : string;
  a_simulationTime : f64;
  a_numStas : Z;
  a_accessCbapIfAllocated : string;
  a_biDurationUs : Z;
  a_onoffPeriodMean : f64;
  a_onoffPeriodStdev : f64
}.

Inductive preset := Basic | Onoff | OnoffStdev | SpPeriodicity | OnoffPeriodicity.

(** The [if args.paramSet == ...] chain; any other name raises
    [ValueError]. *)
Definition parse_preset (s : string) : exc preset :=
  if String.eqb s "basic" then Ok Basic
  else if String.eqb s "onoff" then Ok Onoff
  else if String.eqb s "onoff_stdev" then Ok OnoffStdev
  else if String.eqb s "spPeriodicity" then Ok SpPeriodicity
  else if String.eqb s "onoffPeriodicity" then Ok OnoffPeriodicity
  else Err ValueError.

(** [list(range(n))] *)
Definition py_range (n : Z) : list Z := map Z.of_nat (seq 0 (Z.to_nat n)).

(** The ordered [param_combination] built by [run_simulations] (the
    campaign calls that follow it are external). *)
Definition run_simulations_pc (applicationType appDataRate socketType
    mpduAggregationSize phyMode simulationTime numStas allocationPeriod
    accessCbapIfAllocated biDurationUs onoffPeriodMean onoffPeriodStdev : pyval)
    (numRuns : Z) : list (string * pyval) := [
  ("applicationType", applicationType);
  ("appDataRate", appDataRate);
  ("socketType", socketType);
  ("mpduAggregationSize", mpduAggregationSize);
  ("phyMode", phyMode);
  ("simulationTime", simulationTime);
  ("numStas", numStas);
  ("allocationPeriod", allocationPeriod);
  ("accessCbapIfAllocated", accessCbapIfAllocated);
  ("biDurationUs", biDurationUs);
  ("onoffPeriodMean", onoffPeriodMean);
  ("onoffPeriodStdev", onoffPeriodStdev);
  ("RngRun", PyList (map PyInt (py_range numRuns)))
].

Definition py_int_list (l : list Z) : pyval := PyList (map PyInt l).
Definition py_float_list (l : list f64) : pyval := PyList (map PyFloat l).

(** [[0.01, 0.1, 0.2, ..., 0.9, 1]] *)
Definition norm_offered_traffic_sweep : list pyval :=
  [PyFloat (f64_lit 1 100); PyFloat (f64_lit 1 10); PyFloat (f64_lit 2 10);
   PyFloat (f64_lit 3 10); PyFloat (f64_lit 4 10); PyFloat (f64_lit 5 10);
   PyFloat (f64_lit 6 10); PyFloat (f64_lit 7 10); PyFloat (f64_lit 8 10);
   PyFloat (f64_lit 9 10); PyInt 1].

(** [[0, 1e-3, 2e-3, 5e-3, 1e-2, 2e-2, 5e-2, 10e-2, 20e-2]] *)
Definition onOffPeriodDeviationRatio : list pyval :=
  [PyInt 0; PyFloat (f64_lit 1 1000); PyFloat (f64_lit 2 1000); PyFloat (f64_lit 5 1000);
   PyFloat (f64_lit 1 100); PyFloat (f64_lit 2 100); PyFloat (f64_lit 5 100);
   PyFloat (f64_lit 10 100); PyFloat (f64_lit 20 100)].

(** [[1, 1.75*0.5, 1.5*0.5, 1.25*0.5, 1.1*0.5, 0.5, 0.5/1.1, 0.5/1.25,
    0.5/1.5, 0.5/1.75, 1/4]]; [1/4] divides the two exact ints. *)
Definition onoffPeriodRatio : list pyval :=
  let half := f64_lit 5 10 in
  [PyInt 1; PyFloat (f64_mul (f64_lit 175 100) half); PyFloat (f64_mul (f64_lit 15 10) half);
   PyFloat (f64_mul (f64_lit 125 100) half); PyFloat (f64_mul (f64_lit 11 10) half);
   PyFloat half; PyFloat (f64_div half (f64_lit 11 10));
   PyFloat (f64_div half (f64_lit 125 100)); PyFloat (f64_div half (f64_lit 15 10));
   PyFloat (f64_div half (f64_lit 175 100)); PyFloat (f64_div (f64_of_Z 1) (f64_of_Z 4))].

(** [r * b] for a ratio [r] and an int [b]: int times int stays an int. *)
Definition py_mul_int (r : pyval) (b : Z) : exc pyval :=
  match r with
  | PyInt z => Ok (PyInt (z * b))
  | PyFloat f => let* bf := py_float_of_int b in Ok (PyFloat (f64_mul f bf))
  | PyStr _ | PyList _ => Err TypeError
  end.

(** [v / d] for a number [v] and a float [d]. *)
Definition py_div_float (v : pyval) (d : f64) : exc f64 :=
  match v with
  | PyInt z => let* vf := py_float_of_int z in py_fdiv vf d
  | PyFloat f => py_fdiv f d
  | PyStr _ | PyList _ => Err TypeError
  end.

(** The [param_combination] each preset passes to [run_simulations]
    (baseline values, then the preset's overrides). *)
Definition preset_param_combination (p : preset) (args : cli_args)
  : exc (list (string * pyval)) :=
  let phyMode := a_phyMode args in
  let numStas := a_numStas args in
  let* appDataRate0 := getAppDataRate phyMode numStas (PyFloat (a_normOfferedTraffic args)) in
  let pc appType rate alloc mean stdev :=
    run_simulations_pc appType rate (PyStr (a_socketType args))
      (PyInt (a_mpduAggregationSize args)) (PyStr phyMode)
      (PyFloat (a_simulationTime args)) (PyInt numStas) alloc
      (PyStr (a_accessCbapIfAllocated args)) (PyInt (a_biDurationUs args))
      mean stdev (a_numRuns args) in
  let mean0 := a_onoffPeriodMean args in
  match p with
  | Basic =>
      let* rate := getAppDataRate phyMode numStas (PyList norm_offered_traffic_sweep) in
      Ok (pc (PyStr (a_applicationType args)) rate (py_int_list [0; 1; 2; 3; 4]%Z)
             (PyFloat mean0) (PyFloat (a_onoffPeriodStdev args)))
  | Onoff =>
      let* rate := getAppDataRate phyMode numStas (PyList norm_offered_traffic_sweep) in
      Ok (pc (PyStr "onoff") rate (py_int_list [0; 1; 2; 3; 4]%Z)
             (PyFloat mean0) (PyFloat (a_onoffPeriodStdev args)))
  | OnoffStdev =>
      let* stdevs := exc_map (fun r => py_mul_float r mean0) onOffPeriodDeviationRatio in
      Ok (pc (PyStr "onoff") appDataRate0 (py_int_list [0; 1]%Z) (PyFloat mean0)
             (py_float_list stdevs))
  | SpPeriodicity =>
      Ok (pc (PyList [PyStr "constant"; PyStr "onoff"; PyStr "crazyTaxi"; PyStr "fourElements"])
             appDataRate0 (py_int_list [0; 1; 2; 3; 4]%Z) (PyFloat mean0)
             (PyFloat (f64_mul (f64_lit 1 100) mean0)))
  | OnoffPeriodicity =>
      let* means := exc_map (fun r => let* v := py_mul_int r (a_biDurationUs args) in
                                      py_div_float v (f64_of_Z 1000000)) onoffPeriodRatio in
      Ok (pc (PyStr "onoff") appDataRate0 (py_int_list [0; 2]%Z) (py_float_list means)
             (PyFloat (a_onoffPeriodStdev args)))
  end.

(** [len(v)] *)
Definition py_len (v : pyval) : exc Z :=
  match v with
  | PyList l => Ok (Z.of_nat (List.length l))
  | PyStr s => Ok (Z.of_nat (String.length s))
  | PyInt _ | PyFloat _ => Err TypeError
  end.

(** [v[i]] for a list or a string; negative indices count from the end. *)
Definition py_getitem (v : pyval) (i : Z) : exc pyval :=
  let get {A} (l : list A) (mk : A -> pyval) :=
    let n := Z.of_nat (List.length l) in
    let j := if (i <? 0)%Z then (i + n)%Z else i in
    if ((0 <=? j) && (j <? n))%Z then
      match nth_error l (Z.to_nat j) with Some x => Ok (mk x) | None => Err IndexError end
    else Err IndexError in
  match v with
  | PyList l => get l (fun x => x)
  | PyStr s => get (list_ascii_of_string s) (fun c => PyStr (String c EmptyString))
  | PyInt _ | PyFloat _ => Err TypeError
  end.

(** The dimension each preset pins before its bar plots, and the index of
    the value it keeps. *)
Definition bar_pin (p : preset) : option (string * Z) :=
  match p with
  | Basic => None
  | Onoff => Some ("appDataRate", (-1)%Z)
  | OnoffStdev => Some ("onoffPeriodStdev", (-1)%Z)
  | SpPeriodicity => Some ("allocationPeriod", 0%Z)
  | OnoffPeriodicity => Some ("onoffPeriodMean", (-1)%Z)
  end.

(** The bar-plot section of a preset, up to the [out_labels] it passes to
    [plot_bar_metric].  The [basic] branch reads [bar_plots_params], which
    no statement of that branch binds. *)
Definition bar_plot_section (p : preset) (param_combination : list (string * pyval))
  : exc (list string) :=
  match bar_pin p with
  | None => Err NameError
  | Some (key, idx) =>
      (* bar_plots_params = param_combination (the same dict) *)
      let* old := dict_getitem key param_combination in
      let* kept := py_getitem old idx in
      let bar_plots_params := dict_setitem key (PyList [kept]) param_combination in
      let* ns := dict_getitem "numStas" bar_plots_params in
      let* n := py_len ns in
      let* _ := py_assert (n =? 1)%Z in
      let* n0 := py_getitem ns 0 in
      match n0 with
      | PyInt k => Ok ("AP" :: map (fun i => "STA " ++ Z_to_string (i + 1)) (py_range k))
      | _ => Err TypeError
      end
  end.

(** The [argparse] defaults, for a given [--paramSet]. *)
Definition cli_defaults (paramSet : string) : cli_args := {|
  a_paramSet := paramSet;
  a_numRuns := 5;
  a_applicationType := "constant";
  a_normOfferedTraffic := f64_lit 75 100;
  a_socketType := "ns3::UdpSocketFactory";
  a_mpduAggregationSize := 262143;
  a_phyMode := "DMG_MCS4";
  a_simulationTime := f64_of_Z 10;
  a_numStas := 4;
  a_accessCbapIfAllocated := "true";
  a_biDurationUs := 102400;
  a_onoffPeriodMean := f64_lit 1024 10000;
  a_onoffPeriodStdev := f64_of_Z 0
|}.

(* ================================================================== *)
(** * Properties *)

(* ------------------------------------------------------------------ *)
(** ** Rounding of binary64 operations

    [kexp m e] is the number of bits the rounding of [m * 2^e] drops. *)

Section Binary64.

Local Open Scope Z_scope.

(** Binary digits. *)
Lemma digits2_pos_size (p : positive) : digits2_pos p = Pos.size p.
Proof. induction p as [p IH | p IH |]; simpl; rewrite ?IH; reflexivity. Qed.

Lemma Zdigits2_log2 (m : Z) : 0 < m -> Zdigits2 m = Z.log2 m + 1.
Proof.
  intros Hm. destruct m as [| p | p]; try lia. cbn [Zdigits2].
  rewrite digits2_pos_size.
  destruct p as [p | p |]; cbn [Pos.size Z.log2]; rewrite ?Pos2Z.inj_succ; lia.
Qed.

Lemma Zdigits2_nonneg (m : Z) : 0 <= Zdigits2 m.
Proof. destruct m; simpl; lia. Qed.

Lemma Zdigits2_zero : Zdigits2 0 = 0.
Proof. reflexivity. Qed.

Lemma Zdigits2_bounds (m : Z) : 0 < m -> 2 ^ (Zdigits2 m - 1) <= m < 2 ^ Zdigits2 m.
Proof.
  intros Hm. rewrite Zdigits2_log2 by exact Hm.
  replace (Z.log2 m + 1 - 1) with (Z.log2 m) by lia.
  pose proof (Z.log2_spec m Hm) as H. rewrite <- Z.add_1_r in H. exact H.
Qed.

Lemma Zdigits2_pos (m : Z) : 0 < m -> 1 <= Zdigits2 m.
Proof. intros Hm. rewrite Zdigits2_log2 by exact Hm. pose proof (Z.log2_nonneg m). lia. Qed.

Lemma Zdigits2_mono (m m' : Z) : 0 <= m <= m' -> Zdigits2 m <= Zdigits2 m'.
Proof.
  intros [H0 H1]. destruct (Z.eq_dec m 0) as [-> | Hne].
  - rewrite Zdigits2_zero. apply Zdigits2_nonneg.
  - rewrite !Zdigits2_log2 by lia. pose proof (Z.log2_le_mono m m' H1). lia.
Qed.

Lemma Zdigits2_succ (m : Z) : 0 <= m -> Zdigits2 (m + 1) <= Zdigits2 m + 1.
Proof.
  intros Hm. destruct (Z.eq_dec m 0) as [-> | Hne]; [reflexivity |].
  rewrite !Zdigits2_log2 by lia. pose proof (Z.log2_succ_le m). rewrite <- Z.add_1_r in H. lia.
Qed.

Lemma Zdigits2_div_pow2 (m k : Z) :
  0 <= m -> 0 <= k -> Zdigits2 (m / 2 ^ k) = Z.max 0 (Zdigits2 m - k).
Proof.
  intros Hm Hk. destruct (Z.eq_dec m 0) as [-> | Hne].
  - rewrite Z.div_0_l by (apply Z.pow_nonzero; lia). simpl. lia.
  - rewrite <- Z.shiftr_div_pow2 by exact Hk.
    rewrite (Zdigits2_log2 m) by lia.
    destruct (Z_lt_le_dec (Z.log2 m) k) as [Hlt | Hle].
    + rewrite Z.shiftr_eq_0 by lia. simpl. lia.
    + assert (Hpos : 0 < Z.shiftr m k).
      { rewrite Z.shiftr_div_pow2 by exact Hk.
        pose proof (Z.log2_spec m ltac:(lia)) as [Hs _].
        apply Z.div_str_pos. split; [apply Z.pow_pos_nonneg; lia |].
        apply Z.le_trans with (2 ^ Z.log2 m); [apply Z.pow_le_mono_r; lia | exact Hs]. }
      rewrite Zdigits2_log2 by exact Hpos. rewrite Z.log2_shiftr by lia. lia.
Qed.

Lemma Zdigits2_mul_pow2 (m k : Z) : 0 < m -> 0 <= k -> Zdigits2 (m * 2 ^ k) = Zdigits2 m + k.
Proof.
  intros Hm Hk. rewrite !Zdigits2_log2; [| exact Hm | apply Z.mul_pos_pos; [exact Hm | apply Z.pow_pos_nonneg; lia]].
  rewrite Z.log2_mul_pow2 by assumption. lia.
Qed.

(** Right shifts of the rounding. *)
Lemma shr_1_m (r : shr_record) : 0 <= shr_m r -> shr_m (shr_1 r) = shr_m r / 2 /\ 0 <= shr_m (shr_1 r).
Proof.
  destruct r as [m rr ss]. cbn [shr_m]. intros Hm.
  rewrite <- Z.div2_div.
  destruct m as [| [p | p |] | p]; try lia; cbn; split; try reflexivity; lia.
Qed.

Lemma pow2_pos (k : Z) : 0 <= k -> 0 < 2 ^ k.
Proof. intros Hk. apply Z.pow_pos_nonneg; lia. Qed.

Lemma iter_shr_m (p : positive) (r : shr_record) :
  0 <= shr_m r -> shr_m (iter_pos shr_1 p r) = shr_m r / 2 ^ Zpos p /\ 0 <= shr_m (iter_pos shr_1 p r).
Proof.
  revert r. induction p as [p IH | p IH |]; intros r Hr; cbn [iter_pos].
  - destruct (shr_1_m r Hr) as [E1 P1].
    destruct (IH _ P1) as [E2 P2]. destruct (IH _ P2) as [E3 P3].
    split; [| exact P3]. rewrite E3, E2, E1.
    rewrite !Z.div_div by (try apply Z.pow_nonzero; try apply Z.mul_pos_pos; try apply pow2_pos; lia).
    f_equal. assert (Ep : Zpos p~1 = Zpos p + Zpos p + 1) by lia. rewrite Ep.
    rewrite !Z.pow_add_r by lia. ring.
  - destruct (IH _ Hr) as [E2 P2]. destruct (IH _ P2) as [E3 P3].
    split; [| exact P3]. rewrite E3, E2.
    rewrite Z.div_div by (try apply Z.pow_nonzero; try apply pow2_pos; lia).
    f_equal. assert (Ep : Zpos p~0 = Zpos p + Zpos p) by lia. rewrite Ep.
    rewrite !Z.pow_add_r by lia. ring.
  - exact (shr_1_m r Hr).
Qed.

Lemma fexp_eq (x : Z) : fexp 53 1024 x = Z.max (x - 53) (-1074).
Proof. reflexivity. Qed.

Definition kexp (m e : Z) : Z := Z.max 0 (fexp 53 1024 (Zdigits2 m + e) - e).

Lemma shr_record_of_loc_m (m : Z) (l : location) : shr_m (shr_record_of_loc m l) = m.
Proof. destruct l as [| []]; reflexivity. Qed.

Lemma shr_fexp_spec (m e : Z) (l : location) :
  0 <= m ->
  shr_m (fst (shr_fexp 53 1024 m e l)) = m / 2 ^ kexp m e /\
  snd (shr_fexp 53 1024 m e l) = e + kexp m e.
Proof.
  intros Hm. unfold shr_fexp, shr, kexp.
  destruct (fexp 53 1024 (Zdigits2 m + e) - e) as [| p | p] eqn:E; cbn [fst snd].
  - rewrite shr_record_of_loc_m. cbn. rewrite Z.div_1_r. lia.
  - rewrite <- E. replace (Z.max 0 (fexp 53 1024 (Zdigits2 m + e) - e)) with (Zpos p) by lia.
    split; [| lia]. rewrite <- (shr_record_of_loc_m m l) at 2.
    apply iter_shr_m. rewrite shr_record_of_loc_m. exact Hm.
  - rewrite shr_record_of_loc_m. replace (Z.max 0 (Zneg p)) with 0 by lia.
    cbn. rewrite Z.div_1_r. lia.
Qed.

Lemma round_nearest_even_bounds (m : Z) (l : location) :
  m <= round_nearest_even m l <= m + 1.
Proof. destruct l as [| []]; cbn; try destruct (Z.even m); lia. Qed.

Definition round_result (sx : bool) (m e : Z) : f64 :=
  match m with
  | Z0 => S754_zero sx
  | Zpos p => if e <=? 971 then S754_finite sx p e else S754_infinity sx
  | Zneg _ => S754_nan
  end.

Lemma binary_round_aux_spec (sx : bool) (mx ex : Z) (lx : location) :
  0 <= mx ->
  exists m1, mx / 2 ^ kexp mx ex <= m1 <= mx / 2 ^ kexp mx ex + 1 /\
    binary_round_aux 53 1024 sx mx ex lx =
    round_result sx (m1 / 2 ^ kexp m1 (ex + kexp mx ex)) (ex + kexp mx ex + kexp m1 (ex + kexp mx ex)).
Proof.
  intros Hmx. unfold binary_round_aux.
  pose proof (shr_fexp_spec mx ex lx Hmx) as [Hm1 He1].
  destruct (shr_fexp 53 1024 mx ex lx) as [r1 e1]. cbn [fst snd] in Hm1, He1.
  set (m1 := round_nearest_even (shr_m r1) (loc_of_shr_record r1)).
  assert (B1 : shr_m r1 <= m1 <= shr_m r1 + 1) by apply round_nearest_even_bounds.
  assert (P0 : 0 <= shr_m r1) by (rewrite Hm1; apply Z.div_pos; [exact Hmx | apply pow2_pos; unfold kexp; lia]).
  pose proof (shr_fexp_spec m1 e1 loc_Exact ltac:(lia)) as [Hm2 He2].
  destruct (shr_fexp 53 1024 m1 e1 loc_Exact) as [r2 e2]. cbn [fst snd] in Hm2, He2.
  exists m1. split; [lia |].
  subst e1. rewrite <- He2, <- Hm2. unfold round_result.
  destruct (shr_m r2); reflexivity.
Qed.

Lemma kexp_nonneg (m e : Z) : 0 <= kexp m e.
Proof. unfold kexp. lia. Qed.

(** A rounded result keeps the sign and is never [nan]. *)
Lemma round_result_sign (sx : bool) (m e : Z) :
  0 <= m ->
  round_result sx m e = S754_zero sx \/ round_result sx m e = S754_infinity sx \/
  exists p e', round_result sx m e = S754_finite sx p e'.
Proof.
  intros Hm. unfold round_result. destruct m as [| p | p]; [left; reflexivity | | lia].
  destruct (e <=? 971); [right; right; eauto | right; left; reflexivity].
Qed.

Lemma binary_round_aux_sign (sx : bool) (mx ex : Z) (lx : location) :
  0 <= mx ->
  let r := binary_round_aux 53 1024 sx mx ex lx in
  r = S754_zero sx \/ r = S754_infinity sx \/ exists p e', r = S754_finite sx p e'.
Proof.
  intros Hmx. destruct (binary_round_aux_spec sx mx ex lx Hmx) as [m1 [B E]]. cbv zeta. rewrite E.
  apply round_result_sign. apply Z.div_pos; [| apply pow2_pos, kexp_nonneg].
  pose proof (Z.div_pos mx (2 ^ kexp mx ex) Hmx (pow2_pos _ (kexp_nonneg _ _))). lia.
Qed.

(** The magnitude of a rounded result, and when it is finite. *)
Lemma binary_round_aux_mag (sx : bool) (mx ex : Z) (lx : location) :
  1 <= mx -> -1074 < Zdigits2 mx + ex ->
  let r := binary_round_aux 53 1024 sx mx ex lx in
  (r = S754_infinity sx \/
   exists p e', r = S754_finite sx p e' /\ e' <= 971 /\ Zdigits2 (Zpos p) <= 53 /\
     Zdigits2 mx + ex <= Zdigits2 (Zpos p) + e' <= Zdigits2 mx + ex + 1) /\
  (ex <= 971 -> Zdigits2 mx + ex <= 1023 -> r <> S754_infinity sx).
Proof.
  intros Hmx HD. destruct (binary_round_aux_spec sx mx ex lx ltac:(lia)) as [m1 [B E]].
  cbv zeta. rewrite E. clear E.
  set (k1 := kexp mx ex) in *.
  set (d := Zdigits2 mx) in *.
  assert (Hk1 : 0 <= k1) by apply kexp_nonneg.
  assert (Ek1 : k1 = Z.max 0 (Z.max (d + ex - 53) (-1074) - ex)) by (unfold k1, kexp; rewrite fexp_eq; reflexivity).
  assert (Hd1 : 1 <= d) by (apply Zdigits2_pos; lia).
  assert (Dm0 : Zdigits2 (mx / 2 ^ k1) = d - k1).
  { rewrite Zdigits2_div_pow2 by lia. fold d. lia. }
  set (m0 := mx / 2 ^ k1) in *.
  assert (Hm0 : 1 <= m0).
  { assert (0 <= m0) by (apply Z.div_pos; [lia | apply pow2_pos; lia]).
    destruct (Z.eq_dec m0 0) as [Z0 | ]; [| lia]. rewrite Z0 in Dm0. simpl in Dm0. lia. }
  assert (Dm1 : d - k1 <= Zdigits2 m1 <= d - k1 + 1).
  { split.
    - rewrite <- Dm0. apply Zdigits2_mono. lia.
    - rewrite <- Dm0. eapply Z.le_trans; [apply Zdigits2_mono with (m' := m0 + 1); lia |].
      apply Zdigits2_succ. lia. }
  set (e1 := ex + k1).
  set (k2 := kexp m1 e1).
  assert (Ek2 : k2 = Z.max 0 (Z.max (Zdigits2 m1 + e1 - 53) (-1074) - e1)) by (unfold k2, kexp; rewrite fexp_eq; reflexivity).
  assert (Hk2 : 0 <= k2) by apply kexp_nonneg.
  assert (Dm2 : Zdigits2 (m1 / 2 ^ k2) = Zdigits2 m1 - k2).
  { rewrite Zdigits2_div_pow2 by lia. unfold e1 in Ek2. lia. }
  assert (Hm2 : 1 <= m1 / 2 ^ k2).
  { assert (0 <= m1 / 2 ^ k2) by (apply Z.div_pos; [lia | apply pow2_pos; lia]).
    destruct (Z.eq_dec (m1 / 2 ^ k2) 0) as [Z0 | ]; [| lia]. rewrite Z0 in Dm2. simpl in Dm2.
    unfold e1 in Ek2. lia. }
  destruct (m1 / 2 ^ k2) as [| p | p] eqn:Em2; try lia. cbn [round_result].
  split.
  - destruct (e1 + k2 <=? 971) eqn:Ee; [right | left; reflexivity].
    exists p, (e1 + k2). split; [reflexivity |]. apply Z.leb_le in Ee.
    split; [exact Ee |]. rewrite Dm2. unfold e1 in *. lia.
  - intros Hex HD2. replace (e1 + k2 <=? 971) with true; [discriminate |].
    symmetry. apply Z.leb_le. unfold e1 in *. lia.
Qed.

(** Conversion of an integer. *)
Lemma iter_xO (p d : positive) : Zpos (Pos.iter xO p d) = Zpos p * 2 ^ Zpos d.
Proof.
  induction d as [| d IH] using Pos.peano_ind.
  - cbn. lia.
  - rewrite Pos.iter_succ. rewrite Pos2Z.inj_succ, Z.pow_succ_r by lia.
    change (Zpos (Pos.iter xO p d)~0) with (2 * Zpos (Pos.iter xO p d)). rewrite IH. ring.
Qed.

Lemma binary_round_spec (sx : bool) (p : positive) (e : Z) :
  exists mz ez, binary_round 53 1024 sx p e = binary_round_aux 53 1024 sx (Zpos mz) ez loc_Exact /\
    Zdigits2 (Zpos mz) + ez = Zdigits2 (Zpos p) + e /\ ez <= e.
Proof.
  unfold binary_round, shl_align.
  change (Zpos (digits2_pos p)) with (Zdigits2 (Zpos p)).
  destruct (fexp 53 1024 (Zdigits2 (Zpos p) + e) - e) as [| d | d] eqn:E.
  - exists p, e. auto with zarith.
  - exists p, e. auto with zarith.
  - exists (Pos.iter xO p d), (fexp 53 1024 (Zdigits2 (Zpos p) + e)). split; [reflexivity |].
    rewrite iter_xO, Zdigits2_mul_pow2 by lia. lia.
Qed.

Lemma f64_of_Z_pos (p : positive) :
  (f64_of_Z (Zpos p) = S754_infinity false \/
   exists m e, f64_of_Z (Zpos p) = S754_finite false m e /\ e <= 971 /\ Zdigits2 (Zpos m) <= 53 /\
     Zdigits2 (Zpos p) <= Zdigits2 (Zpos m) + e <= Zdigits2 (Zpos p) + 1) /\
  (Zdigits2 (Zpos p) <= 1023 -> f64_of_Z (Zpos p) <> S754_infinity false).
Proof.
  unfold f64_of_Z, binary_normalize.
  destruct (binary_round_spec false p 0) as [mz [ez [E [D L]]]]. rewrite E.
  assert (H1 := Zdigits2_pos (Zpos p) ltac:(lia)).
  destruct (binary_round_aux_mag false (Zpos mz) ez loc_Exact ltac:(lia) ltac:(lia)) as [A B].
  cbv zeta in A, B. rewrite D in A, B. split; [exact A |].
  intros Hp. apply B; lia.
Qed.

Lemma f64_of_Z_neg (p : positive) :
  (f64_of_Z (Zneg p) = S754_infinity true \/
   exists m e, f64_of_Z (Zneg p) = S754_finite true m e /\ e <= 971 /\ Zdigits2 (Zpos m) <= 53 /\
     Zdigits2 (Zpos p) <= Zdigits2 (Zpos m) + e <= Zdigits2 (Zpos p) + 1) /\
  (Zdigits2 (Zpos p) <= 1023 -> f64_of_Z (Zneg p) <> S754_infinity true).
Proof.
  unfold f64_of_Z, binary_normalize.
  destruct (binary_round_spec true p 0) as [mz [ez [E [D L]]]]. rewrite E.
  assert (H1 := Zdigits2_pos (Zpos p) ltac:(lia)).
  destruct (binary_round_aux_mag true (Zpos mz) ez loc_Exact ltac:(lia) ltac:(lia)) as [A B].
  cbv zeta in A, B. rewrite D in A, B. split; [exact A |].
  intros Hp. apply B; lia.
Qed.

(** Division of two finite values. *)
Lemma Zdigits2_div_bounds (a b t : Z) :
  0 < b -> 0 <= t -> 2 ^ (Zdigits2 b + t) <= a ->
  t + 1 <= Zdigits2 (a / b) <= Zdigits2 a - Zdigits2 b + 1.
Proof.
  intros Hb Ht Ha.
  assert (Ha0 : 0 < a) by (pose proof (pow2_pos (Zdigits2 b + t) ltac:(pose proof (Zdigits2_nonneg b); lia)); lia).
  destruct (Zdigits2_bounds a Ha0) as [Al Ah].
  destruct (Zdigits2_bounds b Hb) as [Bl Bh].
  assert (Hdb := Zdigits2_pos b Hb).
  assert (Q1 : 2 ^ t <= a / b).
  { apply Z.div_le_lower_bound; [exact Hb |].
    apply Z.le_trans with (2 ^ Zdigits2 b * 2 ^ t); [apply Z.mul_le_mono_nonneg_r; [apply Z.lt_le_incl, pow2_pos; lia | lia] |].
    rewrite <- Z.pow_add_r by lia. exact Ha. }
  assert (Hq : 0 < a / b) by (pose proof (pow2_pos t Ht); lia).
  split.
  - rewrite Zdigits2_log2 by exact Hq. assert (Z.log2 (2 ^ t) <= Z.log2 (a / b)) by (apply Z.log2_le_mono; exact Q1).
    rewrite Z.log2_pow2 in H by exact Ht. lia.
  - assert (Q2 : a / b < 2 ^ (Zdigits2 a - Zdigits2 b + 1)).
    { apply Z.div_lt_upper_bound; [exact Hb |].
      apply Z.lt_le_trans with (2 ^ Zdigits2 a); [exact Ah |].
      apply Z.le_trans with (2 ^ (Zdigits2 b - 1) * 2 ^ (Zdigits2 a - Zdigits2 b + 1)).
      - rewrite <- Z.pow_add_r; [apply Z.pow_le_mono_r; lia | lia |].
        assert (Zdigits2 b + t <= Zdigits2 a).
        { destruct (Z_le_gt_dec (Zdigits2 b + t) (Zdigits2 a)) as [| Hgt]; [assumption |].
          exfalso. assert (2 ^ Zdigits2 a <= 2 ^ (Zdigits2 b + t)) by (apply Z.pow_le_mono_r; lia). lia. }
        lia.
      - apply Z.mul_le_mono_nonneg_r; [apply Z.lt_le_incl, pow2_pos | exact Bl].
        assert (Zdigits2 b + t <= Zdigits2 a).
        { destruct (Z_le_gt_dec (Zdigits2 b + t) (Zdigits2 a)) as [| Hgt]; [assumption |].
          exfalso. assert (2 ^ Zdigits2 a <= 2 ^ (Zdigits2 b + t)) by (apply Z.pow_le_mono_r; lia). lia. }
        lia. }
    rewrite Zdigits2_log2 by exact Hq. apply Z.log2_lt_pow2 in Q2; [lia | exact Hq].
Qed.

Lemma f64_div_finite_spec (s1 : bool) (m1 : positive) (e1 : Z) (s2 : bool) (m2 : positive) (e2 : Z) :
  exists q e' l,
    f64_div (S754_finite s1 m1 e1) (S754_finite s2 m2 e2) = binary_round_aux 53 1024 (xorb s1 s2) q e' l /\
    0 <= q /\
    (-1021 <= Zdigits2 (Zpos m1) + e1 - (Zdigits2 (Zpos m2) + e2) ->
     1 <= q /\
     Zdigits2 (Zpos m1) + e1 - (Zdigits2 (Zpos m2) + e2) <= Zdigits2 q + e' <=
       Zdigits2 (Zpos m1) + e1 - (Zdigits2 (Zpos m2) + e2) + 1 /\
     e' <= Zdigits2 (Zpos m1) + e1 - (Zdigits2 (Zpos m2) + e2) - 53).
Proof.
  unfold f64_div, SFdiv.
  destruct (SFdiv_core_binary 53 1024 (Zpos m1) e1 (Zpos m2) e2) as [[q e'] l] eqn:E.
  exists q, e', l. split; [reflexivity |].
  unfold SFdiv_core_binary in E.
  set (d1 := Zdigits2 (Zpos m1)) in *. set (d2 := Zdigits2 (Zpos m2)) in *.
  set (e0 := Z.min (fexp 53 1024 (d1 + e1 - (d2 + e2))) (e1 - e2)) in *.
  assert (Hs : 0 <= e1 - e2 - e0) by (unfold e0; lia).
  set (s := e1 - e2 - e0) in *.
  assert (Hm' : (match s with Zpos _ => Z.shiftl (Zpos m1) s | Z0 => Zpos m1 | Zneg _ => 0 end) = Zpos m1 * 2 ^ s).
  { destruct s as [| p | p] eqn:Es; [cbn; lia | apply Z.shiftl_mul_pow2; lia | lia]. }
  rewrite Hm' in E.
  destruct (Z.div_eucl (Zpos m1 * 2 ^ s) (Zpos m2)) as [q0 r0] eqn:Ed.
  injection E as <- <- _.
  assert (Eq : q0 = Zpos m1 * 2 ^ s / Zpos m2) by (unfold Z.div; rewrite Ed; reflexivity).
  rewrite Eq. split; [apply Z.div_pos; [apply Z.mul_nonneg_nonneg; [lia | apply Z.lt_le_incl, pow2_pos; exact Hs] | lia] |].
  intros HD.
  assert (Hfe : fexp 53 1024 (d1 + e1 - (d2 + e2)) = d1 + e1 - (d2 + e2) - 53) by (rewrite fexp_eq; lia).
  assert (Hd1 := Zdigits2_pos (Zpos m1) ltac:(lia)). assert (Hd2 := Zdigits2_pos (Zpos m2) ltac:(lia)).
  fold d1 d2 in Hd1, Hd2.
  assert (Ht : 52 <= d1 + s - d2 - 1) by (unfold s, e0; rewrite Hfe; lia).
  assert (Hdm : Zdigits2 (Zpos m1 * 2 ^ s) = d1 + s) by (rewrite Zdigits2_mul_pow2 by lia; reflexivity).
  destruct (Zdigits2_div_bounds (Zpos m1 * 2 ^ s) (Zpos m2) (d1 + s - d2 - 1) ltac:(lia) ltac:(lia)) as [L U].
  { destruct (Zdigits2_bounds (Zpos m1 * 2 ^ s)) as [Bl _].
    - apply Z.mul_pos_pos; [lia | apply pow2_pos; exact Hs].
    - rewrite Hdm in Bl. fold d2. replace (d2 + (d1 + s - d2 - 1)) with (d1 + s - 1) by lia. exact Bl. }
  rewrite Hdm in U. fold d2 in U.
  assert (Hq : 1 <= Zpos m1 * 2 ^ s / Zpos m2).
  { assert (0 <= Zpos m1 * 2 ^ s / Zpos m2) by (apply Z.div_pos; [apply Z.mul_nonneg_nonneg; [lia | apply Z.lt_le_incl, pow2_pos; exact Hs] | lia]).
    destruct (Z.eq_dec (Zpos m1 * 2 ^ s / Zpos m2) 0) as [Z0 |]; [| lia].
    rewrite Z0 in L. change (Zdigits2 0) with 0 in L. lia. }
  split; [exact Hq |]. split; [unfold s in *; lia |].
  unfold e0. rewrite Hfe. lia.
Qed.

End Binary64.

Example data_rate_ex1 : data_rate_bps_2_float_mbps "500000000bps" = Ok (500 # 1).
Proof. vm_compute. reflexivity. Qed.
Example data_rate_ex2 : data_rate_bps_2_float_mbps "10kbps" = Ok (1 # 100).
Proof. vm_compute. reflexivity. Qed.
Example data_rate_ex3 : data_rate_bps_2_float_mbps "2Gbps" = Ok (2000 # 1).
Proof. vm_compute. reflexivity. Qed.
Example data_rate_ex4 : data_rate_bps_2_float_mbps "5xyz" = Err ValueError.
Proof. vm_compute. reflexivity. Qed.

(* ------------------------------------------------------------------ *)
(** ** [output_to_arr] *)

Definition two_row_result : result :=
  {| res_params := [];
     res_output := [("packetsTrace.csv", "a,b" ++ newline ++ "1,2")];
     res_id := "r0" |}.

Definition empty_trace_result : result :=
  {| res_params := [];
     res_output := [("packetsTrace.csv", "")];
     res_id := "r1" |}.

(** C1 (code_bug): [output_to_arr] with [numeric_cols='all'] on an empty
    output text returns a 0x1 float array, not a 0x0 one ([""].split gives
    [[""]], so the empty-list branch is never taken), and on the two-row
    CSV text "a,b\n1,2" it returns a 0x2 float array instead of the 1x2
    integer table [[1,2]] (a single data row fails the test
    [parsed_data_len > 1]). *)
Lemma output_to_arr_empty_and_single_row :
  (forall (r : result) (fn sep : string),
      dict_get fn (res_output r) = Some "" -> sep <> "" ->
      output_to_arr r fn sep newline None (Some "all") = Ok (np_zeros 0 1)) /\
  output_to_arr two_row_result "packetsTrace.csv" "," newline None (Some "all")
    = Ok (np_zeros 0 2).
Proof.
  split.
  - intros r fn sep Hout Hsep.
    unfold output_to_arr, dict_getitem. rewrite Hout.
    destruct sep as [|c sep']; [congruence | reflexivity].
  - vm_compute. reflexivity.
Qed.

Lemma output_to_arr_empty_and_single_row_witness :
  dict_get "packetsTrace.csv" (res_output empty_trace_result) = Some "" /\
  "," <> "" /\
  output_to_arr empty_trace_result "packetsTrace.csv" "," newline None (Some "all")
    = Ok (np_zeros 0 1).
Proof.
  split; [reflexivity | split; [discriminate |]].
  apply (proj1 output_to_arr_empty_and_single_row); [reflexivity | discriminate].
Defined.

(* ------------------------------------------------------------------ *)
(** ** The metric-extraction functions *)

Lemma sem_utils_getattr_output_to_df :
  sem_utils_getattr "output_to_df" = Err AttributeError.
Proof. reflexivity. Qed.

Lemma load_pkts_df_fails (call_member : sem_utils_member -> result -> exc pkt_table)
    (r : result) :
  load_pkts_df call_member r = Err AttributeError.
Proof. reflexivity. Qed.

(** C2: the module [sem_utils] binds [output_to_arr] but no
    [output_to_df]; every metric-extraction function of the driver starts
    with [sem_utils.output_to_df(...)] and so raises [AttributeError] on
    every result, whatever the rest of its body would compute. *)
Theorem metric_functions_raise_attribute_error :
  sem_utils_getattr "output_to_arr" = Ok M_output_to_arr /\
  forall (call_member : sem_utils_member -> result -> exc pkt_table)
         (pd_std : list npf -> npf) (numStas num_stas : Z) (r : result),
    compute_norm_aggr_thr call_member num_stas r = Err AttributeError /\
    compute_user_thr call_member numStas r = Err AttributeError /\
    compute_user_avg_delay call_member numStas r = Err AttributeError /\
    compute_avg_aggr_delay_ms call_member r = Err AttributeError /\
    compute_std_aggr_delay_ms call_member pd_std r = Err AttributeError /\
    compute_avg_delay_variation_ms call_member r = Err AttributeError /\
    compute_jain_fairness call_member numStas r = Err AttributeError.
Proof.
  split; [reflexivity |].
  intros call_member pd_std numStas num_stas r.
  unfold compute_norm_aggr_thr, compute_user_thr, compute_user_avg_delay,
    compute_avg_aggr_delay_ms, compute_std_aggr_delay_ms,
    compute_avg_delay_variation_ms, compute_jain_fairness.
  rewrite !load_pkts_df_fails.
  repeat split.
Qed.

(** C9 (code_bug): on a packet-trace table with no rows the table-level
    metrics give 0 (throughput) and [nan] (mean delay), but the delay
    standard deviation and the delay variation are only computed inside
    result-level functions, which raise [AttributeError] (the
    [output_to_df] defect of C2) on every result, also on one whose trace
    has zero rows or one row. *)
Lemma empty_trace_metrics :
  compute_avg_thr_mbps [] = NFin 0 /\
  compute_avg_delay_ms [] = NNaN /\
  forall (call_member : sem_utils_member -> result -> exc pkt_table)
         (pd_std : list npf -> npf),
    compute_std_aggr_delay_ms call_member pd_std empty_trace_result = Err AttributeError /\
    compute_avg_delay_variation_ms call_member empty_trace_result = Err AttributeError.
Proof.
  split; [reflexivity | split; [reflexivity |]].
  intros call_member pd_std. split; reflexivity.
Qed.

(* ------------------------------------------------------------------ *)
(** ** [getAppDataRate] *)

Lemma pf_div_nonzero (x : Q) (n : Z) :
  n <> 0%Z -> pf_div x (inject_Z n) = Ok (Qred (x / inject_Z n)).
Proof.
  intros Hn. unfold pf_div.
  destruct (Qeq_bool (inject_Z n) 0) eqn:E; [| reflexivity].
  apply Qeq_bool_iff in E. unfold Qeq in E. simpl in E. lia.
Qed.

Lemma f64_of_Z_zero_iff (z : Z) : f64_is_zero (f64_of_Z z) = true -> z = 0%Z.
Proof.
  destruct z as [| p | p]; [intros; reflexivity | |]; intros H.
  - destruct (proj1 (f64_of_Z_pos p)) as [E | [m [e [E _]]]]; rewrite E in H; discriminate H.
  - destruct (proj1 (f64_of_Z_neg p)) as [E | [m [e [E _]]]]; rewrite E in H; discriminate H.
Qed.

(** A non-zero int converts to a non-zero float (or overflows). *)
Lemma py_float_of_int_ok (n : Z) :
  f64_is_inf (f64_of_Z n) = false -> py_float_of_int n = Ok (f64_of_Z n).
Proof. intros Hi. unfold py_float_of_int. rewrite Hi. reflexivity. Qed.

Lemma py_fdiv_int (x : f64) (n : Z) :
  n <> 0%Z -> py_fdiv x (f64_of_Z n) = Ok (f64_div x (f64_of_Z n)).
Proof.
  intros Hn. unfold py_fdiv.
  destruct (f64_is_zero (f64_of_Z n)) eqn:E; [| reflexivity].
  apply f64_of_Z_zero_iff in E. contradiction.
Qed.

(** C3 (code_bug): for a valid mode and a non-zero station count, a
    [norm_offered_traffic] that is neither a list nor a float (an int or a
    string) does not raise [ValueError]: the error object is built but not
    raised, and [return sta_rate] raises [UnboundLocalError] (after the
    division [phy_rate / num_stas], whose conversion of a station count
    too large for a float raises [OverflowError]). *)
Lemma getAppDataRate_other_type_unbound (mode : string) (e : mcs_entry) (n : Z)
    (v : pyval) :
  dict_get mode MCS_PARAMS = Some e -> n <> 0%Z ->
  (forall l, v <> PyList l) -> (forall f, v <> PyFloat f) ->
  getAppDataRate mode n v
  = Err (if f64_is_inf (f64_of_Z n) then OverflowError else UnboundLocalError).
Proof.
  intros He Hn Hl Hf.
  unfold getAppDataRate, dict_getitem. rewrite He. cbn [exc_bind].
  destruct (f64_is_inf (f64_of_Z n)) eqn:Ei.
  - unfold py_float_of_int. rewrite Ei. reflexivity.
  - rewrite py_float_of_int_ok by exact Ei. cbn [exc_bind].
    rewrite py_fdiv_int by exact Hn. cbn [exc_bind].
    destruct v as [z | q | s | l].
    + reflexivity.
    + exfalso. exact (Hf q eq_refl).
    + reflexivity.
    + exfalso. exact (Hl l eq_refl).
Qed.

Lemma getAppDataRate_other_type_unbound_witness :
  getAppDataRate "DMG_MCS4" 4 (PyInt 1) = Err UnboundLocalError.
Proof.
  change UnboundLocalError
    with (if f64_is_inf (f64_of_Z 4) then OverflowError else UnboundLocalError).
  eapply getAppDataRate_other_type_unbound.
  - reflexivity.
  - lia.
  - intros l H. discriminate H.
  - intros f H. discriminate H.
Defined.

(* ------------------------------------------------------------------ *)
(** ** [jain_fairness] *)

Definition is_zero (x : f64) : Prop := exists s, x = S754_zero s.

(** A float64 value that is [nan] or a zero of either sign. *)
Definition nan_or_zero (x : f64) : Prop := x = S754_nan \/ is_zero x.

Lemma f64_add_nan_or_zero (x y : f64) :
  nan_or_zero x -> nan_or_zero y -> nan_or_zero (f64_add x y).
Proof.
  intros [-> | [s ->]] [-> | [t ->]]; try (left; reflexivity).
  right. unfold f64_add, SFadd. destruct s, t; eexists; reflexivity.
Qed.

Lemma fold_add_nan_or_zero (xs : list f64) (a : f64) :
  Forall nan_or_zero xs -> nan_or_zero a -> nan_or_zero (fold_left f64_add xs a).
Proof.
  revert a. induction xs as [| x xs IH]; intros a Hall Ha; [exact Ha |].
  inversion Hall as [| ? ? Hx Hrest]; subst. cbn [fold_left].
  apply IH; [exact Hrest | apply f64_add_nan_or_zero; assumption].
Qed.

Lemma Forall_firstn_skipn {A} (P : A -> Prop) (k : nat) (l : list A) :
  Forall P l -> Forall P (firstn k l) /\ Forall P (skipn k l).
Proof.
  intros H. rewrite <- (firstn_skipn k l) in H. apply Forall_app in H. exact H.
Qed.

Lemma add_blocks_nan_or_zero (k : nat) (r a : list f64) :
  Forall nan_or_zero r -> Forall nan_or_zero a -> Forall nan_or_zero (add_blocks k r a).
Proof.
  revert r a. induction k as [| k IH]; intros r a Hr Ha; [exact Hr |].
  cbn [add_blocks]. destruct (Forall_firstn_skipn _ 8 a Ha) as [Hf Hs].
  apply IH; [| exact Hs].
  apply Forall_map. apply Forall_forall. intros [x y] Hin. cbn [fst snd].
  apply f64_add_nan_or_zero.
  - apply (proj1 (Forall_forall _ _) Hr). eapply in_combine_l. exact Hin.
  - apply (proj1 (Forall_forall _ _) Hf). eapply in_combine_r. exact Hin.
Qed.

Lemma pairwise_sum_nan_or_zero (fuel : nat) (a : list f64) :
  Forall nan_or_zero a -> nan_or_zero (pairwise_sum fuel a).
Proof.
  revert a. induction fuel as [| fuel IH]; intros a Ha; cbn [pairwise_sum];
    assert (Hz : nan_or_zero (S754_zero false)) by (right; eexists; reflexivity);
    assert (Hz' : nan_or_zero (S754_zero true)) by (right; eexists; reflexivity);
    destruct (Forall_firstn_skipn _ 8 a Ha) as [H8 Hr8].
  - destruct (_ <? 8)%nat; [apply fold_add_nan_or_zero; assumption |].
    destruct (_ <=? 128)%nat; [| left; reflexivity].
    apply fold_add_nan_or_zero; [apply Forall_firstn_skipn; exact Ha |].
    pose proof (add_blocks_nan_or_zero ((List.length a - List.length a mod 8) / 8 - 1)
                  _ _ H8 Hr8) as Hb.
    set (r := add_blocks _ _ _) in *.
    assert (Hg : forall i, nan_or_zero (nth i r (S754_zero false))).
    { intros i. destruct (Nat.lt_ge_cases i (List.length r)) as [Hi | Hi].
      - apply (proj1 (Forall_forall _ _) Hb). apply nth_In. exact Hi.
      - rewrite nth_overflow by exact Hi. exact Hz. }
    repeat apply f64_add_nan_or_zero; apply Hg.
  - destruct (_ <? 8)%nat; [apply fold_add_nan_or_zero; assumption |].
    destruct (_ <=? 128)%nat.
    + apply fold_add_nan_or_zero; [apply Forall_firstn_skipn; exact Ha |].
      pose proof (add_blocks_nan_or_zero ((List.length a - List.length a mod 8) / 8 - 1)
                    _ _ H8 Hr8) as Hb.
      set (r := add_blocks _ _ _) in *.
      assert (Hg : forall i, nan_or_zero (nth i r (S754_zero false))).
      { intros i. destruct (Nat.lt_ge_cases i (List.length r)) as [Hi | Hi].
        - apply (proj1 (Forall_forall _ _) Hb). apply nth_In. exact Hi.
        - rewrite nth_overflow by exact Hi. exact Hz. }
      repeat apply f64_add_nan_or_zero; apply Hg.
    + apply f64_add_nan_or_zero; apply IH; apply Forall_firstn_skipn; exact Ha.
Qed.

Lemma f64_div_nan_or_zero (x y : f64) : nan_or_zero x -> nan_or_zero (f64_div x y).
Proof.
  intros [-> | [s ->]]; [left; destruct y; reflexivity |].
  unfold f64_div, SFdiv.
  destruct y; first [left; reflexivity | right; eexists; reflexivity].
Qed.

Lemma np_mean_f64_zeros (xs : list f64) :
  Forall is_zero xs -> nan_or_zero (np_mean_f64 xs).
Proof.
  intros Hall. unfold np_mean_f64. apply f64_div_nan_or_zero.
  apply f64_add_nan_or_zero; [right; eexists; reflexivity |].
  apply pairwise_sum_nan_or_zero.
  eapply Forall_impl; [| exact Hall]. intros x Hx. right. exact Hx.
Qed.

Lemma np_square_nan_or_zero (x : f64) : nan_or_zero x -> nan_or_zero (np_square_f64 x).
Proof.
  intros [-> | [s ->]]; [left; reflexivity |].
  right. unfold np_square_f64, f64_mul, SFmul. eexists. reflexivity.
Qed.

Lemma f64_div_nan_or_zero_nan (x y : f64) :
  nan_or_zero x -> nan_or_zero y -> f64_div x y = S754_nan.
Proof. intros [-> | [s ->]] [-> | [t ->]]; reflexivity. Qed.

(** [jain_fairness] of values that are all zero. *)
Lemma jain_fairness_zeros (xs : list f64) :
  Forall is_zero xs -> jain_fairness xs = S754_nan.
Proof.
  intros Hall. unfold jain_fairness.
  apply f64_div_nan_or_zero_nan.
  - apply np_square_nan_or_zero, np_mean_f64_zeros, Hall.
  - apply np_mean_f64_zeros. apply Forall_map.
    eapply Forall_impl; [| exact Hall].
    intros x [s ->]. eexists. reflexivity.
Qed.

(** C10: on a sequence of values that are all zero ([0.0] or [-0.0]),
    [jain_fairness] divides [0] by [0] without a guard and returns [nan]
    (numpy only warns); it neither raises nor returns a value of (0,1]. *)
Theorem jain_fairness_all_zero_nan (xs : list f64) :
  Forall is_zero xs -> jain_fairness xs = S754_nan.
Proof. exact (jain_fairness_zeros xs). Qed.

Lemma jain_fairness_all_zero_nan_witness :
  Forall is_zero (map f64_of_Z [0; 0; 0; 0]%Z) /\
  jain_fairness (map f64_of_Z [0; 0; 0; 0]%Z) = S754_nan.
Proof.
  assert (H : Forall is_zero (map f64_of_Z [0; 0; 0; 0]%Z)).
  { repeat constructor; exists false; reflexivity. }
  split; [exact H |].
  apply jain_fairness_all_zero_nan. exact H.
Defined.

(* ------------------------------------------------------------------ *)
(** ** [getAppDataRate] against the rate formula *)

(** The rate string of a float64 rate: its value rounded to an integer,
    ties to even, in decimal, followed by "bps"; "infbps" for a rate that
    overflowed. *)
Definition amended_rate_string (x : f64) : string :=
  match f64_value x with
  | Some q => Z_to_string (round_half_even q) ++ "bps"
  | None => "infbps"
  end.

(** The float64 rate [f * (phy_rate / n)], each operation rounded. *)
Definition rate_product (e : mcs_entry) (n : Z) (f : f64) : f64 :=
  f64_mul f (f64_div (phy_rate e) (f64_of_Z n)).

(** A float64 value that is [+0.0], positive or [+inf]. *)
Definition f64_nonneg (x : f64) : Prop :=
  x = S754_zero false \/ x = S754_infinity false \/ exists m e, x = S754_finite false m e.

(** A normalised-traffic fraction as the driver passes it: a non-negative
    float, or a non-negative int a float can hold. *)
Definition is_fraction (v : pyval) : Prop :=
  (exists f, v = PyFloat f /\ f64_nonneg f) \/
  (exists z, v = PyInt z /\ (0 <= z)%Z /\ f64_is_inf (f64_of_Z z) = false).

(** The float a fraction is multiplied as. *)
Definition fraction_float (v : pyval) : f64 :=
  match v with
  | PyInt z => f64_of_Z z
  | PyFloat f => f
  | PyStr _ | PyList _ => S754_nan
  end.

(** A ["phy_rate"] is a positive finite value of [2^24] to [2^33]. *)
Definition phy_rate_ok (x : f64) : bool :=
  match x with
  | S754_finite false m e => (25 <=? Zdigits2 (Zpos m) + e)%Z && (Zdigits2 (Zpos m) + e <=? 33)%Z
  | _ => false
  end.

Lemma dict_get_Forall {V} (P : V -> Prop) (k : string) (d : list (string * V)) (v : V) :
  Forall (fun kv => P (snd kv)) d -> dict_get k d = Some v -> P v.
Proof.
  induction d as [| [k' v'] d IH]; simpl; intros Hall H; [discriminate |].
  inversion Hall; subst.
  destruct (String.eqb k k'); [injection H as <-; assumption | auto].
Qed.

Lemma MCS_PARAMS_phy_rate (mode : string) (e : mcs_entry) :
  dict_get mode MCS_PARAMS = Some e ->
  exists m ex, phy_rate e = S754_finite false m ex /\ (25 <= Zdigits2 (Zpos m) + ex <= 33)%Z.
Proof.
  intros He.
  assert (H : phy_rate_ok (phy_rate e) = true).
  { apply (dict_get_Forall (fun e => phy_rate_ok (phy_rate e) = true) mode MCS_PARAMS e);
      [| exact He].
    repeat apply Forall_cons; first [apply Forall_nil | vm_compute; reflexivity]. }
  destruct (phy_rate e) as [s | s | | [|] m ex]; try discriminate H.
  exists m, ex. apply andb_true_iff in H as [H1 H2].
  apply Z.leb_le in H1. apply Z.leb_le in H2. split; [reflexivity | lia].
Qed.

Lemma f64_of_Z_ge1 (n : Z) :
  (1 <= n)%Z -> f64_is_inf (f64_of_Z n) = false ->
  exists m ex, f64_of_Z n = S754_finite false m ex /\ (1 <= Zdigits2 (Zpos m) + ex <= 1024)%Z.
Proof.
  intros Hn Hi. destruct n as [| p | p]; try lia.
  destruct (proj1 (f64_of_Z_pos p)) as [E | [m [ex [E [He [Hd [Hl Hu]]]]]]].
  - rewrite E in Hi. discriminate Hi.
  - exists m, ex. split; [exact E |].
    pose proof (Zdigits2_pos (Zpos p) ltac:(lia)). lia.
Qed.

(** [phy_rate / n] is a positive finite value for [n >= 1]: no overflow
    (it is at most [phy_rate]) and no underflow (the quotient of two finite
    values of at most [2^1024] is far above the smallest subnormal). *)
Lemma rate_per_sta_finite (mode : string) (e : mcs_entry) (n : Z) :
  dict_get mode MCS_PARAMS = Some e -> (1 <= n)%Z -> f64_is_inf (f64_of_Z n) = false ->
  exists m ex, f64_div (phy_rate e) (f64_of_Z n) = S754_finite false m ex.
Proof.
  intros He Hn Hi.
  destruct (MCS_PARAMS_phy_rate mode e He) as [mp [ep [Ep Bp]]].
  destruct (f64_of_Z_ge1 n Hn Hi) as [mn [en [En Bn]]].
  rewrite Ep, En.
  destruct (f64_div_finite_spec false mp ep false mn en) as [q [e' [l [Ed [Hq Hm]]]]].
  rewrite Ed. cbn [xorb].
  destruct (Hm ltac:(lia)) as [Hq1 [Hb Hle]].
  destruct (binary_round_aux_mag false q e' l Hq1 ltac:(lia)) as [[Einf | [p [e'' [Ef _]]]] Hni].
  - exfalso. exact (Hni ltac:(lia) ltac:(lia) Einf).
  - exists p, e''. exact Ef.
Qed.

Lemma f64_mul_nonneg (f : f64) (m : positive) (e : Z) :
  f64_nonneg f -> f64_nonneg (f64_mul f (S754_finite false m e)).
Proof.
  intros [-> | [-> | [m' [e' ->]]]].
  - left. reflexivity.
  - right; left. reflexivity.
  - unfold f64_mul, SFmul. cbn [xorb].
    destruct (binary_round_aux_sign false (Zpos (m' * m)) (e' + e) loc_Exact ltac:(lia))
      as [E | [E | [p [e'' E]]]].
    + left. exact E.
    + right; left. exact E.
    + right; right. exists p, e''. exact E.
Qed.

Lemma f64_of_Z_nonneg (z : Z) :
  (0 <= z)%Z -> f64_is_inf (f64_of_Z z) = false -> f64_nonneg (f64_of_Z z).
Proof.
  intros Hz Hi. destruct z as [| p | p]; [left; reflexivity | | lia].
  destruct (proj1 (f64_of_Z_pos p)) as [E | [m [e [E _]]]].
  - rewrite E in Hi. discriminate Hi.
  - right; right. exists m, e. exact E.
Qed.

Lemma format_rate_nonneg (x : f64) :
  f64_nonneg x -> format_0f x ++ "bps" = amended_rate_string x.
Proof. intros [-> | [-> | [m [e ->]]]]; reflexivity. Qed.

(** C5 (corrected): for a mode of the MCS table and a station count
    [n >= 1] a float can hold, a scalar float fraction [f] (non-negative,
    not [-0.0]) gives the one-element list (a list, not a bare string)
    holding the rate string of the float64 value [f * (phy_rate / n)]:
    the division and the product each rounded to the nearest float64,
    then the result rounded to an integer, ties to even.  A list of
    fractions (floats, or ints converted to floats) gives the list of the
    same length whose elements follow the same formula one by one. *)
Theorem getAppDataRate_rate_strings (mode : string) (e : mcs_entry) (n : Z) :
  dict_get mode MCS_PARAMS = Some e -> (1 <= n)%Z -> f64_is_inf (f64_of_Z n) = false ->
  (forall f, f64_nonneg f ->
     getAppDataRate mode n (PyFloat f)
     = Ok (PyList [PyStr (amended_rate_string (rate_product e n f))])) /\
  (forall l, Forall is_fraction l ->
     getAppDataRate mode n (PyList l)
     = Ok (PyList (map (fun v => PyStr (amended_rate_string
                                          (rate_product e n (fraction_float v)))) l))).
Proof.
  intros He Hn Hi.
  destruct (rate_per_sta_finite mode e n He Hn Hi) as [mr [er Er]].
  unfold getAppDataRate, dict_getitem, rate_product. rewrite He. cbn [exc_bind].
  rewrite py_float_of_int_ok by exact Hi. cbn [exc_bind].
  rewrite py_fdiv_int by lia. cbn [exc_bind].
  rewrite Er. split.
  - intros f Hf. rewrite format_rate_nonneg by (apply f64_mul_nonneg; exact Hf).
    reflexivity.
  - intros l Hall.
    assert (Hmap : exc_map (fun r => let* x := py_mul_float r (S754_finite false mr er) in
                                     Ok (PyStr (format_0f x ++ "bps"))) l
                   = Ok (map (fun v => PyStr (amended_rate_string
                                 (f64_mul (fraction_float v) (S754_finite false mr er)))) l)).
    { induction Hall as [| v l Hv Hall IH]; [reflexivity |].
      cbn [exc_map map]. rewrite IH.
      destruct Hv as [[f [-> Hf]] | [z [-> [Hz Hzi]]]].
      - cbn [py_mul_float exc_bind fraction_float].
        rewrite format_rate_nonneg by (apply f64_mul_nonneg; exact Hf). reflexivity.
      - cbn [py_mul_float fraction_float]. rewrite py_float_of_int_ok by exact Hzi.
        cbn [exc_bind].
        rewrite format_rate_nonneg by (apply f64_mul_nonneg, f64_of_Z_nonneg; assumption).
        reflexivity. }
    rewrite Hmap. reflexivity.
Qed.

Lemma getAppDataRate_rate_strings_witness :
  getAppDataRate "DMG_MCS4" 4 (PyFloat (f64_lit 3 4))
    = Ok (PyList [PyStr (amended_rate_string
                          (rate_product {| phy_rate := f64_of_Z 1155000000; mac_rate := 1103569911;
                                           app_rate := Some 1107782893%Z |} 4 (f64_lit 3 4)))]) /\
  amended_rate_string
    (rate_product {| phy_rate := f64_of_Z 1155000000; mac_rate := 1103569911;
                     app_rate := Some 1107782893%Z |} 4 (f64_lit 3 4)) = "216562500bps".
Proof.
  split; [| vm_compute; reflexivity].
  apply (getAppDataRate_rate_strings "DMG_MCS4"); [reflexivity | lia | vm_compute; reflexivity |].
  vm_compute. right; right. eexists _, _. reflexivity.
Defined.

(** C5 counterexample: with DMG_MCS0 (27.5e6), 16 stations and the scalar
    [0.09], the result is the list ["154688bps"], not a single rate string;
    and the exact value of the float [0.09] times [27.5e6 / 16] is just
    below [154687.5], so rounding it gives 154687, not 154688: the product
    is rounded to the float [154687.5] first, a tie rounded to even. *)
Lemma getAppDataRate_scalar_returns_list :
  getAppDataRate "DMG_MCS0" 16 (PyFloat (f64_lit 9 100)) = Ok (PyList [PyStr "154688bps"]) /\
  ~ (exists s, getAppDataRate "DMG_MCS0" 16 (PyFloat (f64_lit 9 100)) = Ok (PyStr s)) /\
  match f64_value (f64_lit 9 100) with
  | Some q => Z_to_string (round_half_even (Qred (q * inject_Z 27500000 / inject_Z 16))) ++ "bps"
  | None => ""
  end = "154687bps".
Proof.
  split; [vm_compute; reflexivity |]. split.
  - intros [s Hs]. vm_compute in Hs. discriminate Hs.
  - vm_compute. reflexivity.
Qed.

(* ------------------------------------------------------------------ *)
(** ** [sta_data_rate_mbps] *)




(* ------------------------------------------------------------------ *)
(** ** [data_rate_bps_2_float_mbps] *)

(** The claimed scale factor of each rate suffix. *)
Definition rate_suffix_scale (suf : string) : option Q :=
  if String.eqb suf "bps" then Some (1 # 1000000)
  else if String.eqb suf "kbps" then Some (1 # 1000)
  else if String.eqb suf "Mbps" then Some 1
  else if String.eqb suf "Gbps" then Some (1000 # 1)
  else None.

Lemma list_ascii_of_string_app (s1 s2 : string) :
  list_ascii_of_string (s1 ++ s2) = (list_ascii_of_string s1 ++ list_ascii_of_string s2)%list.
Proof. induction s1 as [| c s1 IH]; simpl; [reflexivity | now rewrite IH]. Qed.

Lemma string_of_list_ascii_app (l1 l2 : list ascii) :
  string_of_list_ascii (l1 ++ l2)%list = string_of_list_ascii l1 ++ string_of_list_ascii l2.
Proof. induction l1 as [| c l1 IH]; simpl; [reflexivity | now rewrite IH]. Qed.

Lemma list_ascii_of_string_length (s : string) :
  List.length (list_ascii_of_string s) = String.length s.
Proof. induction s as [| c s IH]; simpl; [reflexivity | now rewrite IH]. Qed.

Lemma str_last_app (k : nat) (p suf : string) :
  (k <= String.length suf)%nat -> str_last k (p ++ suf) = str_last k suf.
Proof.
  intros Hk. rewrite <- list_ascii_of_string_length in Hk. unfold str_last.
  rewrite list_ascii_of_string_app, length_app, skipn_app.
  set (lp := list_ascii_of_string p) in *. set (ls := list_ascii_of_string suf) in *.
  rewrite (skipn_all2 lp) by lia.
  replace (List.length lp + List.length ls - k - List.length lp)%nat
    with (List.length ls - k)%nat by lia.
  reflexivity.
Qed.

Lemma str_drop_last_app (k : nat) (p suf : string) :
  (k <= String.length suf)%nat -> str_drop_last k (p ++ suf) = p ++ str_drop_last k suf.
Proof.
  intros Hk. rewrite <- list_ascii_of_string_length in Hk. unfold str_drop_last.
  rewrite list_ascii_of_string_app, length_app, firstn_app.
  rewrite string_of_list_ascii_app.
  set (lp := list_ascii_of_string p) in *. set (ls := list_ascii_of_string suf) in *.
  rewrite (firstn_all2 lp) by lia.
  replace (List.length lp + List.length ls - k - List.length lp)%nat
    with (List.length ls - k)%nat by lia.
  unfold lp. rewrite string_of_list_ascii_of_string. reflexivity.
Qed.

Lemma str_drop_last_last (k : nat) (s : string) :
  str_drop_last k s ++ str_last k s = s.
Proof.
  unfold str_drop_last, str_last.
  rewrite <- string_of_list_ascii_app.
  replace (List.length (list_ascii_of_string s) - k)%nat
    with (List.length (list_ascii_of_string s) - k)%nat by reflexivity.
  rewrite firstn_skipn. apply string_of_list_ascii_of_string.
Qed.

Lemma isnumeric_digits (s : string) :
  isnumeric s = true -> forallb is_digit (list_ascii_of_string s) = true.
Proof. destruct s; [discriminate | exact (fun H => H)]. Qed.

(** A numeric prefix followed by a letter is not numeric. *)
Lemma isnumeric_app_letter (p : string) (c : ascii) :
  is_digit c = false -> isnumeric (p ++ String c EmptyString) = false.
Proof.
  intros Hc.
  destruct (isnumeric (p ++ String c EmptyString)) eqn:E; [| reflexivity].
  apply isnumeric_digits in E.
  rewrite list_ascii_of_string_app, forallb_app in E.
  simpl in E. rewrite Hc in E. destruct (forallb is_digit _); discriminate.
Qed.


Lemma str_append_empty_r (s : string) : s ++ "" = s.
Proof. induction s as [| c s IH]; simpl; [reflexivity | now rewrite IH]. Qed.

Lemma isnumeric_p_suffix (p : string) (c : ascii) :
  is_digit c = false -> isnumeric (p ++ String c EmptyString) = false.
Proof. apply isnumeric_app_letter. Qed.

(** Rewrite the slices of [p ++ suf] by slices of the literal [suf]. *)
Ltac slice_literal_suffix :=
  repeat first
    [ rewrite str_last_app by (cbn; lia)
    | rewrite str_drop_last_app by (cbn; lia) ];
  cbn [str_last str_drop_last list_ascii_of_string List.length Nat.sub skipn firstn
       string_of_list_ascii];
  try rewrite str_append_empty_r.

(** C6: a string made of a numeric prefix (non-empty, decimal digits)
    and one of the suffixes bps, kbps, Mbps, Gbps is converted to the
    prefix scaled by 1e-6, 1e-3, 1 or 1e3; every other string raises
    [ValueError]; the four sample strings of the spec convert as stated
    and "5xyz" raises. *)
Theorem data_rate_bps_2_float_mbps_spec :
  (forall p suf scale, isnumeric p = true -> rate_suffix_scale suf = Some scale ->
     exists q, data_rate_bps_2_float_mbps (p ++ suf) = Ok q /\
               q == inject_Z (decimal_value p) * scale) /\
  (forall s, (forall p suf scale, isnumeric p = true -> rate_suffix_scale suf = Some scale ->
                s <> p ++ suf) ->
     data_rate_bps_2_float_mbps s = Err ValueError) /\
  data_rate_bps_2_float_mbps "500000000bps" = Ok (500 # 1) /\
  data_rate_bps_2_float_mbps "1Mbps" = Ok 1 /\
  data_rate_bps_2_float_mbps "2Gbps" = Ok (2000 # 1) /\
  data_rate_bps_2_float_mbps "10kbps" = Ok (1 # 100) /\
  data_rate_bps_2_float_mbps "5xyz" = Err ValueError.
Proof.
  split; [| split; [| repeat split; vm_compute; reflexivity]].
  - intros p suf scale Hp Hs.
    unfold rate_suffix_scale in Hs.
    destruct (String.eqb_spec suf "bps") as [-> | _];
      [| destruct (String.eqb_spec suf "kbps") as [-> | _];
         [| destruct (String.eqb_spec suf "Mbps") as [-> | _];
            [| destruct (String.eqb_spec suf "Gbps") as [-> | _]; [| discriminate]]]];
      injection Hs as <-; unfold data_rate_bps_2_float_mbps; slice_literal_suffix.
    all: rewrite ?isnumeric_p_suffix by reflexivity; rewrite Hp;
      cbn -[pf_div float_of_digits pf_mul Qred];
      eexists; split; [reflexivity |];
      unfold float_of_digits, pf_mul; rewrite ?Qred_correct; field.
  - intros s H. unfold data_rate_bps_2_float_mbps.
    destruct (String.eqb (str_last 3 s) "bps" && isnumeric (str_drop_last 3 s)) eqn:E1;
      [| destruct (String.eqb (str_last 4 s) "kbps" && isnumeric (str_drop_last 4 s)) eqn:E2;
         [| destruct (String.eqb (str_last 4 s) "Mbps" && isnumeric (str_drop_last 4 s)) eqn:E3;
            [| destruct (String.eqb (str_last 4 s) "Gbps" && isnumeric (str_drop_last 4 s)) eqn:E4;
               [| reflexivity]]]];
      exfalso;
      [ apply andb_prop in E1 as [Ea Eb]; pose proof (str_drop_last_last 3 s) as Hs
      | apply andb_prop in E2 as [Ea Eb]; pose proof (str_drop_last_last 4 s) as Hs
      | apply andb_prop in E3 as [Ea Eb]; pose proof (str_drop_last_last 4 s) as Hs
      | apply andb_prop in E4 as [Ea Eb]; pose proof (str_drop_last_last 4 s) as Hs ];
      apply String.eqb_eq in Ea; rewrite Ea in Hs;
      refine (H _ _ _ Eb _ (eq_sym Hs)); reflexivity.
Qed.

Lemma data_rate_bps_2_float_mbps_spec_witness :
  exists q, data_rate_bps_2_float_mbps ("1" ++ "Mbps") = Ok q /\
            q == inject_Z (decimal_value "1") * 1.
Proof.
  apply (proj1 data_rate_bps_2_float_mbps_spec); reflexivity.
Defined.

(** ** [jain_fairness] on sample inputs *)

(** C8 (amended): [jain_fairness] evaluates [mean(x)^2 / mean(x^2)] in
    float64, with numpy's pairwise-summed means and no guard:
    [[1,1,1,1]] gives [1.0], [[1,0,0,0]] gives [0.25], and the empty
    sequence and every all-zero sequence give [nan]. *)
Theorem jain_fairness_values :
  jain_fairness (map f64_of_Z [1; 1; 1; 1]%Z) = f64_of_Z 1 /\
  jain_fairness (map f64_of_Z [1; 0; 0; 0]%Z) = f64_lit 1 4 /\
  jain_fairness [] = S754_nan /\
  (forall xs, Forall is_zero xs -> jain_fairness xs = S754_nan).
Proof.
  split; [vm_compute; reflexivity |].
  split; [vm_compute; reflexivity |].
  split; [vm_compute; reflexivity |].
  exact jain_fairness_zeros.
Qed.

Lemma jain_fairness_values_witness :
  Forall is_zero [S754_zero false; S754_zero true] /\
  jain_fairness [S754_zero false; S754_zero true] = S754_nan.
Proof.
  assert (H : Forall is_zero [S754_zero false; S754_zero true]).
  { repeat constructor; [exists false | exists true]; reflexivity. }
  split; [exact H |].
  exact (proj2 (proj2 (proj2 jain_fairness_values)) _ H).
Defined.

(** C8 counterexample: the float64 result leaves (0,1].  Three equal
    shares [0.1] give [1.0000000000000002] (the float just above 1), and
    the single positive value [1e-200] gives [nan], its square underflowing
    to [0.0]. *)
Lemma jain_fairness_exceeds_one :
  jain_fairness (repeat (f64_lit 1 10) 3) = S754_finite false 4503599627370497 (-52) /\
  f64_value (jain_fairness (repeat (f64_lit 1 10) 3))
    = Some (4503599627370497 # 4503599627370496) /\
  1 < 4503599627370497 # 4503599627370496 /\
  match f64_lit 1 (10 ^ 200) with S754_finite false _ _ => True | _ => False end /\
  jain_fairness [f64_lit 1 (10 ^ 200)] = S754_nan.
Proof.
  split; [vm_compute; reflexivity |].
  split; [vm_compute; reflexivity |].
  split; [unfold Qlt; simpl; lia |].
  split; [vm_compute; exact I |].
  vm_compute; reflexivity.
Qed.

(** ** The bar-plot section of the presets *)

Lemma exc_map_length {A B} (f : A -> exc B) (l : list A) (l' : list B) :
  exc_map f l = Ok l' -> List.length l' = List.length l.
Proof.
  revert l'. induction l as [| x l IH]; intros l' H; simpl in H.
  - injection H as <-. reflexivity.
  - destruct (f x) as [y | e]; [| discriminate].
    simpl in H. destruct (exc_map f l) as [ys | e] eqn:E; [| discriminate].
    simpl in H. injection H as <-. simpl. f_equal. apply IH. reflexivity.
Qed.

Lemma getAppDataRate_list_shape (m : string) (n : Z) (l : list pyval) (v : pyval) :
  getAppDataRate m n (PyList l) = Ok v ->
  exists l', v = PyList l' /\ List.length l' = List.length l.
Proof.
  unfold getAppDataRate.
  destruct (dict_getitem m MCS_PARAMS) as [e | ]; [| discriminate]. simpl.
  destruct (py_float_of_int n) as [nf | ]; [| discriminate]. simpl.
  destruct (py_fdiv _ _) as [r | ]; [| discriminate]. simpl.
  destruct (exc_map _ l) as [l' | ] eqn:E; [| discriminate]. simpl.
  intros H. injection H as <-. exists l'. split; [reflexivity |].
  eapply exc_map_length. exact E.
Qed.

Lemma py_getitem_last (l : list pyval) :
  l <> [] -> exists x, py_getitem (PyList l) (-1) = Ok x.
Proof.
  intros Hl. destruct (nth_error l (pred (List.length l))) as [x | ] eqn:E.
  - exists x. unfold py_getitem.
    assert (Hlen : (0 < List.length l)%nat) by (destruct l; [congruence | simpl; lia]).
    replace ((-1 <? 0)%Z) with true by reflexivity.
    replace ((0 <=? -1 + Z.of_nat (List.length l))%Z && (-1 + Z.of_nat (List.length l) <? Z.of_nat (List.length l))%Z)
      with true by (symmetry; apply andb_true_iff; split; [apply Z.leb_le | apply Z.ltb_lt]; lia).
    replace (Z.to_nat (-1 + Z.of_nat (List.length l))) with (pred (List.length l)) by lia.
    rewrite E. reflexivity.
  - apply nth_error_None in E. destruct l; [congruence | simpl in E; lia].
Qed.

Lemma bar_pin_key_not_numStas (p : preset) (key : string) (idx : Z) :
  bar_pin p = Some (key, idx) -> String.eqb "numStas" key = false.
Proof. destruct p; simpl; intros H; try discriminate; injection H as <- <-; reflexivity. Qed.

Lemma dict_get_setitem_other {V} (k k' : string) (v : V) (d : list (string * V)) :
  String.eqb k k' = false -> dict_get k (dict_setitem k' v d) = dict_get k d.
Proof.
  intros Hk. induction d as [| [k0 v0] d IH]; simpl.
  - rewrite Hk. reflexivity.
  - destruct (String.eqb k' k0) eqn:E; simpl.
    + apply String.eqb_eq in E. subst k0. rewrite Hk. reflexivity.
    + rewrite IH. reflexivity.
Qed.

(** The section after [bar_plots_params[key] = [old[idx]]]: it reads
    [numStas] back and asserts that it has length one. *)
Lemma bar_plot_section_numStas (p : preset) (key : string) (idx : Z)
    (pc : list (string * pyval)) (old kept : pyval) :
  bar_pin p = Some (key, idx) -> dict_get key pc = Some old -> py_getitem old idx = Ok kept ->
  bar_plot_section p pc =
    (let* ns := dict_getitem "numStas" pc in
     let* n := py_len ns in
     let* _ := py_assert (n =? 1)%Z in
     let* n0 := py_getitem ns 0 in
     match n0 with
     | PyInt k => Ok ("AP" :: map (fun i => "STA " ++ Z_to_string (i + 1)) (py_range k))
     | _ => Err TypeError
     end).
Proof.
  intros Hp Hold Hkept. unfold bar_plot_section. rewrite Hp.
  unfold dict_getitem at 1. rewrite Hold. simpl. rewrite Hkept. simpl.
  unfold dict_getitem at 1 2. rewrite (dict_get_setitem_other _ _ _ _ (bar_pin_key_not_numStas p key idx Hp)).
  reflexivity.
Qed.

(** The value each preset's [param_combination] holds under the key it pins
    is a non-empty list, and [numStas] is the command-line integer. *)
Lemma preset_param_combination_shape (p : preset) (args : cli_args)
    (pc : list (string * pyval)) :
  p <> Basic -> preset_param_combination p args = Ok pc ->
  exists key idx old kept, bar_pin p = Some (key, idx) /\ dict_get key pc = Some old /\
    py_getitem old idx = Ok kept /\ dict_get "numStas" pc = Some (PyInt (a_numStas args)).
Proof.
  intros Hp. unfold preset_param_combination.
  destruct (getAppDataRate (a_phyMode args) (a_numStas args) (PyFloat (a_normOfferedTraffic args)))
    as [rate0 | e]; [| discriminate]. cbn [exc_bind].
  destruct p; [congruence | | | |].
  - destruct (getAppDataRate (a_phyMode args) (a_numStas args) (PyList norm_offered_traffic_sweep))
      as [rate | e] eqn:Er; [| discriminate]. cbn [exc_bind].
    intros H. injection H as <-.
    destruct (getAppDataRate_list_shape _ _ _ _ Er) as [l' [-> Hlen]].
    assert (Hl' : l' <> []) by (intros ->; discriminate Hlen).
    destruct (py_getitem_last l' Hl') as [x Hx].
    exists "appDataRate", (-1)%Z, (PyList l'), x. repeat split; first [assumption | reflexivity].
  - destruct (exc_map (fun r => py_mul_float r (a_onoffPeriodMean args)) onOffPeriodDeviationRatio)
      as [stdevs | e] eqn:Es; [| discriminate]. cbn [exc_bind].
    intros H. injection H as <-.
    assert (Hlen : List.length stdevs = 9%nat) by (apply exc_map_length in Es; exact Es).
    assert (Hl' : map PyFloat stdevs <> []) by (destruct stdevs; [discriminate Hlen | discriminate]).
    destruct (py_getitem_last _ Hl') as [x Hx].
    exists "onoffPeriodStdev", (-1)%Z, (PyList (map PyFloat stdevs)), x.
    repeat split; first [assumption | reflexivity].
  - intros H. injection H as <-.
    eexists "allocationPeriod", 0%Z, _, _. repeat split; reflexivity.
  - destruct (exc_map (fun r => let* v := py_mul_int r (a_biDurationUs args) in
                                py_div_float v (f64_of_Z 1000000)) onoffPeriodRatio)
      as [means | e] eqn:Em; [| discriminate]. cbn [exc_bind].
    intros H. injection H as <-.
    assert (Hlen : List.length means = 11%nat) by (apply exc_map_length in Em; exact Em).
    assert (Hl' : map PyFloat means <> []) by (destruct means; [discriminate Hlen | discriminate]).
    destruct (py_getitem_last _ Hl') as [x Hx].
    exists "onoffPeriodMean", (-1)%Z, (PyList (map PyFloat means)), x.
    repeat split; first [assumption | reflexivity].
Qed.

(** C4: the bar-plot section of the [basic] preset reads the unbound name
    [bar_plots_params] and raises [NameError] before any assertion; in the
    other presets [numStas] is the command-line integer, so the [len] in
    the assertion raises [TypeError] on every invocation.  Only a list
    value of [numStas] of length other than one, which the command line
    cannot produce, would fail the assertion itself. *)
Theorem bar_plot_numStas_assertion :
  (forall pc, bar_plot_section Basic pc = Err NameError) /\
  (forall p args pc, p <> Basic -> preset_param_combination p args = Ok pc ->
     bar_plot_section p pc = Err TypeError) /\
  (forall p key idx pc old kept l,
     bar_pin p = Some (key, idx) -> dict_get key pc = Some old -> py_getitem old idx = Ok kept ->
     dict_get "numStas" pc = Some (PyList l) -> List.length l <> 1%nat ->
     bar_plot_section p pc = Err AssertionError).
Proof.
  split; [reflexivity |]. split.
  - intros p args pc Hp Hpc.
    destruct (preset_param_combination_shape p args pc Hp Hpc)
      as [key [idx [old [kept [Hpin [Hold [Hkept Hns]]]]]]].
    rewrite (bar_plot_section_numStas p key idx pc old kept Hpin Hold Hkept).
    unfold dict_getitem. rewrite Hns. reflexivity.
  - intros p key idx pc old kept l Hpin Hold Hkept Hns Hl.
    rewrite (bar_plot_section_numStas p key idx pc old kept Hpin Hold Hkept).
    unfold dict_getitem. rewrite Hns. simpl.
    replace (Z.of_nat (List.length l) =? 1)%Z with false by (symmetry; apply Z.eqb_neq; lia).
    reflexivity.
Qed.

Lemma bar_plot_numStas_assertion_witness :
  (exists pc, preset_param_combination Onoff (cli_defaults "onoff") = Ok pc /\
              bar_plot_section Onoff pc = Err TypeError) /\
  bar_plot_section Onoff [("appDataRate", PyList [PyStr "216562500bps"]);
                          ("numStas", PyList [PyInt 1; PyInt 2])] = Err AssertionError.
Proof.
  destruct bar_plot_numStas_assertion as [_ [H2 H3]]. split.
  - remember (preset_param_combination Onoff (cli_defaults "onoff")) as r eqn:E.
    destruct r as [pc | e].
    + exists pc. split; [reflexivity |].
      apply (H2 Onoff (cli_defaults "onoff") pc); [discriminate | symmetry; exact E].
    + vm_compute in E. discriminate E.
  - apply (H3 Onoff "appDataRate" (-1)%Z _ (PyList [PyStr "216562500bps"])
              (PyStr "216562500bps") [PyInt 1; PyInt 2]);
      [reflexivity | reflexivity | reflexivity | reflexivity | simpl; lia].
Defined.

(* ================================================================== *)
(** * Further properties of the code *)

(** ** Decimal strings: [str(n)], [int(s)] and [float(s)] *)

Definition digit_step (acc : Z) (c : ascii) : Z := (acc * 10 + digit_value c)%Z.

(** Replace the code [Z.of_nat (nat_of_ascii c)] of a literal character by
    its value. *)
Ltac eval_char_code :=
  repeat match goal with
  | |- context [Z.of_nat (nat_of_ascii ?c)] =>
      let v := eval vm_compute in (Z.of_nat (nat_of_ascii c)) in
      change (Z.of_nat (nat_of_ascii c)) with v
  end.

Lemma digits_of_uint_acc (u : Decimal.uint) (acc : positive) :
  fold_left digit_step (list_ascii_of_string (NilEmpty.string_of_uint u)) (Zpos acc)
  = Zpos (Pos.of_uint_acc u acc).
Proof.
  revert acc. induction u; intros acc;
    cbn [NilEmpty.string_of_uint list_ascii_of_string fold_left Pos.of_uint_acc];
    try reflexivity; rewrite <- IHu; f_equal; unfold digit_step;
    unfold digit_value; eval_char_code;
    rewrite ?Pos2Z.inj_add, ?Pos2Z.inj_mul; lia.
Qed.

Lemma digits_of_uint (u : Decimal.uint) :
  fold_left digit_step (list_ascii_of_string (NilEmpty.string_of_uint u)) 0%Z
  = Z.of_N (Pos.of_uint u).
Proof.
  induction u; cbn [NilEmpty.string_of_uint list_ascii_of_string fold_left Pos.of_uint];
    try reflexivity;
    [ exact IHu | .. ];
    cbn [Z.of_N]; rewrite <- digits_of_uint_acc; reflexivity.
Qed.

Lemma uint_digits (u : Decimal.uint) :
  forallb is_digit (list_ascii_of_string (NilEmpty.string_of_uint u)) = true.
Proof. induction u; simpl; try reflexivity; exact IHu. Qed.

Lemma to_uint_not_nil (p : positive) : Pos.to_uint p <> Decimal.Nil.
Proof.
  intros H. pose proof (DecimalPos.Unsigned.of_to p) as E. rewrite H in E. discriminate E.
Qed.

Lemma Z_to_string_pos (p : positive) :
  Z_to_string (Zpos p) = NilEmpty.string_of_uint (Pos.to_uint p).
Proof. reflexivity. Qed.

Lemma Z_to_string_neg (p : positive) :
  Z_to_string (Zneg p) = String "-" (NilEmpty.string_of_uint (Pos.to_uint p)).
Proof. reflexivity. Qed.

(** [str(n)] of a non-negative int is a numeric string whose value is [n]. *)
Lemma Z_to_string_nonneg (z : Z) :
  (0 <= z)%Z -> isnumeric (Z_to_string z) = true /\ decimal_value (Z_to_string z) = z.
Proof.
  intros Hz. destruct z as [| p | p]; [split; reflexivity | | lia].
  rewrite Z_to_string_pos. split.
  - pose proof (to_uint_not_nil p) as Hn. pose proof (uint_digits (Pos.to_uint p)) as Hd.
    destruct (Pos.to_uint p); [congruence | ..]; exact Hd.
  - unfold decimal_value. fold digit_step. rewrite digits_of_uint.
    rewrite DecimalPos.Unsigned.of_to. reflexivity.
Qed.

Lemma digit_not_space (c : ascii) : is_digit c = true -> is_py_space c = false.
Proof.
  unfold is_digit, is_py_space. intros H. apply andb_prop in H as [H1 H2].
  apply Nat.leb_le in H1. apply Nat.leb_le in H2.
  destruct (9 <=? nat_of_ascii c)%nat eqn:E1, (nat_of_ascii c <=? 13)%nat eqn:E2,
           (28 <=? nat_of_ascii c)%nat eqn:E3, (nat_of_ascii c <=? 32)%nat eqn:E4;
    simpl; try reflexivity;
    rewrite ?Nat.leb_le, ?Nat.leb_gt in *; lia.
Qed.

Lemma drop_while_head_false (f : ascii -> bool) (c : ascii) (l : list ascii) :
  f c = false -> drop_while f (c :: l) = c :: l.
Proof. simpl. intros ->. reflexivity. Qed.

Lemma int_body_ok_digits (b : bool) (l : list ascii) :
  l <> [] -> forallb is_digit l = true -> int_body_ok b l = true.
Proof.
  revert b. induction l as [| c l IH]; intros b Hl Hd; [congruence |].
  simpl in Hd. apply andb_prop in Hd as [Hc Hd]. simpl. rewrite Hc.
  destruct l as [| c' l']; [reflexivity |]. apply IH; [discriminate | exact Hd].
Qed.

Lemma int_body_value_digits_acc (l : list ascii) (acc : Z) :
  forallb is_digit l = true ->
  fold_left (fun acc c => if is_digit c then (acc * 10 + digit_value c)%Z else acc) l acc
  = fold_left digit_step l acc.
Proof.
  revert acc. induction l as [| c l IH]; intros acc Hd; [reflexivity |].
  simpl in Hd. apply andb_prop in Hd as [Hc Hd]. simpl. rewrite Hc. apply IH, Hd.
Qed.

Lemma digit_not_sign (c : ascii) :
  is_digit c = true -> Ascii.eqb c "-"%char = false /\ Ascii.eqb c "+"%char = false.
Proof.
  intros Hc. split; apply Ascii.eqb_neq; intros ->; discriminate Hc.
Qed.

Lemma strip_digits (l : list ascii) :
  forallb is_digit l = true ->
  rev (drop_while is_py_space (rev (drop_while is_py_space l))) = l.
Proof.
  intros Hd. destruct l as [| c l]; [reflexivity |].
  assert (Hc : is_digit c = true) by (simpl in Hd; apply andb_prop in Hd; tauto).
  rewrite drop_while_head_false by (apply digit_not_space, Hc).
  assert (Hr : forallb is_digit (rev (c :: l)) = true).
  { apply forallb_forall. intros x Hx. apply in_rev in Hx.
    eapply forallb_forall in Hd; [exact Hd | exact Hx]. }
  destruct (rev (c :: l)) as [| d r] eqn:E;
    [apply (f_equal (@List.length ascii)) in E; rewrite length_rev in E; discriminate E |].
  simpl in Hr. apply andb_prop in Hr as [Hd' _].
  rewrite drop_while_head_false by (apply digit_not_space, Hd').
  rewrite <- E, rev_involutive. reflexivity.
Qed.

(** [int(str(z)) == z]. *)
Lemma py_int_Z_to_string (z : Z) : py_int (Z_to_string z) = Ok z.
Proof.
  destruct z as [| p | p]; [reflexivity | |].
  - rewrite Z_to_string_pos. unfold py_int.
    set (l := list_ascii_of_string (NilEmpty.string_of_uint (Pos.to_uint p))).
    assert (Hd : forallb is_digit l = true) by apply uint_digits.
    assert (Hne : l <> []).
    { unfold l. pose proof (to_uint_not_nil p) as Hn.
      destruct (Pos.to_uint p); [congruence | ..]; discriminate. }
    rewrite (strip_digits l Hd).
    destruct l as [| c l'] eqn:El; [congruence |].
    assert (Hc : is_digit c = true) by (simpl in Hd; apply andb_prop in Hd; tauto).
    destruct (digit_not_sign c Hc) as [Hm Hp]. rewrite Hm, Hp.
    rewrite int_body_ok_digits by (assumption || discriminate).
    unfold int_body_value. rewrite int_body_value_digits_acc by exact Hd.
    rewrite <- El. unfold l. rewrite digits_of_uint, DecimalPos.Unsigned.of_to.
    reflexivity.
  - rewrite Z_to_string_neg. unfold py_int.
    set (l := list_ascii_of_string (NilEmpty.string_of_uint (Pos.to_uint p))).
    assert (Hd : forallb is_digit l = true) by apply uint_digits.
    assert (Hne : l <> []).
    { unfold l. pose proof (to_uint_not_nil p) as Hn.
      destruct (Pos.to_uint p); [congruence | ..]; discriminate. }
    cbn [list_ascii_of_string]. fold l.
    rewrite drop_while_head_false by reflexivity.
    assert (Hr : forallb is_digit (rev l) = true).
    { apply forallb_forall. intros x Hx. apply in_rev in Hx.
      eapply forallb_forall in Hd; [exact Hd | exact Hx]. }
    cbn [rev]. destruct (rev l) as [| d r] eqn:E;
      [apply (f_equal (@List.length ascii)) in E; rewrite length_rev in E;
       destruct l; [congruence | discriminate E] |].
    assert (Hd' : is_digit d = true) by (simpl in Hr; apply andb_prop in Hr; tauto).
    replace ((d :: r) ++ ["-"%char])%list with (d :: (r ++ ["-"%char]))%list by reflexivity.
    rewrite drop_while_head_false by (apply digit_not_space, Hd').
    replace (rev (d :: r ++ ["-"%char])%list) with ("-"%char :: l)
      by (rewrite app_comm_cons, rev_app_distr, <- E, rev_involutive; reflexivity).
    cbn [Ascii.eqb Bool.eqb andb].
    rewrite int_body_ok_digits by assumption.
    unfold int_body_value. rewrite int_body_value_digits_acc by exact Hd.
    unfold l. rewrite digits_of_uint, DecimalPos.Unsigned.of_to. reflexivity.
Qed.

Lemma round_half_even_nonneg (q : Q) : 0 <= q -> (0 <= round_half_even q)%Z.
Proof.
  destruct q as [n dp]. unfold Qle, round_half_even. simpl. intros Hq.
  assert (H : (0 <= n / Zpos dp)%Z) by (apply Z.div_pos; lia).
  destruct (Z.compare _ _); [destruct (Z.even _) |..]; lia.
Qed.

(** ** [output_to_arr] *)

(** [str.split] with a non-empty separator never returns an empty list. *)
Lemma split_go_not_nil (sep l cur : list ascii) : split_go sep l cur <> [].
Proof.
  revert cur. induction l as [| c l IH]; intros cur; simpl; [discriminate |].
  destruct (list_prefixb _ _); [discriminate | apply IH].
Qed.

Lemma py_split_not_nil (s sep : string) (parts : list string) :
  py_split s sep = Ok parts -> parts <> [].
Proof.
  unfold py_split. destruct sep as [| c sep']; [discriminate |].
  intros H. injection H as <-. intros E. apply map_eq_nil in E.
  exact (split_go_not_nil _ _ _ E).
Qed.

Lemma replace_nth_length {A} (n : nat) (x : A) (l : list A) :
  List.length (replace_nth n x l) = List.length l.
Proof.
  revert n. induction l as [| y l IH]; intros [| n]; simpl; try reflexivity.
  now rewrite IH.
Qed.

Lemma fill_row_length (ncols j : nat) (vals : list string) (row row' : list (option Z)) :
  fill_row ncols j vals row = Ok row' -> List.length row' = List.length row.
Proof.
  revert j row. induction vals as [| v vs IH]; intros j row H; simpl in H.
  - injection H as <-. reflexivity.
  - destruct (py_int v) as [z |]; [| discriminate]. simpl in H.
    destruct (ncols <=? j)%nat; [discriminate |].
    destruct (negb (in_int64 z)); [discriminate |].
    rewrite (IH _ _ H). apply replace_nth_length.
Qed.

Lemma exc_map_Forall {A B} (f : A -> exc B) (P : B -> Prop) (l : list A) (l' : list B) :
  (forall x y, f x = Ok y -> P y) -> exc_map f l = Ok l' -> Forall P l'.
Proof.
  intros Hf. revert l'. induction l as [| x l IH]; intros l' H; simpl in H.
  - injection H as <-. constructor.
  - destruct (f x) as [y |] eqn:Ey; [| discriminate]. simpl in H.
    destruct (exc_map f l) as [ys |]; [| discriminate]. simpl in H.
    injection H as <-. constructor; [exact (Hf _ _ Ey) | apply IH; reflexivity].
Qed.

(** The part of [output_to_arr] after the columns are known. *)
Lemma output_to_arr_rows_shape (cols : list string) (rows : list string)
    (column_sep : string) (a : ndarray) :
  (1 <= List.length cols)%nat ->
  (if (1 <? List.length rows)%nat then
     let* cells :=
       exc_map (fun line => let* vals := py_split line column_sep in
                            fill_row (List.length cols) 0 vals (repeat None (List.length cols))) rows in
     Ok {| shape := (List.length rows, List.length cols); dtype := DInt; cells := cells |}
   else Ok (np_zeros 0 (List.length cols))) = Ok a ->
  (1 <= snd (shape a))%nat /\ fst (shape a) <> 1%nat /\
  List.length (cells a) = fst (shape a) /\
  Forall (fun row => List.length row = snd (shape a)) (cells a).
Proof.
  intros Hcols.
  destruct (1 <? List.length rows)%nat eqn:Elt.
  - destruct (exc_map _ rows) as [cs |] eqn:Em; [| discriminate].
    cbn [exc_bind]. intros H. injection H as <-. cbn [shape cells fst snd].
    apply Nat.ltb_lt in Elt.
    split; [exact Hcols |]. split; [lia |]. split.
    + eapply exc_map_length. exact Em.
    + eapply exc_map_Forall; [| exact Em].
      intros line row Hrow. cbn beta in Hrow.
      destruct (py_split line column_sep) as [vals |]; [| discriminate]. cbn [exc_bind] in Hrow.
      rewrite (fill_row_length _ _ _ _ _ Hrow). apply repeat_length.
  - intros H. injection H as <-. cbn. split; [exact Hcols |]. split; [discriminate |].
    split; [reflexivity | constructor].
Qed.

(** X2: Every array [output_to_arr] returns has at least one column and never
    exactly one row, and its cells match its shape. *)
Theorem output_to_arr_shape (r : result) (fn column_sep row_sep : string)
    (columns : option (list string)) (numeric_cols : option string) (a : ndarray) :
  output_to_arr r fn column_sep row_sep columns numeric_cols = Ok a ->
  (1 <= snd (shape a))%nat /\ fst (shape a) <> 1%nat /\
  List.length (cells a) = fst (shape a) /\
  Forall (fun row => List.length row = snd (shape a)) (cells a).
Proof.
  unfold output_to_arr.
  destruct (py_assert _); [| discriminate]. cbn [exc_bind].
  destruct (py_assert _); [| discriminate]. cbn [exc_bind].
  destruct (dict_getitem fn (res_output r)) as [text |]; [| discriminate]. cbn [exc_bind].
  destruct (py_split (rstrip_newlines text) row_sep) as [parsed |] eqn:Ep; [| discriminate].
  cbn [exc_bind].
  pose proof (py_split_not_nil _ _ _ Ep) as Hne.
  destruct parsed as [| line0 rest]; [congruence |]. cbn [List.length Nat.eqb].
  destruct (match columns with Some c => c | None => [] end) as [| c0 cs0].
  - cbn [hd]. destruct (py_split line0 column_sep) as [hs |] eqn:Eh; [| discriminate].
    cbn [exc_bind].
    apply output_to_arr_rows_shape.
    pose proof (py_split_not_nil _ _ _ Eh). destruct hs; [congruence | simpl; lia].
  - cbn [exc_bind]. apply output_to_arr_rows_shape. simpl. lia.
Qed.

Lemma output_to_arr_shape_witness :
  exists a, output_to_arr two_row_result "packetsTrace.csv" "," newline None (Some "all") = Ok a /\
    (1 <= snd (shape a))%nat /\ fst (shape a) <> 1%nat /\
    List.length (cells a) = fst (shape a) /\
    Forall (fun row => List.length row = snd (shape a)) (cells a).
Proof.
  exists (np_zeros 0 2). split; [vm_compute; reflexivity |].
  apply (output_to_arr_shape two_row_result "packetsTrace.csv" "," newline None (Some "all")).
  vm_compute. reflexivity.
Defined.

(** X3: [output_to_arr] raises [AssertionError] unless [numeric_cols] is
    ['all'] (so also with its default [None]), and when the file is not
    among the result's outputs. *)
Theorem output_to_arr_assertions :
  (forall r fn column_sep row_sep columns numeric_cols,
     numeric_cols <> Some "all" ->
     output_to_arr r fn column_sep row_sep columns numeric_cols = Err AssertionError) /\
  (forall r fn column_sep row_sep columns,
     dict_get fn (res_output r) = None ->
     output_to_arr r fn column_sep row_sep columns (Some "all") = Err AssertionError).
Proof.
  split.
  - intros r fn column_sep row_sep columns numeric_cols Hnc. unfold output_to_arr.
    destruct numeric_cols as [s |]; [| reflexivity].
    destruct (String.eqb_spec s "all") as [-> | _]; [congruence | reflexivity].
  - intros r fn column_sep row_sep columns Hfn. unfold output_to_arr.
    cbn [py_assert String.eqb exc_bind]. rewrite Hfn. reflexivity.
Qed.

Lemma output_to_arr_assertions_witness :
  output_to_arr two_row_result "packetsTrace.csv" "," newline None None = Err AssertionError /\
  output_to_arr two_row_result "stderr" "," newline None (Some "all") = Err AssertionError.
Proof.
  split.
  - apply (proj1 output_to_arr_assertions). discriminate.
  - apply (proj2 output_to_arr_assertions). reflexivity.
Defined.

(** [sep.join(parts)] *)
Fixpoint py_join (sep : string) (parts : list string) : string :=
  match parts with
  | [] => ""
  | p :: parts' =>
      match parts' with
      | [] => p
      | _ :: _ => p ++ sep ++ py_join sep parts'
      end
  end.

(** The CSV text of a header and integer rows, one line each, followed by
    [k] newlines. *)
Definition csv_text (header : list string) (rows : list (list Z)) (k : nat) : string :=
  py_join newline (py_join "," header :: map (fun row => py_join "," (map Z_to_string row)) rows)
  ++ string_of_list_ascii (repeat "010"%char k).

Definition char_free (c : ascii) (s : string) : Prop := ~ In c (list_ascii_of_string s).

Lemma split_go_no_sep (c : ascii) (p rest cur : list ascii) :
  ~ In c p -> split_go [c] (p ++ rest) cur = split_go [c] rest (rev p ++ cur).
Proof.
  revert cur. induction p as [| x p IH]; intros cur Hp; [reflexivity |].
  cbn [app split_go rev list_prefixb].
  assert (Hx : Ascii.eqb c x = false) by (apply Ascii.eqb_neq; intros ->; apply Hp; left; reflexivity).
  rewrite Hx. cbn [andb]. rewrite IH by (intros H; apply Hp; right; exact H).
  rewrite <- app_assoc. reflexivity.
Qed.

Lemma split_go_sep (c : ascii) (rest cur : list ascii) :
  split_go [c] (c :: rest) cur = rev cur :: split_go [c] rest [].
Proof.
  cbn [split_go rev app list_prefixb]. rewrite Ascii.eqb_refl. reflexivity.
Qed.

Lemma list_ascii_of_py_join (c : ascii) (parts : list string) :
  list_ascii_of_string (py_join (String c EmptyString) parts)
  = match parts with
    | [] => []
    | p :: parts' =>
        (list_ascii_of_string p ++
         match parts' with
         | [] => []
         | _ :: _ => c :: list_ascii_of_string (py_join (String c EmptyString) parts')
         end)%list
    end.
Proof.
  destruct parts as [| p [| q parts']]; cbn [py_join]; [reflexivity | |].
  - rewrite app_nil_r. reflexivity.
  - rewrite !list_ascii_of_string_app. reflexivity.
Qed.

Lemma split_go_join (c : ascii) (p : string) (parts' : list string) (cur : list ascii) :
  Forall (char_free c) (p :: parts') ->
  split_go [c] (list_ascii_of_string (py_join (String c EmptyString) (p :: parts'))) cur
  = (rev cur ++ list_ascii_of_string p)%list :: map list_ascii_of_string parts'.
Proof.
  revert p cur. induction parts' as [| q parts' IH]; intros p cur Hall;
    inversion Hall as [| ? ? Hp Hrest]; subst.
  - cbn [py_join map]. rewrite <- (app_nil_r (list_ascii_of_string p)).
    rewrite split_go_no_sep by exact Hp. cbn [split_go].
    rewrite !app_nil_r, rev_app_distr, rev_involutive. reflexivity.
  - rewrite list_ascii_of_py_join.
    rewrite split_go_no_sep by exact Hp. rewrite split_go_sep, IH by exact Hrest.
    rewrite rev_app_distr, rev_involutive. reflexivity.
Qed.

(** [sep.join(parts).split(sep) == parts] for a one-character separator no
    part contains. *)
Lemma py_split_join (c : ascii) (parts : list string) :
  parts <> [] -> Forall (char_free c) parts ->
  py_split (py_join (String c EmptyString) parts) (String c EmptyString) = Ok parts.
Proof.
  intros Hne Hall. destruct parts as [| p parts']; [congruence |].
  unfold py_split. cbn [list_ascii_of_string]. rewrite split_go_join by exact Hall.
  cbn [rev app map]. rewrite string_of_list_ascii_of_string, map_map.
  f_equal. f_equal. rewrite <- (map_id parts') at 2. apply map_ext.
  intros x. apply string_of_list_ascii_of_string.
Qed.

Lemma In_py_join (x : ascii) (sep : string) (parts : list string) :
  In x (list_ascii_of_string (py_join sep parts)) ->
  In x (list_ascii_of_string sep) \/ Exists (fun p => In x (list_ascii_of_string p)) parts.
Proof.
  induction parts as [| p parts IH]; cbn [py_join]; [simpl; tauto |].
  destruct parts as [| q parts'].
  - intros H. right. left. exact H.
  - rewrite !list_ascii_of_string_app. intros H.
    apply in_app_or in H as [H | H]; [right; left; exact H |].
    apply in_app_or in H as [H | H]; [left; exact H |].
    destruct (IH H) as [H' | H']; [left; exact H' | right; right; exact H'].
Qed.

Lemma char_free_py_join (c : ascii) (sep : string) (parts : list string) :
  char_free c sep -> Forall (char_free c) parts -> char_free c (py_join sep parts).
Proof.
  intros Hs Hall H. apply In_py_join in H as [H | H]; [exact (Hs H) |].
  rewrite Exists_exists in H. destruct H as [p [Hp Hin]].
  rewrite Forall_forall in Hall. exact (Hall p Hp Hin).
Qed.

(** The characters of [str(z)]: decimal digits and a leading minus sign. *)
Lemma Z_to_string_chars (z : Z) :
  Forall (fun ch => is_digit ch = true \/ ch = "-"%char) (list_ascii_of_string (Z_to_string z)).
Proof.
  assert (Hu : forall u, Forall (fun ch => is_digit ch = true \/ ch = "-"%char)
                                (list_ascii_of_string (NilEmpty.string_of_uint u))).
  { intros u. pose proof (uint_digits u) as H. apply Forall_forall. intros ch Hch.
    left. eapply forallb_forall in H; [exact H | exact Hch]. }
  destruct z as [| p | p].
  - repeat constructor.
  - rewrite Z_to_string_pos. apply Hu.
  - rewrite Z_to_string_neg. cbn [list_ascii_of_string]. constructor; [right; reflexivity | apply Hu].
Qed.

Lemma Z_to_string_char_free (c : ascii) (z : Z) :
  is_digit c = false -> c <> "-"%char -> char_free c (Z_to_string z).
Proof.
  intros Hd Hm H. pose proof (Z_to_string_chars z) as Hall.
  rewrite Forall_forall in Hall. destruct (Hall c H) as [H' | H']; congruence.
Qed.

Lemma Z_to_string_not_empty (z : Z) : list_ascii_of_string (Z_to_string z) <> [].
Proof.
  destruct z as [| p | p]; [discriminate | | discriminate].
  rewrite Z_to_string_pos. pose proof (to_uint_not_nil p) as Hn.
  destruct (Pos.to_uint p); [congruence | ..]; discriminate.
Qed.

(** The row lines of [csv_text]. *)
Definition csv_line (row : list Z) : string := py_join "," (map Z_to_string row).

Lemma csv_line_split (row : list Z) :
  row <> [] -> py_split (csv_line row) "," = Ok (map Z_to_string row).
Proof.
  intros Hne. apply py_split_join.
  - destruct row; [congruence | discriminate].
  - apply Forall_map, Forall_forall. intros z _. apply Z_to_string_char_free; [reflexivity | discriminate].
Qed.

Lemma csv_line_newline_free (row : list Z) : char_free "010"%char (csv_line row).
Proof.
  apply char_free_py_join.
  - intros [H | []]. discriminate H.
  - apply Forall_map, Forall_forall. intros z _. apply Z_to_string_char_free; [reflexivity | discriminate].
Qed.

Lemma csv_line_not_empty (row : list Z) : row <> [] -> list_ascii_of_string (csv_line row) <> [].
Proof.
  intros Hne. unfold csv_line. destruct row as [| z row]; [congruence |].
  cbn [map]. rewrite list_ascii_of_py_join.
  pose proof (Z_to_string_not_empty z). destruct (list_ascii_of_string (Z_to_string z)); [congruence |].
  discriminate.
Qed.

Lemma firstn_replace_nth {A} (j : nat) (x : A) (l : list A) :
  (j < List.length l)%nat -> firstn (S j) (replace_nth j x l) = (firstn j l ++ [x])%list.
Proof.
  revert l. induction j as [| j IH]; intros [| y l] H; simpl in H; try lia; [reflexivity |].
  change (firstn (S (S j)) (replace_nth (S j) x (y :: l))) with (y :: firstn (S j) (replace_nth j x l)).
  rewrite IH by lia. reflexivity.
Qed.

Lemma fill_row_ints (ncols j : nat) (zs : list Z) (row : list (option Z)) :
  List.length row = ncols -> (j + List.length zs = ncols)%nat ->
  Forall (fun z => in_int64 z = true) zs ->
  fill_row ncols j (map Z_to_string zs) row = Ok (firstn j row ++ map Some zs)%list.
Proof.
  revert j row. induction zs as [| z zs IH]; intros j row Hrow Hj Hint; cbn [map fill_row].
  - simpl in Hj. rewrite firstn_all2 by lia. rewrite app_nil_r. reflexivity.
  - apply Forall_cons_iff in Hint as [Hz Hzs].
    rewrite py_int_Z_to_string. cbn [exc_bind]. simpl in Hj.
    replace (ncols <=? j)%nat with false by (symmetry; apply Nat.leb_gt; lia).
    rewrite Hz. cbn [negb].
    rewrite IH; [| rewrite replace_nth_length; exact Hrow | lia | exact Hzs].
    rewrite firstn_replace_nth by lia. rewrite <- app_assoc. reflexivity.
Qed.

Lemma py_join_snoc (c : ascii) (parts : list string) (q : string) :
  exists x, list_ascii_of_string (py_join (String c EmptyString) (parts ++ [q]))
            = (x ++ list_ascii_of_string q)%list.
Proof.
  induction parts as [| p parts IH]; [exists []; reflexivity |].
  destruct IH as [x Hx].
  rewrite <- app_comm_cons, list_ascii_of_py_join.
  destruct (parts ++ [q])%list as [| p' ps] eqn:E; [destruct parts; discriminate |].
  rewrite Hx. exists (list_ascii_of_string p ++ c :: x)%list.
  rewrite <- app_assoc. reflexivity.
Qed.

Lemma rev_repeat {A} (x : A) (k : nat) : rev (repeat x k) = repeat x k.
Proof.
  induction k as [| k IH]; [reflexivity |].
  cbn [repeat rev]. rewrite IH. change [x] with (repeat x 1).
  rewrite <- repeat_app, Nat.add_comm. reflexivity.
Qed.

Lemma drop_while_repeat (f : ascii -> bool) (c : ascii) (k : nat) (l : list ascii) :
  f c = true -> drop_while f (repeat c k ++ l) = drop_while f l.
Proof. intros Hc. induction k as [| k IH]; [reflexivity |]. simpl. rewrite Hc. exact IH. Qed.

(** [s.rstrip('\n')] removes exactly the newlines after a last line that
    does not end in one. *)
Lemma rstrip_newlines_trailing (body : string) (x y : list ascii) (k : nat) :
  list_ascii_of_string body = (x ++ y)%list -> y <> [] -> ~ In "010"%char y ->
  rstrip_newlines (body ++ string_of_list_ascii (repeat "010"%char k)) = body.
Proof.
  intros Hb Hy Hnl. unfold rstrip_newlines.
  rewrite list_ascii_of_string_app, list_ascii_of_string_of_list_ascii, Hb.
  rewrite rev_app_distr, rev_repeat, drop_while_repeat by reflexivity.
  rewrite rev_app_distr.
  destruct (rev y) as [| d ry] eqn:Ey;
    [apply (f_equal (@rev ascii)) in Ey; rewrite rev_involutive in Ey; simpl in Ey; congruence |].
  cbn [app]. rewrite drop_while_head_false.
  - rewrite app_comm_cons, <- Ey, rev_app_distr, !rev_involutive, <- Hb.
    apply string_of_list_ascii_of_string.
  - apply Ascii.eqb_neq. intros ->. apply Hnl. apply in_rev. rewrite Ey. left. reflexivity.
Qed.

Lemma exc_map_rows (column_sep : string) (ncols : nat) (rows : list (list Z)) :
  column_sep = "," -> (1 <= ncols)%nat ->
  Forall (fun row => List.length row = ncols) rows ->
  Forall (Forall (fun z => in_int64 z = true)) rows ->
  exc_map (fun line => let* vals := py_split line column_sep in
                       fill_row ncols 0 vals (repeat None ncols)) (map csv_line rows)
  = Ok (map (map Some) rows).
Proof.
  intros -> Hn Hall Hint. induction Hall as [| row rows Hrow Hall IH]; [reflexivity |].
  apply Forall_cons_iff in Hint as [Hz Hint].
  cbn [map exc_map]. rewrite csv_line_split by (intros ->; simpl in Hrow; lia).
  cbn [exc_bind]. rewrite fill_row_ints by (rewrite ?repeat_length; lia || exact Hz).
  cbn [exc_bind firstn app]. rewrite (IH Hint). reflexivity.
Qed.

Lemma output_to_arr_csv (r : result) (fn : string) (header : list string)
    (rows : list (list Z)) (k : nat) :
  header <> [] ->
  Forall (fun h => char_free ","%char h /\ char_free "010"%char h) header ->
  (2 <= List.length rows)%nat ->
  Forall (fun row => row <> []) rows ->
  dict_get fn (res_output r) = Some (csv_text header rows k) ->
  output_to_arr r fn "," newline None (Some "all")
  = let* cells :=
      exc_map (fun line => let* vals := py_split line "," in
                           fill_row (List.length header) 0 vals
                                    (repeat None (List.length header))) (map csv_line rows) in
    Ok {| shape := (List.length rows, List.length header); dtype := DInt; cells := cells |}.
Proof.
  intros Hh Hhc Hr Hrows Hfn.
  unfold output_to_arr. cbn [py_assert String.eqb exc_bind].
  unfold dict_getitem. rewrite Hfn. cbn [exc_bind].
  unfold csv_text. fold csv_line.
  set (body := py_join newline (py_join "," header :: map csv_line rows)).
  (* the trailing newlines are stripped *)
  assert (Hbody : rstrip_newlines (body ++ string_of_list_ascii (repeat "010"%char k)) = body).
  { destruct (exists_last (l := rows) ltac:(destruct rows; [simpl in Hr; lia | discriminate]))
      as [rows' [last_row Erows]].
    assert (Hlast : last_row <> []).
    { rewrite Forall_forall in Hrows. apply Hrows.
      rewrite Erows. apply in_or_app. right. left. reflexivity. }
    destruct (py_join_snoc "010"%char (py_join "," header :: map csv_line rows') (csv_line last_row))
      as [x Hx].
    apply (rstrip_newlines_trailing body x (list_ascii_of_string (csv_line last_row)) k).
    - unfold body, newline. rewrite Erows, map_app. exact Hx.
    - apply csv_line_not_empty, Hlast.
    - apply csv_line_newline_free. }
  rewrite Hbody.
  (* the lines *)
  assert (Hlines : py_split body newline = Ok (py_join "," header :: map csv_line rows)).
  { apply py_split_join; [discriminate |]. constructor.
    - apply char_free_py_join; [intros [H | []]; discriminate H |].
      eapply Forall_impl; [| exact Hhc]. intros h [_ H]. exact H.
    - apply Forall_map, Forall_forall. intros row _. apply csv_line_newline_free. }
  rewrite Hlines. cbn [exc_bind List.length Nat.eqb hd].
  (* the header *)
  assert (Hheader : py_split (py_join "," header) "," = Ok header).
  { apply py_split_join; [exact Hh |]. eapply Forall_impl; [| exact Hhc]. intros h [H _]. exact H. }
  rewrite Hheader. cbn [exc_bind skipn].
  rewrite length_map.
  replace (1 <? List.length rows)%nat with true by (symmetry; apply Nat.ltb_lt; lia).
  reflexivity.
Qed.

(** X4: [output_to_arr] on a CSV text with a header line and at least two
    data rows, each with one integer field per header column, every field
    within the int64 range of the array (the fields written as [str]
    writes ints, any number of trailing newlines): the int array of the
    rows, in order. *)
Theorem output_to_arr_parses_csv (r : result) (fn : string) (header : list string)
    (rows : list (list Z)) (k : nat) :
  header <> [] ->
  Forall (fun h => char_free ","%char h /\ char_free "010"%char h) header ->
  (2 <= List.length rows)%nat ->
  Forall (fun row => List.length row = List.length header) rows ->
  Forall (Forall (fun z => in_int64 z = true)) rows ->
  dict_get fn (res_output r) = Some (csv_text header rows k) ->
  output_to_arr r fn "," newline None (Some "all")
  = Ok {| shape := (List.length rows, List.length header); dtype := DInt;
          cells := map (map Some) rows |}.
Proof.
  intros Hh Hhc Hr Hrows Hint Hfn.
  assert (Hn : (1 <= List.length header)%nat) by (destruct header; [congruence | simpl; lia]).
  rewrite (output_to_arr_csv r fn header rows k Hh Hhc Hr); [| | exact Hfn].
  - rewrite exc_map_rows by (reflexivity || assumption). reflexivity.
  - eapply Forall_impl; [| exact Hrows]. intros row Hrow ->. simpl in Hrow. lia.
Qed.

Ltac solve_char_free :=
  let H := fresh in
  intros H; simpl in H; repeat (destruct H as [H | H]; [discriminate H |]); destruct H.

Definition csv_trace_result : result :=
  {| res_params := [];
     res_output := [("packetsTrace.csv", csv_text ["SrcNodeId"; "PktSize"] [[0; 1500]; [1; -3]]%Z 2)];
     res_id := "r1" |}.

Lemma output_to_arr_parses_csv_witness :
  output_to_arr csv_trace_result "packetsTrace.csv" "," newline None (Some "all")
  = Ok {| shape := (2%nat, 2%nat); dtype := DInt;
          cells := [[Some 0; Some 1500]; [Some 1; Some (-3)]]%Z |}.
Proof.
  apply (output_to_arr_parses_csv csv_trace_result "packetsTrace.csv" ["SrcNodeId"; "PktSize"]
           [[0; 1500]; [1; -3]]%Z 2).
  - discriminate.
  - repeat constructor; solve_char_free.
  - simpl; lia.
  - repeat constructor.
  - repeat constructor.
  - reflexivity.
Defined.

(* ------------------------------------------------------------------ *)
(** ** The metric functions on a loaded trace *)

Fixpoint sumQ (l : list Q) : Q :=
  match l with [] => 0 | x :: l' => x + sumQ l' end.


Lemma np_sum_fin (l : list Q) (a : Q) :
  exists z, fold_left np_add (map NFin l) (NFin a) = NFin z /\ z == a + sumQ l.
Proof.
  revert a. induction l as [| x l IH]; intros a.
  - exists a. split; [reflexivity | simpl; ring].
  - cbn [map fold_left]. change (np_add (NFin a) (NFin x)) with (NFin (Qred (a + x))).
    destruct (IH (Qred (a + x))) as [z [Ez Hz]].
    exists z. split; [exact Ez |]. rewrite Hz, Qred_correct. simpl. ring.
Qed.

Lemma np_mean_fin (l : list Q) :
  l <> [] ->
  exists m, np_mean (map NFin l) = NFin m /\
            m == sumQ l / inject_Z (Z.of_nat (List.length l)).
Proof.
  intros Hl. unfold np_mean, np_sum.
  destruct (np_sum_fin l 0) as [z [Ez Hz]]. rewrite Ez, length_map.
  unfold np_div, np_of_Z.
  destruct (Qeq_bool _ 0) eqn:E.
  - apply Qeq_bool_iff in E. destruct l as [| x l]; [congruence |].
    unfold Qeq in E. simpl in E. lia.
  - eexists. split; [reflexivity |]. rewrite Qred_correct, Hz. apply Qdiv_comp; [ring | reflexivity].
Qed.


Lemma np_div_fin (a b : Q) : ~ b == 0 -> np_div (NFin a) (NFin b) = NFin (Qred (a / b)).
Proof.
  intros Hb. unfold np_div. destruct (Qeq_bool b 0) eqn:E; [| reflexivity].
  apply Qeq_bool_iff in E. contradiction.
Qed.

Lemma np_div_fin_zero (a b : Q) : b == 0 -> np_div (NFin a) (NFin b) = np_inf_of_sign (Qcompare a 0).
Proof.
  intros Hb. unfold np_div. destruct (Qeq_bool b 0) eqn:E; [reflexivity |].
  apply Qeq_bool_neq in E. contradiction.
Qed.

Lemma Qcompare_Qred (q : Q) : Qcompare (Qred q) 0 = Qcompare q 0.
Proof. rewrite Qred_correct. reflexivity. Qed.

Lemma Qcompare_inject_Z_scaled (b : Z) (c : Q) :
  0 < c -> Qcompare (inject_Z b * c) 0 = Z.compare b 0.
Proof.
  intros Hc. destruct (Z.compare_spec b 0) as [H | H | H].
  - subst. apply Qeq_alt. ring.
  - apply Qlt_alt. assert (inject_Z b < 0) by (change 0 with (inject_Z 0); rewrite <- Zlt_Qlt; exact H).
    setoid_replace 0 with (0 * c) by ring. apply Qmult_lt_r; assumption.
  - apply Qgt_alt. assert (0 < inject_Z b) by (change 0 with (inject_Z 0); rewrite <- Zlt_Qlt; exact H).
    apply Qmult_lt_0_compat; assumption.
Qed.

(** X6: [compute_avg_thr_mbps] on a non-empty trace: the received bytes times
    8 over the span from the first send to the last reception, in Mbit/s,
    i.e. [8000 * bytes / (rx_last - tx_first)] with timestamps in ns.  A
    zero span does not raise: numpy gives [inf] (or [nan] when no byte was
    received). *)
Theorem compute_avg_thr_mbps_value (r0 : pkt_row) (rest : pkt_table) :
  (RxTimestamp_ns (last (r0 :: rest) r0) <> TxTimestamp_ns r0 ->
   exists q, compute_avg_thr_mbps (r0 :: rest) = NFin q /\
     q == inject_Z (8000 * fold_left Z.add (map PktSize_B (r0 :: rest)) 0%Z) /
          inject_Z (RxTimestamp_ns (last (r0 :: rest) r0) - TxTimestamp_ns r0)) /\
  (RxTimestamp_ns (last (r0 :: rest) r0) = TxTimestamp_ns r0 ->
   compute_avg_thr_mbps (r0 :: rest) =
     np_inf_of_sign (Z.compare (fold_left Z.add (map PktSize_B (r0 :: rest)) 0%Z) 0)).
Proof.
  set (tx := TxTimestamp_ns r0). set (rx := RxTimestamp_ns (last (r0 :: rest) r0)).
  set (B := fold_left Z.add (map PktSize_B (r0 :: rest)) 0%Z).
  assert (E : compute_avg_thr_mbps (r0 :: rest) =
              np_div (NFin (Qred (inject_Z (B * 8) / (1000000 # 1))))
                     (NFin (Qred (Qred (inject_Z rx / (1000000000 # 1)) +
                                  Qred (- Qred (inject_Z tx / (1000000000 # 1))))))).
  { unfold compute_avg_thr_mbps, np_sub, np_add, np_neg, np_of_Z.
    rewrite !np_div_fin by (intros H; discriminate H). reflexivity. }
  assert (HD : Qred (Qred (inject_Z rx / (1000000000 # 1)) +
                     Qred (- Qred (inject_Z tx / (1000000000 # 1))))
               == inject_Z (rx - tx) / (1000000000 # 1)).
  { unfold Z.sub. rewrite !Qred_correct, inject_Z_plus, inject_Z_opp. field. }
  rewrite E. split.
  - intros Hne.
    assert (Hd : ~ inject_Z (rx - tx) == 0).
    { change 0 with (inject_Z 0). intros H. rewrite inject_Z_injective in H. fold rx tx in Hne. lia. }
    rewrite np_div_fin.
    2: { rewrite HD. intros H. apply Hd.
         setoid_replace (inject_Z (rx - tx)) with (inject_Z (rx - tx) / (1000000000 # 1) * (1000000000 # 1))
           by (field; discriminate).
         rewrite H. ring. }
    eexists. split; [reflexivity |].
    rewrite Qred_correct, HD, Qred_correct, !inject_Z_mult. field.
    exact Hd.
  - intros Heq. rewrite np_div_fin_zero.
    + rewrite Qcompare_Qred. unfold Qdiv. rewrite inject_Z_mult, <- Qmult_assoc.
      f_equal. apply Qcompare_inject_Z_scaled. reflexivity.
    + rewrite HD. fold rx tx in Heq. rewrite Heq, Z.sub_diag. reflexivity.
Qed.

Definition thr_trace_finite : pkt_table :=
  [ {| SrcNodeId := 1; TxTimestamp_ns := 0; RxTimestamp_ns := 500000; PktSize_B := 1500 |};
    {| SrcNodeId := 2; TxTimestamp_ns := 200000; RxTimestamp_ns := 1000000; PktSize_B := 1000 |} ]%Z.

Definition thr_trace_zero_span : pkt_table :=
  [ {| SrcNodeId := 1; TxTimestamp_ns := 7; RxTimestamp_ns := 7; PktSize_B := 1500 |} ]%Z.

Lemma compute_avg_thr_mbps_value_witness :
  (exists q, compute_avg_thr_mbps thr_trace_finite = NFin q /\ q == 20 # 1) /\
  compute_avg_thr_mbps thr_trace_zero_span = NPInf.
Proof.
  split.
  - destruct (proj1 (compute_avg_thr_mbps_value (hd (Build_pkt_row 0 0 0 0) thr_trace_finite)
                       (tl thr_trace_finite)) ltac:(vm_compute; discriminate)) as [q [Eq Hq]].
    exists q. split; [exact Eq |]. eapply Qeq_trans; [exact Hq | vm_compute; reflexivity].
  - exact (proj2 (compute_avg_thr_mbps_value (hd (Build_pkt_row 0 0 0 0) thr_trace_zero_span)
                    (tl thr_trace_zero_span)) eq_refl).
Defined.

Lemma length_pos_Q {A} (l : list A) : l <> [] -> 0 < inject_Z (Z.of_nat (List.length l)).
Proof. destruct l as [| x l]; [congruence |]. intros _. unfold Qlt. simpl. lia. Qed.

(** X7: [compute_avg_delay_ms] on a non-empty trace: the mean of
    [rx - tx] over the rows, converted from ns to ms. *)
Theorem compute_avg_delay_ms_value (t : pkt_table) :
  t <> [] ->
  exists q, compute_avg_delay_ms t = NFin q /\
    q == sumQ (map (fun r => inject_Z (RxTimestamp_ns r - TxTimestamp_ns r)) t) /
         (inject_Z (Z.of_nat (List.length t)) * 1000000).
Proof.
  intros Ht.
  set (l := map (fun r => inject_Z (RxTimestamp_ns r - TxTimestamp_ns r)) t).
  assert (Hl : l <> []) by (unfold l; destruct t; [congruence | discriminate]).
  assert (Hmap : map pkt_delay_ns t = map NFin l) by (unfold l; rewrite map_map; reflexivity).
  assert (Hlen : List.length l = List.length t) by (unfold l; apply length_map).
  pose proof (length_pos_Q t Ht) as Hn.
  destruct (np_mean_fin l Hl) as [m [Em Hm]].
  assert (Hdef : compute_avg_delay_ms t =
                 np_mul (np_div (np_mean (map pkt_delay_ns t)) (np_of_Z 1000000000)) (np_of_Z 1000))
    by (destruct t; [congruence | reflexivity]).
  rewrite Hdef, Hmap, Em.
  unfold np_of_Z. rewrite np_div_fin by (intros H; discriminate H).
  cbn [np_mul]. eexists. split; [reflexivity |].
  rewrite !Qred_correct, Hm, Hlen. field. lra.
Qed.

Lemma compute_avg_delay_ms_value_witness :
  exists q, compute_avg_delay_ms thr_trace_finite = NFin q /\ q == 13 # 20.
Proof.
  destruct (compute_avg_delay_ms_value thr_trace_finite ltac:(discriminate)) as [q [Eq Hq]].
  exists q. split; [exact Eq |]. eapply Qeq_trans; [exact Hq | vm_compute; reflexivity].
Defined.

Lemma filter_filter_implied {A} (P R : A -> bool) (l : list A) :
  (forall x, P x = true -> R x = true) -> filter P (filter R l) = filter P l.
Proof.
  intros H. induction l as [| x l IH]; [reflexivity |]. cbn [filter].
  destruct (R x) eqn:ER; cbn [filter].
  - rewrite IH. reflexivity.
  - destruct (P x) eqn:EP; [rewrite (H x EP) in ER; discriminate | exact IH].
Qed.

Lemma in_py_node_ids (numStas k : Z) :
  In k (map Z.of_nat (seq 0 (Z.to_nat (numStas + 1)))) -> (0 <= k <= numStas)%Z.
Proof.
  intros Hk. apply in_map_iff in Hk as [i [<- Hi]]. apply in_seq in Hi. lia.
Qed.

(** X8: [compute_avg_user_metric] returns one value per node id
    [0 .. numStas] (none for a negative [numStas]), and rows whose
    [SrcNodeId] lies outside that range have no effect on it. *)
Theorem compute_avg_user_metric_nodes (numStas : Z) (t : pkt_table)
    (metric : pkt_table -> npf) :
  List.length (compute_avg_user_metric numStas t metric) = Z.to_nat (numStas + 1) /\
  compute_avg_user_metric numStas t metric =
  compute_avg_user_metric numStas
    (filter (fun r => (0 <=? SrcNodeId r) && (SrcNodeId r <=? numStas))%Z t) metric.
Proof.
  unfold compute_avg_user_metric. split.
  - rewrite !length_map, length_seq. reflexivity.
  - apply map_ext_in. intros k Hk. apply in_py_node_ids in Hk.
    rewrite filter_filter_implied; [reflexivity |].
    intros r Hr. apply Z.eqb_eq in Hr. subst k.
    apply andb_true_intro; split; apply Z.leb_le; lia.
Qed.

(** X9: The per-node values from index 1 on ([user_thr[1:]], what
    [compute_jain_fairness] passes to [jain_fairness]) do not depend on the
    rows of node 0, the access point. *)
Theorem compute_avg_user_metric_tail_ignores_ap (numStas : Z) (t : pkt_table)
    (metric : pkt_table -> npf) :
  tl (compute_avg_user_metric numStas t metric) =
  tl (compute_avg_user_metric numStas (filter (fun r => negb (SrcNodeId r =? 0)%Z) t) metric).
Proof.
  unfold compute_avg_user_metric.
  destruct (Z.to_nat (numStas + 1)) as [| n]; [reflexivity |].
  cbn [seq map tl]. rewrite <- seq_shift, !map_map.
  apply map_ext. intros i.
  rewrite filter_filter_implied; [reflexivity |].
  intros r Hr. apply Z.eqb_eq in Hr. rewrite Hr. reflexivity.
Qed.

(* ------------------------------------------------------------------ *)
(** ** Errors of the rate helpers and the preset parameter spaces *)

Lemma getAppDataRate_unknown_mode (mode : string) (n : Z) (v : pyval) :
  dict_get mode MCS_PARAMS = None -> getAppDataRate mode n v = Err KeyError.
Proof. intros He. unfold getAppDataRate, dict_getitem. rewrite He. reflexivity. Qed.

Lemma getAppDataRate_zero_stas (mode : string) (e : mcs_entry) (v : pyval) :
  dict_get mode MCS_PARAMS = Some e -> getAppDataRate mode 0 v = Err ZeroDivisionError.
Proof. intros He. unfold getAppDataRate, dict_getitem. rewrite He. reflexivity. Qed.

(** X14: The two lookups fail first: [getAppDataRate] raises [KeyError] for a
    mode outside [MCS_PARAMS] and [ZeroDivisionError] for zero stations,
    whatever the traffic argument (even one of an unsupported type);
    [sta_data_rate_mbps] raises [ZeroDivisionError] for zero stations
    when the mode has an ['app_rate'] and the aggregation size is the
    supported one. *)
Theorem rate_helpers_lookup_errors (mode : string) (n : Z) (v : pyval) (f : Q) :
  (dict_get mode MCS_PARAMS = None ->
   getAppDataRate mode n v = Err KeyError /\ sta_data_rate_mbps n mode f 262143 = Err KeyError) /\
  (forall e, dict_get mode MCS_PARAMS = Some e ->
   getAppDataRate mode 0 v = Err ZeroDivisionError /\
   (app_rate e <> None -> sta_data_rate_mbps 0 mode f 262143 = Err ZeroDivisionError)).
Proof.
  split.
  - intros He. split; [apply getAppDataRate_unknown_mode; exact He |].
    unfold sta_data_rate_mbps, dict_getitem. cbn [py_assert Z.eqb exc_bind]. rewrite He. reflexivity.
  - intros e He. split; [apply (getAppDataRate_zero_stas mode e v He) |].
    intros Ha. unfold sta_data_rate_mbps, dict_getitem. cbn [py_assert Z.eqb exc_bind].
    rewrite He. cbn [exc_bind].
    destruct (app_rate e) as [a |]; [| congruence]. cbn [exc_bind].
    unfold pf_div at 1. cbn [Qeq_bool Qnum Qden Z.mul Z.eqb Pos.mul]. cbn [exc_bind].
    reflexivity.
Qed.

Lemma rate_helpers_lookup_errors_witness :
  (getAppDataRate "DMG_MCS13" 4 (PyFloat (f64_lit 3 4)) = Err KeyError /\
   sta_data_rate_mbps 4 "DMG_MCS13" (3 # 4) 262143 = Err KeyError) /\
  getAppDataRate "DMG_MCS4" 0 (PyInt 1) = Err ZeroDivisionError /\
  sta_data_rate_mbps 0 "DMG_MCS4" (3 # 4) 262143 = Err ZeroDivisionError.
Proof.
  destruct (rate_helpers_lookup_errors "DMG_MCS13" 4 (PyFloat (f64_lit 3 4)) (3 # 4)) as [H1 _].
  destruct (rate_helpers_lookup_errors "DMG_MCS4" 0 (PyInt 1) (3 # 4)) as [_ H2].
  split; [exact (H1 eq_refl) |].
  destruct (H2 _ eq_refl) as [Ha Hb].
  split; [exact Ha | apply Hb; discriminate].
Defined.

Lemma getAppDataRate_float_ok (mode : string) (e : mcs_entry) (n : Z) (f : f64) :
  dict_get mode MCS_PARAMS = Some e -> n <> 0%Z -> f64_is_inf (f64_of_Z n) = false ->
  exists s, getAppDataRate mode n (PyFloat f) = Ok (PyList [PyStr s]).
Proof.
  intros He Hn Hi. unfold getAppDataRate, dict_getitem. rewrite He. cbn [exc_bind].
  rewrite py_float_of_int_ok by exact Hi. cbn [exc_bind].
  rewrite py_fdiv_int by exact Hn. cbn [exc_bind]. eexists. reflexivity.
Qed.

(** An int a float can hold, or a float. *)
Definition is_number (v : pyval) : Prop :=
  match v with
  | PyInt z => f64_is_inf (f64_of_Z z) = false
  | PyFloat _ => True
  | PyStr _ | PyList _ => False
  end.

Lemma getAppDataRate_numbers_ok (mode : string) (e : mcs_entry) (n : Z) (l : list pyval) :
  dict_get mode MCS_PARAMS = Some e -> n <> 0%Z -> f64_is_inf (f64_of_Z n) = false ->
  Forall is_number l ->
  exists vs, getAppDataRate mode n (PyList l) = Ok (PyList vs) /\ List.length vs = List.length l.
Proof.
  intros He Hn Hi Hall. unfold getAppDataRate, dict_getitem. rewrite He. cbn [exc_bind].
  rewrite py_float_of_int_ok by exact Hi. cbn [exc_bind].
  rewrite py_fdiv_int by exact Hn. cbn [exc_bind].
  set (x := f64_div (phy_rate e) (f64_of_Z n)).
  assert (H : exists vs, exc_map (fun r => let* y := py_mul_float r x in
                                          Ok (PyStr (format_0f y ++ "bps"))) l = Ok vs /\
                         List.length vs = List.length l).
  { induction Hall as [| v l Hv Hall IH]; [exists []; split; reflexivity |].
    destruct IH as [vs [Evs Hvs]].
    destruct v as [z | q | s | l']; try contradiction; cbn [exc_map py_mul_float];
      [rewrite py_float_of_int_ok by exact Hv |]; cbn [exc_bind];
      rewrite Evs; cbn [exc_bind]; eexists; (split; [reflexivity | simpl; rewrite Hvs; reflexivity]). }
  destruct H as [vs [Evs Hvs]]. rewrite Evs. exists vs. split; [reflexivity | exact Hvs].
Qed.

Definition run_simulations_keys : list string :=
  ["applicationType"; "appDataRate"; "socketType"; "mpduAggregationSize"; "phyMode";
   "simulationTime"; "numStas"; "allocationPeriod"; "accessCbapIfAllocated";
   "biDurationUs"; "onoffPeriodMean"; "onoffPeriodStdev"; "RngRun"].

(** The number of offered rates each preset sweeps. *)
Definition preset_rate_count (p : preset) : nat :=
  match p with Basic | Onoff => 11%nat | _ => 1%nat end.

Lemma exc_map_total {A B} (f : A -> exc B) (P : A -> Prop) (l : list A) :
  Forall P l -> (forall x, P x -> exists y, f x = Ok y) ->
  exists ys, exc_map f l = Ok ys /\ List.length ys = List.length l.
Proof.
  intros Hall Hf. induction Hall as [| x l Hx _ IH]; [exists []; split; reflexivity |].
  destruct (Hf x Hx) as [y Ey]. destruct IH as [ys [Eys Hys]].
  exists (y :: ys). cbn [exc_map]. rewrite Ey, Eys. split; [reflexivity | simpl; lia].
Qed.

(** The [onoffPeriodMean] values of the periodicity preset exist when the
    beacon interval converts to a float. *)
Lemma onoff_means_ok (b : Z) :
  f64_is_inf (f64_of_Z b) = false ->
  exists means, exc_map (fun r => let* v := py_mul_int r b in py_div_float v (f64_of_Z 1000000))
                        onoffPeriodRatio = Ok means /\ List.length means = 11%nat.
Proof.
  intros Hb.
  apply (exc_map_total _ (fun r => r = PyInt 1 \/ exists f, r = PyFloat f)).
  - repeat apply Forall_cons; first [apply Forall_nil | left; reflexivity | right; eexists; reflexivity].
  - intros x [-> | [f ->]]; cbn [py_mul_int exc_bind].
    + rewrite Z.mul_1_l. cbn [py_div_float]. rewrite py_float_of_int_ok by exact Hb.
      cbn [exc_bind]. eexists. reflexivity.
    + rewrite py_float_of_int_ok by exact Hb. cbn [exc_bind py_div_float].
      eexists. reflexivity.
Qed.

(** X15: What the presets hand to [run_simulations]: every preset raises
    [KeyError] for a [--phyMode] outside [MCS_PARAMS], [ZeroDivisionError]
    for [--numStas 0] and [OverflowError] for a [--numStas] too large for
    a float (from the baseline [getAppDataRate] call, before the preset's
    own code).  Otherwise (and, for [onoffPeriodicity], with a
    [--biDurationUs] a float can hold) it builds the 13 parameters of
    [run_simulations] in order, with [RngRun = list(range(numRuns))]
    (empty for [numRuns <= 0]) and 11 offered rates for [basic] and
    [onoff], one for the other presets. *)
Theorem preset_param_combination_outcome (p : preset) (args : cli_args) :
  (dict_get (a_phyMode args) MCS_PARAMS = None ->
   preset_param_combination p args = Err KeyError) /\
  (dict_get (a_phyMode args) MCS_PARAMS <> None -> a_numStas args = 0%Z ->
   preset_param_combination p args = Err ZeroDivisionError) /\
  (dict_get (a_phyMode args) MCS_PARAMS <> None -> f64_is_inf (f64_of_Z (a_numStas args)) = true ->
   preset_param_combination p args = Err OverflowError) /\
  (dict_get (a_phyMode args) MCS_PARAMS <> None -> a_numStas args <> 0%Z ->
   f64_is_inf (f64_of_Z (a_numStas args)) = false ->
   (p = OnoffPeriodicity -> f64_is_inf (f64_of_Z (a_biDurationUs args)) = false) ->
   exists pc rates,
     preset_param_combination p args = Ok pc /\
     map fst pc = run_simulations_keys /\
     dict_get "appDataRate" pc = Some (PyList rates) /\
     List.length rates = preset_rate_count p /\
     dict_get "RngRun" pc = Some (PyList (map PyInt (py_range (a_numRuns args))))).
Proof.
  unfold preset_param_combination. split; [| split; [| split]].
  - intros He. rewrite getAppDataRate_unknown_mode by exact He. reflexivity.
  - intros He Hn. destruct (dict_get (a_phyMode args) MCS_PARAMS) as [e |] eqn:E; [| congruence].
    rewrite Hn. rewrite (getAppDataRate_zero_stas _ e _ E). reflexivity.
  - intros He Hi. destruct (dict_get (a_phyMode args) MCS_PARAMS) as [e |] eqn:E; [| congruence].
    unfold getAppDataRate at 1, dict_getitem at 1. rewrite E. cbn [exc_bind].
    unfold py_float_of_int at 1. rewrite Hi. reflexivity.
  - intros He Hn Hi Hb. destruct (dict_get (a_phyMode args) MCS_PARAMS) as [e |] eqn:E; [| congruence].
    destruct (getAppDataRate_float_ok _ e (a_numStas args) (a_normOfferedTraffic args) E Hn Hi)
      as [s Es].
    rewrite Es. cbn [exc_bind].
    destruct (getAppDataRate_numbers_ok _ e (a_numStas args) norm_offered_traffic_sweep E Hn Hi
                ltac:(repeat constructor)) as [vs [Evs Hvs]].
    destruct p; cbn [exc_bind].
    + rewrite Evs. cbn [exc_bind]. do 2 eexists. split; [reflexivity |].
      split; [reflexivity |]. split; [reflexivity |]. split; [exact Hvs | reflexivity].
    + rewrite Evs. cbn [exc_bind]. do 2 eexists. split; [reflexivity |].
      split; [reflexivity |]. split; [reflexivity |]. split; [exact Hvs | reflexivity].
    + destruct (exc_map_total (fun r => py_mul_float r (a_onoffPeriodMean args))
                  (fun r => r = PyInt 0 \/ exists f, r = PyFloat f) onOffPeriodDeviationRatio)
        as [stdevs [Es' _]].
      { repeat apply Forall_cons;
          first [apply Forall_nil | left; reflexivity | right; eexists; reflexivity]. }
      { intros x [-> | [f ->]]; eexists; reflexivity. }
      rewrite Es'. cbn [exc_bind].
      do 2 eexists. split; [reflexivity |].
      split; [reflexivity |]. split; [reflexivity |]. split; reflexivity.
    + do 2 eexists. split; [reflexivity |].
      split; [reflexivity |]. split; [reflexivity |]. split; reflexivity.
    + destruct (onoff_means_ok (a_biDurationUs args) (Hb eq_refl)) as [means [Em _]].
      rewrite Em. cbn [exc_bind]. do 2 eexists. split; [reflexivity |].
      split; [reflexivity |]. split; [reflexivity |]. split; reflexivity.
Qed.

Lemma preset_param_combination_outcome_witness :
  preset_param_combination Basic (cli_defaults "basic") <> Err KeyError /\
  (exists pc rates,
     preset_param_combination Basic (cli_defaults "basic") = Ok pc /\
     map fst pc = run_simulations_keys /\
     dict_get "appDataRate" pc = Some (PyList rates) /\
     List.length rates = 11%nat /\
     dict_get "RngRun" pc = Some (PyList (map PyInt [0; 1; 2; 3; 4]%Z))) /\
  preset_param_combination Onoff {| a_paramSet := "onoff"; a_numRuns := 5;
      a_applicationType := "constant"; a_normOfferedTraffic := f64_lit 75 100;
      a_socketType := "ns3::UdpSocketFactory"; a_mpduAggregationSize := 262143;
      a_phyMode := "DMG_MCS4"; a_simulationTime := f64_of_Z 10; a_numStas := 0;
      a_accessCbapIfAllocated := "true"; a_biDurationUs := 102400;
      a_onoffPeriodMean := f64_lit 1024 10000; a_onoffPeriodStdev := f64_of_Z 0 |}
    = Err ZeroDivisionError /\
  preset_param_combination OnoffStdev {| a_paramSet := "onoffStdev"; a_numRuns := 5;
      a_applicationType := "constant"; a_normOfferedTraffic := f64_lit 75 100;
      a_socketType := "ns3::UdpSocketFactory"; a_mpduAggregationSize := 262143;
      a_phyMode := "DMG_MCS4"; a_simulationTime := f64_of_Z 10; a_numStas := 2 ^ 1024;
      a_accessCbapIfAllocated := "true"; a_biDurationUs := 102400;
      a_onoffPeriodMean := f64_lit 1024 10000; a_onoffPeriodStdev := f64_of_Z 0 |}
    = Err OverflowError.
Proof.
  destruct (preset_param_combination_outcome Basic (cli_defaults "basic")) as [_ [_ [_ H]]].
  destruct (H ltac:(discriminate) ltac:(discriminate) ltac:(vm_compute; reflexivity)
              ltac:(discriminate)) as [pc [rates [E1 [E2 [E3 [E4 E5]]]]]].
  split; [rewrite E1; discriminate |].
  split; [exists pc, rates; repeat split; assumption |].
  split.
  - apply (preset_param_combination_outcome Onoff _); [discriminate | reflexivity].
  - apply (preset_param_combination_outcome OnoffStdev _); [discriminate | vm_compute; reflexivity].
Defined.

Lemma pf_div_two (x : Q) : pf_div x 2 = Ok (Qred (x / 2)).
Proof. reflexivity. Qed.

Lemma pf_div_length {A} (x : Q) (a : A) (l : list A) :
  pf_div x (inject_Z (Z.of_nat (List.length (a :: l)))) =
  Ok (Qred (x / inject_Z (Z.of_nat (List.length (a :: l))))).
Proof. apply pf_div_nonzero. simpl. lia. Qed.

(** X16: The edge cases of [bar_plot]: an empty [data] raises
    [ZeroDivisionError] ([total_width / 0]); a first value with no
    dimension returns before drawing anything (no legend); a first
    series with no point to draw raises [UnboundLocalError] at
    [bar[0]]; error bars missing the first series' name raise
    [KeyError]; an empty color list raises [ZeroDivisionError]
    ([i % 0]) at the first bar. *)
Theorem bar_plot_edge_cases (rc_colors : list string) (data : list (string * xr))
    (data_yerr : option (list (string * list Q))) (colors : option (list string))
    (total_width single_width : Q) (legend : bool) :
  (data = [] ->
   bar_plot rc_colors data data_yerr colors total_width single_width legend = Err ZeroDivisionError) /\
  (forall name v data', data = (name, v) :: data' -> xr_dims v = 0%nat ->
   bar_plot rc_colors data data_yerr colors total_width single_width legend = Ok []) /\
  (forall name v data', data = (name, v) :: data' -> (0 < xr_dims v)%nat ->
   series_points data_yerr name (xr_values v) = Ok [] ->
   bar_plot rc_colors data data_yerr colors total_width single_width legend = Err UnboundLocalError) /\
  (forall name v data' d, data = (name, v) :: data' -> (0 < xr_dims v)%nat ->
   data_yerr = Some d -> dict_get name d = None ->
   bar_plot rc_colors data data_yerr colors total_width single_width legend = Err KeyError) /\
  (forall name v data' p pts, data = (name, v) :: data' -> (0 < xr_dims v)%nat ->
   colors = Some [] -> series_points data_yerr name (xr_values v) = Ok (p :: pts) ->
   bar_plot rc_colors data data_yerr colors total_width single_width legend = Err ZeroDivisionError).
Proof.
  unfold bar_plot.
  split; [intros ->; reflexivity |].
  split; [| split; [| split]].
  - intros name v data' -> Hd. rewrite pf_div_length. cbn [exc_bind series_loop].
    rewrite Hd. reflexivity.
  - intros name v data' -> Hd Hp. rewrite pf_div_length. cbn [exc_bind series_loop].
    replace (xr_dims v =? 0)%nat with false by (symmetry; apply Nat.eqb_neq; lia).
    rewrite !pf_div_two. cbn [exc_bind]. rewrite Hp. reflexivity.
  - intros name v data' d -> Hd -> Hn. rewrite pf_div_length. cbn [exc_bind series_loop].
    replace (xr_dims v =? 0)%nat with false by (symmetry; apply Nat.eqb_neq; lia).
    rewrite !pf_div_two. cbn [exc_bind series_points]. unfold dict_getitem. rewrite Hn.
    reflexivity.
  - intros name v data' [y e] pts -> Hd -> Hp. rewrite pf_div_length. cbn [exc_bind series_loop].
    replace (xr_dims v =? 0)%nat with false by (symmetry; apply Nat.eqb_neq; lia).
    rewrite !pf_div_two. cbn [exc_bind]. rewrite Hp. reflexivity.
Qed.

Definition bar_data_flat : list (string * xr) :=
  [("allocationPeriod=0", {| xr_dims := 0; xr_values := [] |})].

Definition bar_data_empty_first : list (string * xr) :=
  [("allocationPeriod=0", {| xr_dims := 1; xr_values := [] |});
   ("allocationPeriod=1", {| xr_dims := 1; xr_values := [2; 3] |})].

Definition bar_data_two : list (string * xr) :=
  [("allocationPeriod=0", {| xr_dims := 1; xr_values := [10; 20; 30] |});
   ("allocationPeriod=1", {| xr_dims := 1; xr_values := [15; 15; 15] |})].

Definition bar_yerr_two : list (string * list Q) :=
  [("allocationPeriod=0", [1; 2; 1]); ("allocationPeriod=1", [1; 1; 1])].

Lemma bar_plot_edge_cases_witness :
  bar_plot ["C0"] [] None None (4 # 5) 1 true = Err ZeroDivisionError /\
  bar_plot ["C0"] bar_data_flat None None (4 # 5) 1 true = Ok [] /\
  bar_plot ["C0"] bar_data_empty_first None None (4 # 5) 1 true = Err UnboundLocalError /\
  bar_plot ["C0"] bar_data_two (Some [("allocationPeriod=1", [1; 1; 1])]) None (4 # 5) 1 true
    = Err KeyError /\
  bar_plot ["C0"] bar_data_two None (Some []) (4 # 5) 1 true = Err ZeroDivisionError.
Proof.
  split; [apply (proj1 (bar_plot_edge_cases ["C0"] [] None None (4 # 5) 1 true)); reflexivity |].
  split.
  { destruct (bar_plot_edge_cases ["C0"] bar_data_flat None None (4 # 5) 1 true) as [_ [H _]].
    apply (H "allocationPeriod=0" {| xr_dims := 0; xr_values := [] |} []); reflexivity. }
  split.
  { destruct (bar_plot_edge_cases ["C0"] bar_data_empty_first None None (4 # 5) 1 true)
      as [_ [_ [H _]]].
    apply (H "allocationPeriod=0" {| xr_dims := 1; xr_values := [] |} (tl bar_data_empty_first));
      [reflexivity | simpl; lia | reflexivity]. }
  split.
  { destruct (bar_plot_edge_cases ["C0"] bar_data_two (Some [("allocationPeriod=1", [1; 1; 1])])
                None (4 # 5) 1 true) as [_ [_ [_ [H _]]]].
    apply (H "allocationPeriod=0" (snd (hd ("", Build_xr 0 []) bar_data_two)) (tl bar_data_two)
             [("allocationPeriod=1", [1; 1; 1])]);
      [reflexivity | simpl; lia | reflexivity | reflexivity]. }
  destruct (bar_plot_edge_cases ["C0"] bar_data_two None (Some []) (4 # 5) 1 true)
    as [_ [_ [_ [_ H]]]].
  apply (H "allocationPeriod=0" (snd (hd ("", Build_xr 0 []) bar_data_two)) (tl bar_data_two)
           (10, None) [(20, None); (30, None)]);
    [reflexivity | simpl; lia | reflexivity | reflexivity].
Defined.

Definition handle_ok (tr : list ax_call) (h : nat) (name : string) : Prop :=
  exists x y e w c, nth_error tr h = Some (AxBar x y e w c name).

Lemma handle_ok_app (tr added : list ax_call) (h : nat) (name : string) :
  handle_ok tr h name -> handle_ok (tr ++ added) h name.
Proof.
  intros (x & y & e & w & c & H). exists x, y, e, w, c.
  rewrite nth_error_app1; [exact H |]. apply nth_error_Some. congruence.
Qed.

Lemma cycle_color_ok (colors : list string) (i : nat) :
  colors <> [] -> exists c, cycle_color colors i = Ok c.
Proof.
  intros Hc. unfold cycle_color.
  destruct (List.length colors) as [| len] eqn:E; [destruct colors; [congruence | discriminate] |].
  destruct (nth_error colors (i mod S len)) as [c |] eqn:En; [exists c; reflexivity |].
  apply nth_error_None in En. pose proof (Nat.mod_upper_bound i (S len) ltac:(lia)). lia.
Qed.

Lemma draw_points_ok (tr : list ax_call) (bar : option nat) (x : nat)
    (pts : list (Q * option Q)) (off w : Q) (c : string) (name : string) :
  exists added bar',
    draw_points tr bar x pts off w (Ok c) name = Ok ((tr ++ added)%list, bar') /\
    (pts = [] -> added = [] /\ bar' = bar) /\
    (pts <> [] -> exists b, bar' = Some b /\ handle_ok (tr ++ added) b name).
Proof.
  revert tr bar x. induction pts as [| [y e] pts IH]; intros tr bar x.
  - exists [], bar. split; [rewrite app_nil_r; reflexivity |].
    split; [intros _; split; reflexivity | congruence].
  - cbn [draw_points exc_bind].
    set (a := AxBar (pf_add (inject_Z (Z.of_nat x)) off) y e w c name).
    destruct (IH (tr ++ [a])%list (Some (List.length tr)) (S x))
      as (added & bar' & E & Hnil & Hcons).
    exists (a :: added), bar'. split; [rewrite E, <- app_assoc; reflexivity |].
    split; [discriminate |]. intros _.
    destruct pts as [| p pts'].
    + destruct (Hnil eq_refl) as [-> ->]. exists (List.length tr). split; [reflexivity |].
      exists (pf_add (inject_Z (Z.of_nat x)) off), y, e, w, c.
      rewrite nth_error_app2 by lia. rewrite Nat.sub_diag. reflexivity.
    + destruct (Hcons ltac:(discriminate)) as [b [Eb Hb]].
      exists b. split; [exact Eb |]. rewrite <- app_assoc in Hb. exact Hb.
Qed.

Definition series_drawable (data_yerr : option (list (string * list Q))) (s : string * xr) : Prop :=
  (0 < xr_dims (snd s))%nat /\
  exists pts, series_points data_yerr (fst s) (xr_values (snd s)) = Ok pts /\ pts <> [].

Lemma series_loop_legend (n : nat) (colors : list string) (bw sw : Q)
    (data_yerr : option (list (string * list Q))) (data : list (string * xr)) :
  colors <> [] -> Forall (series_drawable data_yerr) data ->
  forall i tr bar bars names,
  Forall2 (handle_ok tr) bars names ->
  exists tr' bars',
    series_loop n colors bw sw data_yerr i data tr bar bars = Ok (Finished tr' bars') /\
    Forall2 (handle_ok tr') bars' (names ++ map fst data).
Proof.
  intros Hc Hall. induction Hall as [| [name v] data [Hd (pts & Ep & Hp)] Hall IH];
    intros i tr bar bars names Hbars.
  - exists tr, bars. split; [reflexivity | rewrite app_nil_r; exact Hbars].
  - cbn [series_loop fst snd] in *.
    replace (xr_dims v =? 0)%nat with false by (symmetry; apply Nat.eqb_neq; lia).
    rewrite !pf_div_two. cbn [exc_bind]. rewrite Ep. cbn [exc_bind].
    destruct (cycle_color_ok colors i Hc) as [c Ec]. rewrite Ec.
    match goal with |- context [draw_points tr bar 0 pts ?off ?w (Ok c) name] =>
      destruct (draw_points_ok tr bar 0 pts off w c name) as (added & bar' & Ed & _ & Hcons)
    end.
    rewrite Ed. cbn [exc_bind].
    destruct (Hcons Hp) as [b [-> Hb]].
    destruct (IH (S i) (tr ++ added)%list (Some b) (bars ++ [b])%list (names ++ [name])%list)
      as (tr' & bars' & E' & H').
    + apply Forall2_app; [| constructor; [exact Hb | constructor]].
      eapply Forall2_impl; [| exact Hbars]. intros h nm. apply handle_ok_app.
    + exists tr', bars'. split; [exact E' |]. rewrite <- app_assoc in H'. exact H'.
Qed.

(** X18: When every series has dimensions and at least one point to draw,
    [bar_plot] ends with [ax.legend(bars, data.keys())]: one handle per
    series, in the order of [data], each the rectangle of a bar drawn
    with that series' label. *)
Theorem bar_plot_legend_handles (rc_colors : list string) (data : list (string * xr))
    (data_yerr : option (list (string * list Q))) (colors : option (list string))
    (total_width single_width : Q) :
  data <> [] ->
  match colors with Some c => c | None => rc_colors end <> [] ->
  Forall (series_drawable data_yerr) data ->
  exists tr handles,
    bar_plot rc_colors data data_yerr colors total_width single_width true
      = Ok (tr ++ [AxLegend handles (map fst data)])%list /\
    Forall2 (handle_ok tr) handles (map fst data).
Proof.
  intros Hne Hc Hall. unfold bar_plot.
  destruct data as [| d data']; [congruence |].
  rewrite pf_div_length. cbn [exc_bind].
  destruct (series_loop_legend (List.length (d :: data')) _
              (Qred (total_width / inject_Z (Z.of_nat (List.length (d :: data'))))) single_width
              data_yerr (d :: data') Hc Hall 0 [] None [] [] ltac:(constructor))
    as (tr & bars & E & H).
  rewrite E. cbn [exc_bind]. exists tr, bars. split; [reflexivity | exact H].
Qed.

Lemma bar_plot_legend_handles_witness :
  exists tr handles,
    bar_plot ["C0"; "C1"] bar_data_two (Some bar_yerr_two) None (4 # 5) 1 true
      = Ok (tr ++ [AxLegend handles ["allocationPeriod=0"; "allocationPeriod=1"]])%list /\
    Forall2 (handle_ok tr) handles ["allocationPeriod=0"; "allocationPeriod=1"].
Proof.
  apply (bar_plot_legend_handles ["C0"; "C1"] bar_data_two (Some bar_yerr_two) None (4 # 5) 1).
  - discriminate.
  - discriminate.
  - repeat constructor; simpl; try lia; eexists; (split; [reflexivity | discriminate]).
Defined.

Lemma skipn_replace_nth {A} (m j : nat) (x : A) (l : list A) :
  (j < m)%nat -> skipn m (replace_nth j x l) = skipn m l.
Proof.
  revert m l. induction j as [| j IH]; intros m [| y l] H; try reflexivity;
    destruct m as [| m]; try lia; cbn [replace_nth skipn]; [reflexivity |].
  apply IH. lia.
Qed.

Lemma fill_row_short (ncols j : nat) (zs : list Z) (row : list (option Z)) :
  List.length row = ncols -> (j + List.length zs <= ncols)%nat ->
  Forall (fun z => in_int64 z = true) zs ->
  fill_row ncols j (map Z_to_string zs) row
  = Ok (firstn j row ++ map Some zs ++ skipn (j + List.length zs) row)%list.
Proof.
  revert j row. induction zs as [| z zs IH]; intros j row Hrow Hj Hint; cbn [map fill_row].
  - rewrite Nat.add_0_r, firstn_skipn. reflexivity.
  - apply Forall_cons_iff in Hint as [Hz Hzs].
    rewrite py_int_Z_to_string. cbn [exc_bind]. simpl in Hj.
    replace (ncols <=? j)%nat with false by (symmetry; apply Nat.leb_gt; lia).
    rewrite Hz. cbn [negb].
    rewrite IH; [| rewrite replace_nth_length; exact Hrow | lia | exact Hzs].
    rewrite firstn_replace_nth by lia. rewrite skipn_replace_nth by lia.
    rewrite <- app_assoc. cbn [List.length]. rewrite Nat.add_succ_comm. reflexivity.
Qed.

Lemma fill_row_long (ncols j : nat) (zs : list Z) (row : list (option Z)) :
  List.length row = ncols -> (j <= ncols)%nat -> (ncols < j + List.length zs)%nat ->
  Forall (fun z => in_int64 z = true) zs ->
  fill_row ncols j (map Z_to_string zs) row = Err IndexError.
Proof.
  revert j row. induction zs as [| z zs IH]; intros j row Hrow Hj0 Hj Hint; simpl in Hj; [lia |].
  cbn [map fill_row]. rewrite py_int_Z_to_string. cbn [exc_bind].
  destruct (ncols <=? j)%nat eqn:E; [reflexivity |].
  apply Nat.leb_gt in E. apply Forall_cons_iff in Hint as [Hz Hzs].
  rewrite Hz. cbn [negb].
  apply IH; [rewrite replace_nth_length; exact Hrow | lia | lia | exact Hzs].
Qed.

Lemma skipn_repeat {A} (x : A) (m k : nat) : skipn m (repeat x k) = repeat x (k - m).
Proof.
  revert k. induction m as [| m IH]; intros k; [rewrite Nat.sub_0_r; reflexivity |].
  destruct k as [| k]; [reflexivity |]. cbn [repeat skipn]. rewrite IH. reflexivity.
Qed.

Definition csv_fill (ncols : nat) (line : string) : exc (list (option Z)) :=
  let* vals := py_split line "," in fill_row ncols 0 vals (repeat None ncols).

Lemma csv_fill_row (ncols : nat) (row : list Z) :
  row <> [] -> Forall (fun z => in_int64 z = true) row ->
  csv_fill ncols (csv_line row)
  = if (List.length row <=? ncols)%nat
    then Ok (map Some row ++ repeat None (ncols - List.length row))%list
    else Err IndexError.
Proof.
  intros Hne Hint. unfold csv_fill. rewrite csv_line_split by exact Hne. cbn [exc_bind].
  destruct (Nat.leb_spec (List.length row) ncols) as [H | H].
  - rewrite fill_row_short by (rewrite ?repeat_length; lia || exact Hint).
    rewrite skipn_repeat. reflexivity.
  - apply fill_row_long; [apply repeat_length | lia | lia | exact Hint].
Qed.

(** X5: [output_to_arr] does not check the row widths against the header
    (on the CSV texts of [output_to_arr_parses_csv], rows now of any
    non-zero width, every field within the int64 range): a row with
    fewer fields than columns leaves the remaining cells of [np.empty]
    unwritten; a row with more fields raises [IndexError]. *)
Theorem output_to_arr_row_widths (r : result) (fn : string) (header : list string)
    (rows : list (list Z)) (k : nat) :
  header <> [] ->
  Forall (fun h => char_free ","%char h /\ char_free "010"%char h) header ->
  (2 <= List.length rows)%nat ->
  Forall (fun row => row <> []) rows ->
  Forall (Forall (fun z => in_int64 z = true)) rows ->
  dict_get fn (res_output r) = Some (csv_text header rows k) ->
  (Forall (fun row => List.length row <= List.length header)%nat rows ->
   output_to_arr r fn "," newline None (Some "all")
   = Ok {| shape := (List.length rows, List.length header); dtype := DInt;
           cells := map (fun row => map Some row ++
                                    repeat None (List.length header - List.length row))%list rows |}) /\
  (Exists (fun row => List.length header < List.length row)%nat rows ->
   output_to_arr r fn "," newline None (Some "all") = Err IndexError).
Proof.
  intros Hh Hhc Hr Hne Hint Hfn.
  rewrite (output_to_arr_csv r fn header rows k Hh Hhc Hr Hne Hfn).
  change (fun line => let* vals := py_split line "," in
                      fill_row (List.length header) 0 vals (repeat None (List.length header)))
    with (csv_fill (List.length header)).
  set (n := List.length header). split.
  - intros Hshort. clear Hr Hfn.
    assert (E : exc_map (csv_fill n) (map csv_line rows)
                = Ok (map (fun row => map Some row ++ repeat None (n - List.length row))%list rows)).
    { induction rows as [| row rows IH]; [reflexivity |].
      inversion Hne as [| ? ? Hrow Hne']; inversion Hshort as [| ? ? Hlen Hshort'];
        inversion Hint as [| ? ? Hzs Hint']; subst.
      cbn [map exc_map]. rewrite csv_fill_row by assumption.
      replace (List.length row <=? n)%nat with true by (symmetry; apply Nat.leb_le; exact Hlen).
      cbn [exc_bind]. rewrite IH by assumption. reflexivity. }
    rewrite E. reflexivity.
  - intros Hlong. clear Hr Hfn.
    assert (E : exc_map (csv_fill n) (map csv_line rows) = Err IndexError).
    { revert Hne Hint. induction Hlong as [row rows Hlen | row rows _ IH]; intros Hne Hint;
        inversion Hne as [| ? ? Hrow Hne']; inversion Hint as [| ? ? Hzs Hint']; subst;
        cbn [map exc_map]; rewrite csv_fill_row by assumption.
      - replace (List.length row <=? n)%nat with false by (symmetry; apply Nat.leb_gt; exact Hlen).
        reflexivity.
      - destruct (List.length row <=? n)%nat; [| reflexivity].
        cbn [exc_bind]. rewrite (IH Hne' Hint'). reflexivity. }
    rewrite E. reflexivity.
Qed.

Definition csv_ragged_result : result :=
  {| res_params := [];
     res_output := [("short.csv", csv_text ["a"; "b"; "c"] [[1; 2; 3]; [4]]%Z 1);
                    ("long.csv", csv_text ["a"; "b"] [[1; 2]; [3; 4; 5]]%Z 0)];
     res_id := "r2" |}.

Lemma output_to_arr_row_widths_witness :
  output_to_arr csv_ragged_result "short.csv" "," newline None (Some "all")
  = Ok {| shape := (2%nat, 3%nat); dtype := DInt;
          cells := [[Some 1; Some 2; Some 3]; [Some 4; None; None]]%Z |} /\
  output_to_arr csv_ragged_result "long.csv" "," newline None (Some "all") = Err IndexError.
Proof.
  split.
  - apply (output_to_arr_row_widths csv_ragged_result "short.csv" ["a"; "b"; "c"]
             [[1; 2; 3]; [4]]%Z 1);
      [discriminate | repeat constructor; solve_char_free | simpl; lia
      | repeat constructor; discriminate | repeat constructor | reflexivity
      | repeat constructor; simpl; lia].
  - apply (output_to_arr_row_widths csv_ragged_result "long.csv" ["a"; "b"]
             [[1; 2]; [3; 4; 5]]%Z 0);
      [discriminate | repeat constructor; solve_char_free | simpl; lia
      | repeat constructor; discriminate | repeat constructor | reflexivity |].
    apply Exists_cons_tl, Exists_cons_hd. simpl. lia.
Defined.

(* ------------------------------------------------------------------ *)
(** ** Negative station counts *)

Lemma string_app_assoc (a b c : string) : (a ++ b) ++ c = a ++ (b ++ c).
Proof. induction a as [| ch a IH]; simpl; [reflexivity | now rewrite IH]. Qed.

Lemma isnumeric_last_digit (s : string) :
  isnumeric s = true ->
  exists p d, s = p ++ String d EmptyString /\ is_digit d = true.
Proof.
  intros Hs. pose proof (isnumeric_digits s Hs) as Hd.
  assert (Hne : list_ascii_of_string s <> []) by (destruct s; [discriminate | discriminate]).
  destruct (exists_last Hne) as [l' [d Hl]].
  exists (string_of_list_ascii l'), d. split.
  - rewrite <- (string_of_list_ascii_of_string s), Hl, string_of_list_ascii_app. reflexivity.
  - rewrite Hl, forallb_app in Hd. simpl in Hd.
    destruct (is_digit d); [reflexivity | destruct (forallb _ _); discriminate].
Qed.

(** A string ["-" ++ digits ++ "bps"] is not a rate string. *)
Lemma data_rate_negative_string (z : Z) :
  (0 <= z)%Z -> data_rate_bps_2_float_mbps ("-" ++ Z_to_string z ++ "bps") = Err ValueError.
Proof.
  intros Hz. destruct (Z_to_string_nonneg z Hz) as [Hnum _].
  destruct (isnumeric_last_digit _ Hnum) as [p [d [Hs Hd]]].
  assert (Hk : forall c, is_digit c = false -> Ascii.eqb d c = false).
  { intros c Hc. destruct (Ascii.eqb_spec d c) as [-> |]; [congruence | reflexivity]. }
  set (s := "-" ++ Z_to_string z ++ "bps").
  assert (L3 : str_last 3 s = "bps").
  { unfold s. rewrite <- string_app_assoc, str_last_app by (cbn; lia). reflexivity. }
  assert (D3 : str_drop_last 3 s = "-" ++ Z_to_string z).
  { unfold s. rewrite <- string_app_assoc, str_drop_last_app by (cbn; lia).
    apply str_append_empty_r. }
  assert (L4 : str_last 4 s = String d "bps").
  { unfold s. rewrite Hs, !string_app_assoc. cbn [String.append].
    change (String "-" (p ++ String d "bps")) with (("-" ++ p) ++ String d "bps").
    rewrite str_last_app by (cbn; lia). reflexivity. }
  unfold data_rate_bps_2_float_mbps. rewrite L3, D3, L4.
  cbn [String.eqb Ascii.eqb Bool.eqb andb String.append isnumeric list_ascii_of_string forallb].
  change (is_digit "-") with false. cbn [andb].
  rewrite (Hk "k"%char), (Hk "M"%char), (Hk "G"%char) by reflexivity.
  reflexivity.
Qed.

Lemma f64_abs_value_nonneg (m : positive) (e : Z) : 0 <= f64_abs_value m e.
Proof.
  destruct e as [| e | e]; unfold f64_abs_value;
    [| | unfold Qle; simpl; lia];
    change 0 with (inject_Z 0); rewrite <- Zle_Qle;
    apply Z.mul_nonneg_nonneg; [lia | apply Z.pow_nonneg; lia | lia | apply Z.pow_nonneg; lia].
Qed.

(** A float64 value whose sign bit is set: [-0.0], negative, or [-inf]. *)
Definition f64_neg (x : f64) : Prop :=
  x = S754_zero true \/ x = S754_infinity true \/ exists m e, x = S754_finite true m e.

(** A string that starts with a minus sign and that
    [data_rate_bps_2_float_mbps] rejects. *)
Definition unparsable_neg_rate (s : string) : Prop :=
  (exists t, s = String "-" t) /\ data_rate_bps_2_float_mbps s = Err ValueError.

Lemma format_negative_rate (x : f64) :
  f64_neg x -> unparsable_neg_rate (format_0f x ++ "bps").
Proof.
  intros [-> | [-> | [m [e ->]]]].
  - split; [eexists; reflexivity | vm_compute; reflexivity].
  - split; [eexists; reflexivity | vm_compute; reflexivity].
  - split; [eexists; reflexivity |].
    unfold format_0f, sign_prefix. rewrite string_app_assoc.
    apply data_rate_negative_string, round_half_even_nonneg, f64_abs_value_nonneg.
Qed.

(** [phy_rate / n] for a negative [n] a float can hold: a negative finite
    value (no overflow, no underflow). *)
Lemma rate_per_sta_negative (mode : string) (e : mcs_entry) (n : Z) :
  dict_get mode MCS_PARAMS = Some e -> (n < 0)%Z -> f64_is_inf (f64_of_Z n) = false ->
  exists m ex, f64_div (phy_rate e) (f64_of_Z n) = S754_finite true m ex.
Proof.
  intros He Hn Hi.
  destruct (MCS_PARAMS_phy_rate mode e He) as [mp [ep [Ep Bp]]].
  destruct n as [| p | p]; try lia.
  destruct (proj1 (f64_of_Z_neg p)) as [E | [mn [en [En [Hen [Hdn [Hl Hu]]]]]]];
    [rewrite E in Hi; discriminate Hi |].
  pose proof (Zdigits2_pos (Zpos p) ltac:(lia)).
  rewrite Ep, En.
  destruct (f64_div_finite_spec false mp ep true mn en) as [q [e' [l [Ed [Hq Hm]]]]].
  rewrite Ed. cbn [xorb].
  destruct (Hm ltac:(lia)) as [Hq1 [Hb Hle]].
  destruct (binary_round_aux_mag true q e' l Hq1 ltac:(lia)) as [[Einf | [r [e'' [Ef _]]]] Hni].
  - exfalso. exact (Hni ltac:(lia) ltac:(lia) Einf).
  - exists r, e''. exact Ef.
Qed.

Lemma f64_mul_neg (f : f64) (m : positive) (e : Z) :
  f64_nonneg f -> f64_neg (f64_mul f (S754_finite true m e)).
Proof.
  intros [-> | [-> | [m' [e' ->]]]].
  - left. reflexivity.
  - right; left. reflexivity.
  - unfold f64_mul, SFmul. cbn [xorb].
    destruct (binary_round_aux_sign true (Zpos (m' * m)) (e' + e) loc_Exact ltac:(lia))
      as [E | [E | [p [e'' E]]]].
    + left. exact E.
    + right; left. exact E.
    + right; right. exists p, e''. exact E.
Qed.

(** X19: With a negative station count a float can hold, [getAppDataRate]
    does not raise: it returns a rate string for each non-negative
    fraction (a float, not [-0.0], or an int a float can hold); every one
    of them starts with a minus sign (["-0bps"] for a zero fraction), and
    [data_rate_bps_2_float_mbps] (used by [compute_norm_aggr_thr]) rejects
    it with [ValueError]. *)
Theorem getAppDataRate_negative_stas_unparsable (mode : string) (e : mcs_entry) (n : Z) :
  dict_get mode MCS_PARAMS = Some e -> (n < 0)%Z -> f64_is_inf (f64_of_Z n) = false ->
  (forall f, f64_nonneg f -> exists s,
     getAppDataRate mode n (PyFloat f) = Ok (PyList [PyStr s]) /\ unparsable_neg_rate s) /\
  (forall l, Forall is_fraction l -> exists vs,
     getAppDataRate mode n (PyList l) = Ok (PyList vs) /\
     List.length vs = List.length l /\
     Forall (fun v => exists s, v = PyStr s /\ unparsable_neg_rate s) vs).
Proof.
  intros He Hn Hi.
  destruct (rate_per_sta_negative mode e n He Hn Hi) as [mr [er Er]].
  unfold getAppDataRate, dict_getitem. rewrite He. cbn [exc_bind].
  rewrite py_float_of_int_ok by exact Hi. cbn [exc_bind].
  rewrite py_fdiv_int by lia. cbn [exc_bind]. rewrite Er. split.
  - intros f Hf. eexists. split; [reflexivity |].
    apply format_negative_rate, f64_mul_neg, Hf.
  - intros l Hall. induction Hall as [| v l Hv Hall IH].
    + exists []. repeat split; constructor.
    + destruct IH as [vs [Hvs [Hlen Hfa]]].
      cbn [exc_map]. cbn [exc_bind] in Hvs |- *.
      destruct (exc_map _ l) as [ys |] eqn:E; [| discriminate Hvs].
      injection Hvs as <-.
      destruct Hv as [[f [-> Hf]] | [z [-> [Hz Hzi]]]]; cbn [py_mul_float];
        [| rewrite py_float_of_int_ok by exact Hzi]; cbn [exc_bind].
      * eexists. split; [reflexivity |]. split; [simpl; congruence |].
        constructor; [| exact Hfa]. eexists; split; [reflexivity |].
        apply format_negative_rate, f64_mul_neg, Hf.
      * eexists. split; [reflexivity |]. split; [simpl; congruence |].
        constructor; [| exact Hfa]. eexists; split; [reflexivity |].
        apply format_negative_rate, f64_mul_neg, f64_of_Z_nonneg; assumption.
Qed.

Lemma getAppDataRate_negative_stas_unparsable_witness :
  getAppDataRate "DMG_MCS4" (-4) (PyFloat (f64_lit 3 4))
    = Ok (PyList [PyStr "-216562500bps"]) /\
  unparsable_neg_rate "-216562500bps" /\
  (exists vs, getAppDataRate "DMG_MCS4" (-4) (PyList [PyInt 0; PyFloat (f64_lit 1 10)])
              = Ok (PyList vs) /\
     List.length vs = 2%nat /\
     Forall (fun v => exists s, v = PyStr s /\ unparsable_neg_rate s) vs).
Proof.
  destruct (getAppDataRate_negative_stas_unparsable "DMG_MCS4"
              {| phy_rate := f64_of_Z 1155000000; mac_rate := 1103569911;
                 app_rate := Some 1107782893%Z |} (-4)) as [H1 H2];
    [reflexivity | lia | vm_compute; reflexivity |].
  assert (Hf : f64_nonneg (f64_lit 3 4)).
  { vm_compute. right; right. eexists _, _. reflexivity. }
  destruct (H1 _ Hf) as [s [Es Hs]].
  assert (Hs' : s = "-216562500bps").
  { assert (E : getAppDataRate "DMG_MCS4" (-4) (PyFloat (f64_lit 3 4))
                = Ok (PyList [PyStr "-216562500bps"])) by (vm_compute; reflexivity).
    rewrite E in Es. congruence. }
  subst s. split; [exact Es |]. split; [exact Hs |].
  apply H2. apply Forall_cons; [| apply Forall_cons; [| apply Forall_nil]].
  - right. exists 0%Z. split; [reflexivity | split; [lia | reflexivity]].
  - left. exists (f64_lit 1 10). split; [reflexivity |].
    vm_compute. right; right. eexists _, _. reflexivity.
Defined.
